(** * tif-downloader: tile mathematics, downloader, mosaic and export

    A shallow embedding of the tile-acquisition-and-mosaic pipeline of the
    repository (app/core/tile.py, app/core/downloader.py, app/core/merger.py,
    app/core/exporter.py and the estimate, download, progress and result
    endpoints of app/api/download.py), followed by the properties
    established about it.

    Conventions of the embedding.
    - Python [int] is [Z].
    - Python [float] is the binary64 format. The progress percentage and
      the tile column of a longitude, which use the four arithmetic
      operations only, are computed with the processor's binary64
      operations ([PrimFloat]). The tile mathematics goes through
      [tan], [asinh], [sinh] and [atan]: module [Tile] states it over the
      real numbers ([R]), and module [Rounded] repeats the conversions with
      a rounding after every operation.
    - A raised exception is the left injection of a sum; [print] output and
      [asyncio.sleep] calls are recorded in explicit logs.
    - The network is an oracle giving the outcome of every HTTP attempt, and
      [asyncio.as_completed] is an oracle choosing which pending task
      finishes next. *)

From Stdlib Require Import ZArith List Reals Lqa Lra Lia QArith Qreals Zfloor.
From Stdlib Require Import Qround Permutation Sorted Ascii String.
From Stdlib Require Import Floats.
From stdpp Require Import gmap strings list fin_maps pretty sorting.

(** A decimal literal of a float stands for the nearest binary64 value, as
    it does in Python. *)
#[global] Set Warnings "-inexact-float".

(** ** Python built-ins used by the code *)

Module Py.

(** [range(a, b)]. *)
Definition range (a b : Z) : list Z :=
  map (fun i => (a + Z.of_nat i)%Z) (seq 0 (Z.to_nat (b - a))).

(** [range(a, b, -1)]. *)
Definition range_down (a b : Z) : list Z :=
  map (fun i => (a - Z.of_nat i)%Z) (seq 0 (Z.to_nat (a - b))).

(** [int(x)] on a float: truncation toward zero. *)
Definition int (r : R) : Z :=
  if Rle_dec 0 r then Zfloor r else Zceil r.

(** Exceptions that the modelled code raises or catches. *)
Inductive exn :=
| ValueError (msg : string)
| RuntimeError (msg : string)
| ZeroDivisionError
| OSError (msg : string)
| HTTPException (status_code : Z) (detail : string)
| AttributeError (msg : string)
| TypeError (msg : string)
| OverflowError (msg : string).

Definition bind {A B : Type} (m : exn + A) (k : A -> exn + B) : exn + B :=
  match m with
  | inl e => inl e
  | inr a => k a
  end.

(** A [for] loop whose body can raise: the state is threaded through the
    iterations and the first exception ends the loop. *)
Fixpoint for_each {A S : Type} (xs : list A) (s : S)
    (body : S -> A -> exn + S) : exn + S :=
  match xs with
  | [] => inr s
  | x :: rest =>
      match body s x with
      | inl e => inl e
      | inr s' => for_each rest s' body
      end
  end.

(** [str(n)] for an integer. *)
Definition str (n : Z) : string := pretty n.

(** [s.lower()] on ASCII text. *)
Definition lower_ascii (c : ascii) : ascii :=
  let n := nat_of_ascii c in
  if (65 <=? n)%nat && (n <=? 90)%nat then ascii_of_nat (n + 32) else c.

Fixpoint lower (s : string) : string :=
  match s with
  | EmptyString => EmptyString
  | String c rest => String (lower_ascii c) (lower rest)
  end.

(** [range(a, b, step)]; a zero step is refused. *)
Definition range_step (a b step : Z) : exn + list Z :=
  if (step =? 0)%Z then inl (ValueError "range() arg 3 must not be zero")
  else
    let n :=
      if (0 <? step)%Z then ((b - a + step - 1) / step)%Z
      else ((a - b - step - 1) / (- step))%Z in
    inr (map (fun i => (a + Z.of_nat i * step)%Z) (seq 0 (Z.to_nat n))).

(** [a / b] on floats. *)
Definition fdiv (a b : R) : exn + R :=
  if Req_EM_T b 0 then inl ZeroDivisionError else inr (a / b)%R.

(** [s.endswith(suffix)]. *)
Definition endswith (s suffix : string) : bool :=
  let n := String.length s in
  let m := String.length suffix in
  (m <=? n)%nat && String.eqb (substring (n - m) m s) suffix.

End Py.

Notation "'let!' x ':=' m 'in' k" := (Py.bind m (fun x => k))
  (at level 10, x pattern, m at level 100, k at level 200).

(** ** Python floats on binary64 *)

Module Binary64.

(** An integer as a binary floating-point number that is not rounded
    yet: mantissa [n], exponent 0. *)
Definition of_Z (n : Z) : spec_float :=
  match n with
  | Z0 => S754_zero false
  | Zpos m => S754_finite false m 0
  | Zneg m => S754_finite true m 0
  end.

(** The float nearest to the fraction [a / b] of two integers, ties to
    the even mantissa, for [b <> 0]. *)
Definition nearest (a b : Z) : float :=
  SF2Prim (SFdiv prec emax (of_Z a) (of_Z b)).

(** The fraction [a / b] rounds beyond the largest float: it is at least
    halfway from the largest float to [2 ^ 1024]. *)
Definition overflows (a b : Z) : bool :=
  ((2 ^ 1024 - 2 ^ 970) * Z.abs b <=? Z.abs a)%Z.

(** [a / b] on integers. *)
Definition truediv (a b : Z) : Py.exn + float :=
  if (b =? 0)%Z then inl Py.ZeroDivisionError
  else if overflows a b
  then inl (Py.OverflowError "integer division result too large for a float")
  else inr (nearest a b).


(** The exact value of a finite float. *)
Definition value (x : float) : option Q :=
  match Prim2SF x with
  | S754_zero _ => Some 0%Q
  | S754_finite s m e =>
      let v :=
        if (0 <=? e)%Z then inject_Z (Zpos m * 2 ^ e)
        else Zpos m # Z.to_pos (2 ^ (- e)) in
      Some (if s then (- v)%Q else v)
  | S754_infinity _ | S754_nan => None
  end.

(** [int(x)] on a float: truncation toward zero. *)
Definition int (x : float) : Py.exn + Z :=
  match Prim2SF x with
  | S754_zero _ => inr 0%Z
  | S754_finite s m e =>
      let n :=
        if (0 <=? e)%Z then (Zpos m * 2 ^ e)%Z
        else (Zpos m / 2 ^ (- e))%Z in
      inr (if s then (- n)%Z else n)
  | S754_infinity _ =>
      inl (Py.OverflowError "cannot convert float infinity to integer")
  | S754_nan => inl (Py.ValueError "cannot convert float NaN to integer")
  end.

(** The integer nearest to a rational, ties to the even one. *)
Definition half_even (q : Q) : Z :=
  let f := Qfloor q in
  match (q - inject_Z f ?= 1 # 2)%Q with
  | Lt => f
  | Gt => (f + 1)%Z
  | Eq => if Z.even f then f else (f + 1)%Z
  end.

(** The float that the decimal [k / 10 ^ ndigits] reads as; a zero keeps
    the sign of the number it was rounded from. *)
Definition decimal (negative : bool) (k : Z) (ndigits : nat) : float :=
  if (k =? 0)%Z then (if negative then neg_zero else zero)
  else nearest k (10 ^ Z.of_nat ndigits).

(** [round(x, ndigits)] on a float, for [ndigits >= 0]: the exact value of
    [x] is rounded to [ndigits] decimals, ties to the even last digit, and
    the decimal is read back as a float. An infinity or a NaN is returned
    as it is. *)
Definition round (x : float) (ndigits : nat) : float :=
  match value x with
  | Some v =>
      decimal (get_sign x)
        (half_even (v * inject_Z (10 ^ Z.of_nat ndigits))) ndigits
  | None => x
  end.


(** [2.0 ** zoom] for an integer [zoom]. *)
Definition pow2 (zoom : Z) : Py.exn + float :=
  if (1024 <=? zoom)%Z
  then inl (Py.OverflowError "(34, 'Numerical result out of range')")
  else inr (Z.ldexp one zoom).

End Binary64.

(** ** app/config.py *)

Module Config.

Definition TILE_SIZE : Z := 256.

Record SourceConfig := {
  url : string;
  subdomains : list string;
  max_zoom : Z
}.

(** The keys of [TILE_SOURCES] with their zoom ceilings; URL templates are
    kept for the two hosts that matter to the proxy rule. *)
Definition TILE_SOURCES : gmap string SourceConfig :=
  list_to_map
    [ ("google_satellite",
       {| url := "https://mt{s}.google.com/vt/lyrs=s&x={x}&y={y}&z={z}";
          subdomains := ["0"; "1"; "2"; "3"]; max_zoom := 20 |});
      ("google_map",
       {| url := "https://mt{s}.google.com/vt/lyrs=m&x={x}&y={y}&z={z}";
          subdomains := ["0"; "1"; "2"; "3"]; max_zoom := 20 |});
      ("google_hybrid",
       {| url := "https://mt{s}.google.com/vt/lyrs=y&x={x}&y={y}&z={z}";
          subdomains := ["0"; "1"; "2"; "3"]; max_zoom := 20 |});
      ("osm",
       {| url := "https://{s}.tile.openstreetmap.org/{z}/{x}/{y}.png";
          subdomains := ["a"; "b"; "c"]; max_zoom := 19 |});
      ("arcgis_satellite",
       {| url := "https://server.arcgisonline.com/ArcGIS/rest/services/World_Imagery/MapServer/tile/{z}/{y}/{x}";
          subdomains := []; max_zoom := 19 |});
      ("carto_light",
       {| url := "https://{s}.basemaps.cartocdn.com/light_all/{z}/{x}/{y}.png";
          subdomains := ["a"; "b"; "c"; "d"]; max_zoom := 19 |});
      ("carto_dark",
       {| url := "https://{s}.basemaps.cartocdn.com/dark_all/{z}/{x}/{y}.png";
          subdomains := ["a"; "b"; "c"; "d"]; max_zoom := 19 |});
      ("tianditu_satellite",
       {| url := "https://t{s}.tianditu.gov.cn/img_w/wmts";
          subdomains := ["0"; "1"; "2"; "3"; "4"; "5"; "6"; "7"];
          max_zoom := 18 |});
      ("tianditu_vector",
       {| url := "https://t{s}.tianditu.gov.cn/vec_w/wmts";
          subdomains := ["0"; "1"; "2"; "3"; "4"; "5"; "6"; "7"];
          max_zoom := 18 |}) ].

(** [list(TILE_SOURCES.keys())] as it is printed in error messages. *)
Definition available : string :=
  "['google_satellite', 'google_map', 'google_hybrid', 'osm', 'arcgis_satellite', 'carto_light', 'carto_dark', 'tianditu_satellite', 'tianditu_vector']".

(** [DOWNLOAD_SETTINGS]. *)
Definition max_concurrent : Z := 10.
Definition retry_times : Z := 3.
Definition timeout : Z := 30.
Definition delay : Q := 1 # 10.

End Config.

(** ** app/core/tile.py *)

Module Tile.

Local Open Scope R_scope.

Record TileBounds := {
  north : R;
  south : R;
  east : R;
  west : R
}.

Record TileCoord := {
  x : Z;
  y : Z;
  z : Z
}.

(** [math.radians] and [math.degrees]. *)
Definition radians (d : R) : R := d * (PI / 180).
Definition degrees (r : R) : R := r * (180 / PI).

(** [2.0 ** zoom]. *)
Definition pow2 (zoom : Z) : R := powerRZ 2 zoom.

Definition latlng_to_tile_float (lat lng : R) (zoom : Z) : R * R :=
  let lat := Rmax (-85.05112878) (Rmin 85.05112878 lat) in
  let n := pow2 zoom in
  let x := (lng + 180) / 360 * n in
  let y := (1 - arcsinh (tan (radians lat)) / PI) / 2 * n in
  (x, y).

Definition latlng_to_tile (lat lng : R) (zoom : Z) : Z * Z :=
  let '(x, y) := latlng_to_tile_float lat lng zoom in
  let n := pow2 zoom in
  let x_int := Z.max 0 (Z.min (Py.int n - 1) (Py.int x)) in
  let y_int := Z.max 0 (Z.min (Py.int n - 1) (Py.int y)) in
  (x_int, y_int).

Definition tile_to_latlng (x y : Z) (zoom : Z) : TileBounds :=
  let n := pow2 zoom in
  let west := IZR x / n * 360 - 180 in
  let north := degrees (atan (sinh (PI * (1 - IZR (2 * y) / n)))) in
  let east := IZR (x + 1) / n * 360 - 180 in
  let south := degrees (atan (sinh (PI * (1 - IZR (2 * (y + 1)) / n)))) in
  {| north := north; south := south; east := east; west := west |}.

Definition get_tiles_in_bounds (north south east west : R) (zoom : Z)
  : list TileCoord :=
  let '(x_min, y_min) := latlng_to_tile north west zoom in
  let '(x_max, y_max) := latlng_to_tile south east zoom in
  flat_map
    (fun x => map (fun y => {| x := x; y := y; z := zoom |})
                  (Py.range y_min (y_max + 1)))
    (Py.range x_min (x_max + 1)).

Definition get_tile_matrix_size (north south east west : R) (zoom : Z)
  : Z * Z * Z * Z * Z * Z :=
  let '(x_min, y_min) := latlng_to_tile north west zoom in
  let '(x_max, y_max) := latlng_to_tile south east zoom in
  let cols := (x_max - x_min + 1)%Z in
  let rows := (y_max - y_min + 1)%Z in
  (x_min, y_min, x_max, y_max, cols, rows).

Definition get_merged_bounds (x_min y_min x_max y_max : Z) (zoom : Z)
  : TileBounds :=
  let nw_bounds := tile_to_latlng x_min y_min zoom in
  let se_bounds := tile_to_latlng x_max y_max zoom in
  {| north := north nw_bounds; south := south se_bounds;
     east := east se_bounds; west := west nw_bounds |}.

Definition estimate_tile_count (north south east west : R) (zoom : Z) : Z :=
  let '(x_min, y_min) := latlng_to_tile north west zoom in
  let '(x_max, y_max) := latlng_to_tile south east zoom in
  ((x_max - x_min + 1) * (y_max - y_min + 1))%Z.

(** The [for zoom in range(20, 0, -1)] loop: the first zoom that fits is
    returned from inside the loop, [1] after it. *)
Fixpoint get_optimal_zoom_loop (count : Z -> Z) (max_tiles : Z)
    (zooms : list Z) : Z :=
  match zooms with
  | [] => 1
  | zoom :: rest =>
      if (count zoom <=? max_tiles)%Z then zoom
      else get_optimal_zoom_loop count max_tiles rest
  end.

Definition get_optimal_zoom (north south east west : R) (max_tiles : Z) : Z :=
  get_optimal_zoom_loop (estimate_tile_count north south east west)
                        max_tiles (Py.range_down 20 0).

Definition meters_per_pixel (lat : R) (zoom : Z) : R :=
  let earth_circumference := 40075016.686 in
  earth_circumference * cos (radians lat)
  / (IZR Config.TILE_SIZE * pow2 zoom).

End Tile.

(** ** app/core/tile.py on binary64: the longitude of a tile

    The column of [latlng_to_tile] and the west and east edges of
    [tile_to_latlng] depend on the longitude only and use no function of
    the mathematics library. *)

Module Tile64.





End Tile64.
(** ** The parts of Pillow the code relies on *)

Module PIL.

Inductive Mode := RGB | RGBA | L.

Definition Mode_eqb (a b : Mode) : bool :=
  match a, b with
  | RGB, RGB | RGBA, RGBA | L, L => true
  | _, _ => false
  end.

(** A colour is an (r, g, b) triple. *)
Definition Color : Type := Z * Z * Z.

(** A bitmap: a mode, a (width, height) size and the colour at each pixel;
    [getpixel] is meaningful for coordinates inside the size. *)
Record Image := {
  mode : Mode;
  size : Z * Z;
  getpixel : Z -> Z -> Color
}.

(** [Image.new(mode, size, color)]; Pillow refuses negative dimensions. *)
Definition new (mode : Mode) (size : Z * Z) (color : Color)
  : Py.exn + Image :=
  let '(w, h) := size in
  if ((w <? 0) || (h <? 0))%Z
  then inl (Py.ValueError "Width and height must be >= 0")
  else inr {| mode := mode; size := size; getpixel := fun _ _ => color |}.

(** [im.convert(mode)]. *)
Definition convert (im : Image) (m : Mode) : Image :=
  {| mode := m; size := size im; getpixel := getpixel im |}.

(** [dest.paste(src, (px, py))]: the box of [src] placed at [(px, py)]
    overwrites [dest]; the destination keeps its mode and size. *)
Definition paste (dest src : Image) (pos : Z * Z) : Image :=
  let '(px, py) := pos in
  let '(w, h) := size src in
  {| mode := mode dest;
     size := size dest;
     getpixel := fun i j =>
       if ((px <=? i) && (i <? px + w) && (py <=? j) && (j <? py + h))%Z
       then getpixel src (i - px)%Z (j - py)%Z
       else getpixel dest i j |}.

(** [im.crop((left, top, right, bottom))]. *)
Definition crop (im : Image) (box : Z * Z * Z * Z) : Image :=
  let '(x0, y0, x1, y1) := box in
  {| mode := mode im;
     size := ((x1 - x0)%Z, (y1 - y0)%Z);
     getpixel := fun i j => getpixel im (x0 + i)%Z (y0 + j)%Z |}.

(** [im.resize(size, Image.Resampling.LANCZOS)]. The filter itself belongs
    to Pillow; the code relies on the size and mode of its result only. *)
Class Resampling := {
  resize : Image -> Z * Z -> Image;
  resize_size : forall im sz, size (resize im sz) = sz;
  resize_mode : forall im sz, mode (resize im sz) = mode im
}.

(** A polygon drawn on a mask ([ImageDraw.Draw(mask).polygon(pixels,
    fill)]) and a paste through a mask ([dest.paste(src, pos, mask)]).
    Rasterisation and blending belong to Pillow; what the code relies on
    is that the mask keeps the size and mode of the image drawn on, and
    the pasted result those of the destination. *)
Class Masking := {
  polygon : Image -> list (Z * Z) -> Z -> Image;
  paste_mask : Image -> Image -> Z * Z -> Image -> Image;
  polygon_size : forall im pixels fill,
    size (polygon im pixels fill) = size im;
  polygon_mode : forall im pixels fill,
    mode (polygon im pixels fill) = mode im;
  paste_mask_size : forall dest src pos mask,
    size (paste_mask dest src pos mask) = size dest;
  paste_mask_mode : forall dest src pos mask,
    mode (paste_mask dest src pos mask) = mode dest
}.

End PIL.

(** ** app/core/downloader.py *)

Module Downloader.

Import Tile.

Record DownloadResult := {
  tile : TileCoord;
  success : bool;
  image : option PIL.Image;
  error : option string
}.

Record DownloadProgress := {
  total : Z;
  completed : Z;
  failed : Z;
  status : string
}.

(** The value stored under ["percent"]: the integer [0] or a float. *)
Inductive Number :=
| Int (n : Z)
| Float (x : float).

(** The dictionary built by [to_dict]. *)
Record ProgressDict := {
  d_total : Z;
  d_completed : Z;
  d_failed : Z;
  d_status : string;
  d_percent : Number
}.

Definition to_dict (self : DownloadProgress) : Py.exn + ProgressDict :=
  let! percent :=
    (if (0 <? total self)%Z
     then let! quotient := Binary64.truediv (completed self) (total self) in
          inr (Float (Binary64.round (quotient * 100)%float 1))
     else inr (Int 0)) in
  inr {| d_total := total self;
         d_completed := completed self;
         d_failed := failed self;
         d_status := status self;
         d_percent := percent |}.

Record TileDownloader := {
  source : string;
  source_config : Config.SourceConfig;
  max_concurrent : Z;
  retry_times : Z;
  timeout : Z;
  delay : Q;
  proxy : option string
}.

(** [arg or default]: [None] and zero are both falsy. *)
Definition or_Z (arg : option Z) (default : Z) : Z :=
  match arg with
  | Some v => if (v =? 0)%Z then default else v
  | None => default
  end.

Definition or_Q (arg : option Q) (default : Q) : Q :=
  match arg with
  | Some v => if Qeq_bool v 0 then default else v
  | None => default
  end.

Definition __init__ (source : string)
    (max_concurrent retry_times timeout : option Z) (delay : option Q)
    (proxy : option string) : Py.exn + TileDownloader :=
  match Config.TILE_SOURCES !! source with
  | None => inl (Py.ValueError ("Unknown tile source: " +:+ source
                            +:+ ". Available: " +:+ Config.available))
  | Some cfg =>
      inr {| source := source;
             source_config := cfg;
             max_concurrent := or_Z max_concurrent Config.max_concurrent;
             retry_times := or_Z retry_times Config.retry_times;
             timeout := or_Z timeout Config.timeout;
             delay := or_Q delay Config.delay;
             proxy := proxy |}
  end.

(** What one [session.get] attempt comes to: a response with its status and
    the result of decoding its body ([Image.open], an error text when that
    raises), or an exception raised by the transport. *)
Inductive Outcome :=
| Response (status : Z) (decoded : string + PIL.Image)
| TimeoutError
| ClientError (msg : string)
| OtherException (msg : string).

(** What a fetch task does, in order: the jittered pause before a request,
    the request of a given attempt, the pause before a retry. *)
Inductive Event :=
| Jitter
| Get (attempt : Z)
| Backoff (seconds : Z).

(** The body of [for attempt in range(self.retry_times + 1)], with the
    trailing [return DownloadResult(success=False, ...)]. The URL, headers
    and proxy of the request do not influence control flow and are not
    recorded. *)
Fixpoint _download_tile_loop (self : TileDownloader) (tile : TileCoord)
    (net : Z -> Outcome) (attempts : list Z) (last_error : option string)
  : DownloadResult * list Event :=
  match attempts with
  | [] =>
      ({| tile := tile; success := false; image := None;
          error := last_error |}, [])
  | attempt :: rest =>
      let request :=
        (if Qle_bool (delay self) 0 then [] else [Jitter]) ++ [Get attempt] in
      let retry (last_error : string) :=
        let wait :=
          if (attempt <? retry_times self)%Z
          then [Backoff (1 * (attempt + 1))%Z] else [] in
        let '(result, events) :=
          _download_tile_loop self tile net rest (Some last_error) in
        (result, request ++ wait ++ events) in
      match net attempt with
      | Response status decoded =>
          if (status =? 200)%Z then
            match decoded with
            | inr image =>
                let image :=
                  if PIL.Mode_eqb (PIL.mode image) PIL.RGB then image
                  else PIL.convert image PIL.RGB in
                ({| tile := tile; success := true; image := Some image;
                    error := None |}, request)
            | inl msg => retry msg
            end
          else retry ("HTTP " +:+ Py.str status)
      | TimeoutError => retry "Timeout"
      | ClientError msg => retry msg
      | OtherException msg => retry msg
      end
  end.

Definition _download_tile (self : TileDownloader) (tile : TileCoord)
    (net : Z -> Outcome) : DownloadResult * list Event :=
  _download_tile_loop self tile net
    (Py.range 0 (retry_times self + 1)) None.

(** [asyncio.as_completed]: at every step one of the pending tasks is the
    next to finish; [picks] lists the choices. *)
Fixpoint as_completed_aux {A : Type} (picks : list nat) (pending : list A)
    (n : nat) : list A :=
  match n, pending with
  | S n', first :: _ =>
      let k := (hd O picks mod length pending)%nat in
      nth k pending first
        :: as_completed_aux (tl picks) (take k pending ++ drop (S k) pending) n'
  | _, _ => []
  end.

Definition as_completed {A : Type} (picks : list nat) (pending : list A)
  : list A :=
  as_completed_aux picks pending (length pending).

(** The environment of one batch: the outcome of every attempt of every
    task (tasks are numbered in the order of [tiles]) and the completion
    order. *)
Record World := {
  net : nat -> Z -> Outcome;
  picks : list nat
}.

(** State of the result loop of [download_tiles]: the mapping, the progress
    record, the snapshots handed to the observer and the printed lines. *)
Record LoopState := {
  tile_images : gmap (Z * Z) PIL.Image;
  progress : DownloadProgress;
  observed : list DownloadProgress;
  printed : list string
}.

Definition repr_tile (t : TileCoord) : string :=
  "TileCoord(x=" +:+ Py.str (x t) +:+ ", y=" +:+ Py.str (y t)
    +:+ ", z=" +:+ Py.str (z t) +:+ ")".

Definition repr_error (e : option string) : string :=
  match e with Some msg => msg | None => "None" end.

(** One iteration of [for coro in asyncio.as_completed(tasks)]. *)
Definition handle_result (progress_callback : bool) (st : LoopState)
    (result : DownloadResult) : LoopState :=
  let p := progress st in
  let '(images, p, out) :=
    match success result, image result with
    | true, Some image =>
        (<[(x (tile result), y (tile result)) := image]> (tile_images st),
         {| total := total p; completed := (completed p + 1)%Z;
            failed := failed p; status := status p |},
         printed st)
    | _, _ =>
        (tile_images st,
         {| total := total p; completed := completed p;
            failed := (failed p + 1)%Z; status := status p |},
         printed st ++
           ["Failed to download tile " +:+ repr_tile (tile result) +:+ ": "
              +:+ repr_error (error result)])
    end in
  {| tile_images := images;
     progress := p;
     observed := if progress_callback then observed st ++ [p]
                 else observed st;
     printed := out |}.

(** Result of [download_tiles] together with what it did: the observer's
    snapshots, the printed lines and the events of every fetch task. *)
Record Batch := {
  returned : gmap (Z * Z) PIL.Image * DownloadProgress;
  callbacks : list DownloadProgress;
  output : list string;
  results : list DownloadResult;
  traces : list (list Event)
}.

Definition download_tiles (self : TileDownloader) (tiles : list TileCoord)
    (progress_callback : bool) (w : World) : Batch :=
  let progress0 :=
    {| total := Z.of_nat (length tiles); completed := 0; failed := 0;
       status := "downloading" |} in
  let tasks :=
    imap (fun i tile => _download_tile self tile (net w i)) tiles in
  let finished := as_completed (picks w) (map fst tasks) in
  let st :=
    fold_left (handle_result progress_callback) finished
      {| tile_images := ∅; progress := progress0; observed := [];
         printed := [] |} in
  let p := progress st in
  let final :=
    {| total := total p; completed := completed p; failed := failed p;
       status := if (failed p =? 0)%Z then "completed"
                 else "completed_with_errors" |} in
  {| returned := (tile_images st, final);
     callbacks := observed st;
     output := printed st;
     results := finished;
     traces := map snd tasks |}.

(** [create_blank_tile]. *)
Definition create_blank_tile : Py.exn + PIL.Image :=
  PIL.new PIL.RGB (Config.TILE_SIZE, Config.TILE_SIZE) (255, 255, 255)%Z.

End Downloader.

(** ** app/models.py *)

Module Models.

Local Open Scope R_scope.

Record Bounds := {
  north : R;
  south : R;
  east : R;
  west : R
}.

Record PolygonCoord := {
  lat : R;
  lng : R
}.

Record DownloadRequest := {
  bounds : option Bounds;
  polygon : option (list PolygonCoord);
  zoom : Z;
  source : string;
  format : string;
  crop_to_shape : bool;
  proxy : option string
}.

(** [request.tianditu_token]. [DownloadRequest] declares no field of that
    name, and a pydantic model raises [AttributeError] when a name that it
    does not declare is read. *)
Definition tianditu_token (request : DownloadRequest)
  : Py.exn + option string :=
  inl (Py.AttributeError
         "'DownloadRequest' object has no attribute 'tianditu_token'").

(** The [Field(..., ge=, le=)] constraints, which pydantic checks before
    the endpoint runs. *)
Definition Bounds_valid (b : Bounds) : Prop :=
  -90 <= north b <= 90 /\ -90 <= south b <= 90 /\
  -180 <= east b <= 180 /\ -180 <= west b <= 180.

Definition PolygonCoord_valid (p : PolygonCoord) : Prop :=
  -90 <= lat p <= 90 /\ -180 <= lng p <= 180.

Definition DownloadRequest_valid (r : DownloadRequest) : Prop :=
  (forall b, bounds r = Some b -> Bounds_valid b) /\
  (forall ps p, polygon r = Some ps -> In p ps -> PolygonCoord_valid p) /\
  (1 <= zoom r <= 20)%Z.

End Models.

(** ** app/core/merger.py *)

Module Merger.

Section WithResampling.

Context {LANCZOS : PIL.Resampling}.

Definition size_eqb (a b : Z * Z) : bool :=
  ((a.1 =? b.1) && (a.2 =? b.2))%Z.

(** The body of the inner loop of [merge_tiles] for the cell [(x, y)]. *)
Definition paste_tile (tile_images : gmap (Z * Z) PIL.Image)
    (x_min y_min : Z) (merged : PIL.Image) (x y : Z) : Py.exn + PIL.Image :=
  let! tile_image :=
    (match tile_images !! (x, y) with
     | Some tile_image => inr tile_image
     | None => Downloader.create_blank_tile
     end) in
  let px := ((x - x_min) * Config.TILE_SIZE)%Z in
  let py := ((y - y_min) * Config.TILE_SIZE)%Z in
  let tile_image :=
    if size_eqb (PIL.size tile_image) (Config.TILE_SIZE, Config.TILE_SIZE)
    then tile_image
    else PIL.resize tile_image (Config.TILE_SIZE, Config.TILE_SIZE) in
  inr (PIL.paste merged tile_image (px, py)).

Definition merge_tiles (tile_images : gmap (Z * Z) PIL.Image)
    (x_min y_min x_max y_max : Z) : Py.exn + PIL.Image :=
  let cols := (x_max - x_min + 1)%Z in
  let rows := (y_max - y_min + 1)%Z in
  let width := (cols * Config.TILE_SIZE)%Z in
  let height := (rows * Config.TILE_SIZE)%Z in
  let! merged := PIL.new PIL.RGB (width, height) (255, 255, 255)%Z in
  Py.for_each (Py.range x_min (x_max + 1)) merged (fun merged x =>
    Py.for_each (Py.range y_min (y_max + 1)) merged (fun merged y =>
      paste_tile tile_images x_min y_min merged x y)).

(** The body of the innermost loop of [merge_tiles_chunked]. *)
Definition paste_tile_chunked (tile_images : gmap (Z * Z) PIL.Image)
    (x_min y_min : Z) (merged : PIL.Image) (row_offset col_offset : Z)
  : Py.exn + PIL.Image :=
  let y := (y_min + row_offset)%Z in
  let py := (row_offset * Config.TILE_SIZE)%Z in
  let x := (x_min + col_offset)%Z in
  let px := (col_offset * Config.TILE_SIZE)%Z in
  let! tile_image :=
    (match tile_images !! (x, y) with
     | Some tile_image => inr tile_image
     | None => Downloader.create_blank_tile
     end) in
  let tile_image :=
    if size_eqb (PIL.size tile_image) (Config.TILE_SIZE, Config.TILE_SIZE)
    then tile_image
    else PIL.resize tile_image (Config.TILE_SIZE, Config.TILE_SIZE) in
  inr (PIL.paste merged tile_image (px, py)).

Definition merge_tiles_chunked (tile_images : gmap (Z * Z) PIL.Image)
    (x_min y_min x_max y_max : Z) (chunk_size : Z) : Py.exn + PIL.Image :=
  let cols := (x_max - x_min + 1)%Z in
  let rows := (y_max - y_min + 1)%Z in
  if (rows <=? chunk_size * 2)%Z
  then merge_tiles tile_images x_min y_min x_max y_max
  else
    let width := (cols * Config.TILE_SIZE)%Z in
    let height := (rows * Config.TILE_SIZE)%Z in
    let! merged := PIL.new PIL.RGB (width, height) (255, 255, 255)%Z in
    let! chunk_starts := Py.range_step 0 rows chunk_size in
    Py.for_each chunk_starts merged (fun merged chunk_start =>
      let chunk_end := Z.min (chunk_start + chunk_size) rows in
      Py.for_each (Py.range chunk_start chunk_end) merged
        (fun merged row_offset =>
           Py.for_each (Py.range 0 cols) merged (fun merged col_offset =>
             paste_tile_chunked tile_images x_min y_min merged
               row_offset col_offset))).

End WithResampling.

(** Lines 199-217 of [crop_to_bounds]: the rectangle handed to
    [image.crop]. Bounds are (north, south, east, west). *)
Definition crop_to_bounds_box (size : Z * Z)
    (image_bounds target_bounds : R * R * R * R)
  : Py.exn + Z * Z * Z * Z :=
  let '(img_north, img_south, img_east, img_west) := image_bounds in
  let '(tgt_north, tgt_south, tgt_east, tgt_west) := target_bounds in
  let '(width, height) := size in
  let! lng_per_pixel := Py.fdiv (img_east - img_west) (IZR width) in
  let! lat_per_pixel := Py.fdiv (img_north - img_south) (IZR height) in
  let! l := Py.fdiv (tgt_west - img_west) lng_per_pixel in
  let! r := Py.fdiv (tgt_east - img_west) lng_per_pixel in
  let! t := Py.fdiv (img_north - tgt_north) lat_per_pixel in
  let! b := Py.fdiv (img_north - tgt_south) lat_per_pixel in
  let left := Z.max 0 (Z.min width (Py.int l)) in
  let right := Z.max 0 (Z.min width (Py.int r)) in
  let top := Z.max 0 (Z.min height (Py.int t)) in
  let bottom := Z.max 0 (Z.min height (Py.int b)) in
  inr (left, top, right, bottom).

(** [crop_to_bounds]. ([PIL.crop] describes the crop to a rectangle with
    [left <= right] and [top <= bottom]; recent Pillow releases refuse any
    other rectangle.) *)
Definition crop_to_bounds (image : PIL.Image)
    (image_bounds target_bounds : R * R * R * R) : Py.exn + PIL.Image :=
  let! box := crop_to_bounds_box (PIL.size image) image_bounds
                target_bounds in
  inr (PIL.crop image box).

(** Lines 29-42 of [mask_image_by_polygon]: the pixel of every vertex of
    the polygon, for an image of the given size and bounds (north, south,
    east, west). *)
Definition polygon_pixels (size : Z * Z)
    (polygon : list Models.PolygonCoord) (image_bounds : R * R * R * R)
  : Py.exn + list (Z * Z) :=
  let '(width, height) := size in
  let '(img_north, img_south, img_east, img_west) := image_bounds in
  let lat_span := (img_north - img_south)%R in
  let lng_span := (img_east - img_west)%R in
  Py.for_each polygon [] (fun pixels point =>
    let! fx := Py.fdiv (Models.lng point - img_west) lng_span in
    let x := Py.int (fx * IZR width) in
    let! fy := Py.fdiv (img_north - Models.lat point) lat_span in
    let y := Py.int (fy * IZR height) in
    inr (pixels ++ [(x, y)])).

Section WithMasking.

Context {DRAW : PIL.Masking}.

(** [mask_image_by_polygon]. The composite of the alpha band with the
    mask that the function also computes is not used for the result. *)
Definition mask_image_by_polygon (image : PIL.Image)
    (polygon : list Models.PolygonCoord) (image_bounds : R * R * R * R)
  : Py.exn + PIL.Image :=
  let image :=
    if PIL.Mode_eqb (PIL.mode image) PIL.RGBA then image
    else PIL.convert image PIL.RGBA in
  let! pixels := polygon_pixels (PIL.size image) polygon image_bounds in
  if (Z.of_nat (length pixels) <? 3)%Z then inr image
  else
    let! mask := PIL.new PIL.L (PIL.size image) (0, 0, 0)%Z in
    let mask := PIL.polygon mask pixels 255 in
    let! result := PIL.new PIL.RGBA (PIL.size image) (0, 0, 0)%Z in
    inr (PIL.paste_mask result image (0, 0)%Z mask).

End WithMasking.

End Merger.

(** ** app/core/exporter.py *)

Module Exporter.

Import Tile.

Definition bytes : Type := string.

(** The encoders behind the exporter: Pillow's PNG and JPEG writers, and
    rasterio's GeoTIFF writer, which is present or not
    ([RASTERIO_AVAILABLE]) and whose encoding can raise. *)
Record Backend := {
  RASTERIO_AVAILABLE : bool;
  gtiff_encode : PIL.Image -> TileBounds -> string -> Py.exn + bytes;
  png_encode : PIL.Image -> bytes;
  jpeg_encode : PIL.Image -> Z -> bytes
}.

(** The files on disk, and the paths that can be written. *)
Record FS := {
  files : gmap string bytes;
  writable : string -> bool
}.

Definition write_file (path : string) (data : bytes) (fs : FS)
  : (Py.exn + unit) * FS :=
  if writable fs path
  then (inr tt, {| files := <[path := data]> (files fs);
                   writable := writable fs |})
  else (inl (Py.OSError path), fs).

Definition read_file (path : string) (fs : FS) : Py.exn + bytes :=
  match files fs !! path with
  | Some data => inr data
  | None => inl (Py.OSError path)
  end.

Section WithBackend.

Variable B : Backend.

Definition export_geotiff (image : PIL.Image) (bounds : TileBounds)
    (output_path : string) (crs : string) (fs : FS)
  : (Py.exn + string) * FS :=
  if negb (RASTERIO_AVAILABLE B)
  then (inl (Py.RuntimeError
          "rasterio is required for GeoTIFF export. Install with: pip install rasterio"),
        fs)
  else
    match gtiff_encode B image bounds crs with
    | inl e => (inl e, fs)
    | inr data =>
        match write_file output_path data fs with
        | (inl e, fs) => (inl e, fs)
        | (inr _, fs) => (inr output_path, fs)
        end
    end.

Definition export_geotiff_bytes (image : PIL.Image) (bounds : TileBounds)
    (crs : string) : Py.exn + bytes :=
  if negb (RASTERIO_AVAILABLE B)
  then inl (Py.RuntimeError "rasterio is required for GeoTIFF export")
  else gtiff_encode B image bounds crs.

Definition export_png (image : PIL.Image) (output_path : string) (fs : FS)
  : (Py.exn + string) * FS :=
  match write_file output_path (png_encode B image) fs with
  | (inl e, fs) => (inl e, fs)
  | (inr _, fs) => (inr output_path, fs)
  end.

Definition export_png_bytes (image : PIL.Image) : bytes :=
  png_encode B image.

Definition to_rgb (image : PIL.Image) : PIL.Image :=
  if PIL.Mode_eqb (PIL.mode image) PIL.RGBA
  then PIL.convert image PIL.RGB else image.

Definition export_jpeg (image : PIL.Image) (output_path : string)
    (quality : Z) (fs : FS) : (Py.exn + string) * FS :=
  match write_file output_path (jpeg_encode B (to_rgb image) quality) fs with
  | (inl e, fs) => (inl e, fs)
  | (inr _, fs) => (inr output_path, fs)
  end.

Definition export_jpeg_bytes (image : PIL.Image) (quality : Z) : bytes :=
  jpeg_encode B (to_rgb image) quality.

(** [if output_path:] holds for a non-empty string. *)
Definition given (output_path : option string) : option string :=
  match output_path with
  | Some "" => None
  | other => other
  end.

(** What [export_image] returns or raises, the files afterwards and the
    lines it printed. *)
Record Exported := {
  result : Py.exn + (bytes * string);
  disk : FS;
  printed : list string
}.

Definition exn_text (e : Py.exn) : string :=
  match e with
  | Py.ValueError msg | Py.RuntimeError msg | Py.OSError msg
  | Py.AttributeError msg | Py.TypeError msg | Py.OverflowError msg => msg
  | Py.ZeroDivisionError => "division by zero"
  | Py.HTTPException _ detail => detail
  end.

(** A write followed by reading the file back. *)
Definition read_back (content_type : string)
    (written : (Py.exn + string) * FS) : (Py.exn + (bytes * string)) * FS :=
  match written with
  | (inl e, fs) => (inl e, fs)
  | (inr path, fs) =>
      (let! data := read_file path fs in inr (data, content_type), fs)
  end.

Definition export_image (image : PIL.Image) (bounds : TileBounds)
    (format : string) (output_path : option string) (fs : FS) : Exported :=
  let format := Py.lower format in
  if String.eqb format "geotiff" then
    let attempt :=
      match given output_path with
      | Some path =>
          read_back "image/tiff"
            (export_geotiff image bounds path "EPSG:4326" fs)
      | None =>
          (let! data := export_geotiff_bytes image bounds "EPSG:4326" in
           inr (data, "image/tiff"), fs)
      end in
    match attempt with
    | (inr out, fs) => {| result := inr out; disk := fs; printed := [] |}
    | (inl e, fs) =>
        {| result := inr (export_png_bytes image, "image/png");
           disk := fs;
           printed := ["GeoTIFF export failed: " +:+ exn_text e
                         +:+ ", falling back to PNG"] |}
    end
  else if String.eqb format "png" then
    match given output_path with
    | Some path =>
        let '(r, fs) := read_back "image/png" (export_png image path fs) in
        {| result := r; disk := fs; printed := [] |}
    | None =>
        {| result := inr (export_png_bytes image, "image/png");
           disk := fs; printed := [] |}
    end
  else if String.eqb format "jpeg" || String.eqb format "jpg" then
    match given output_path with
    | Some path =>
        let '(r, fs) :=
          read_back "image/jpeg" (export_jpeg image path 90 fs) in
        {| result := r; disk := fs; printed := [] |}
    | None =>
        {| result := inr (export_jpeg_bytes image 90, "image/jpeg");
           disk := fs; printed := [] |}
    end
  else
    {| result := inl (Py.ValueError
                        ("Unsupported format: " +:+ format
                           +:+ ". Supported: geotiff, png, jpeg"));
       disk := fs; printed := [] |}.

End WithBackend.

Definition get_file_extension (format : string) : string :=
  let format := Py.lower format in
  if String.eqb format "geotiff" || String.eqb format "tiff"
     || String.eqb format "tif" then ".tif"
  else if String.eqb format "png" then ".png"
  else if String.eqb format "jpeg" || String.eqb format "jpg" then ".jpg"
  else ".tif".

End Exporter.

(** ** app/api/download.py: the [/download] endpoint *)

Module Api.

Import Models.

Local Open Scope R_scope.

(** [max(values)] and [min(values)] of a non-empty list. *)
Definition max_list (first : R) (others : list R) : R :=
  fold_left Rmax others first.

Definition min_list (first : R) (others : list R) : R :=
  fold_left Rmin others first.

Definition max_tiles : Z := 1000000.

Definition in_list (s : string) (l : list string) : bool :=
  existsb (String.eqb s) l.

(** The request checks at the head of [download_tiles], the bounds and the
    tile-count ceiling. *)
Definition validate (request : DownloadRequest) : Py.exn + Bounds :=
  let points := default [] (polygon request) in
  let! area :=
    (match bounds request, points with
     | None, [] =>
         inl (Py.HTTPException 400 "Either bounds or polygon is required")
     | _, p :: ps => inr (inl (p, ps))
     | Some b, [] => inr (inr b)
     end) in
  let! _ :=
    (if decide (source request ∈ dom Config.TILE_SOURCES) then inr tt
     else inl (Py.HTTPException 400
                 ("Unknown source: " +:+ source request
                    +:+ ". Available: " +:+ Config.available))) in
  let! _ :=
    (if in_list (Py.lower (format request)) ["geotiff"; "png"; "jpeg"; "jpg"]
     then inr tt
     else inl (Py.HTTPException 400
                 ("Unsupported format: " +:+ format request
                    +:+ ". Supported: geotiff, png, jpeg"))) in
  let bounds :=
    match area with
    | inl (p, ps) =>
        let lats := map lat ps in
        let lngs := map lng ps in
        {| north := max_list (lat p) lats;
           south := min_list (lat p) lats;
           east := max_list (lng p) lngs;
           west := min_list (lng p) lngs |}
    | inr b => b
    end in
  let tile_count :=
    Tile.estimate_tile_count (north bounds) (south bounds) (east bounds)
      (west bounds) (zoom request) in
  if (max_tiles <? tile_count)%Z
  then inl (Py.HTTPException 400
              ("区域过大 (" +:+ Py.str tile_count +:+ " 瓦片)。最大允许 "
                 +:+ Py.str max_tiles
                 +:+ " 个瓦片。请缩小区域或降低缩放级别。"))
  else inr bounds.

(** The crop rectangle of the requested bounds inside the merged canvas. *)
Definition crop_box (bounds : Bounds) (zoom : Z) (x_min y_min : Z)
    (size : Z * Z) : Z * Z * Z * Z :=
  let '(nw_x, nw_y) :=
    Tile.latlng_to_tile_float (north bounds) (west bounds) zoom in
  let '(se_x, se_y) :=
    Tile.latlng_to_tile_float (south bounds) (east bounds) zoom in
  let left := Py.int ((nw_x - IZR x_min) * IZR Config.TILE_SIZE) in
  let top := Py.int ((nw_y - IZR y_min) * IZR Config.TILE_SIZE) in
  let right := Py.int ((se_x - IZR x_min) * IZR Config.TILE_SIZE) in
  let bottom := Py.int ((se_y - IZR y_min) * IZR Config.TILE_SIZE) in
  let '(width, height) := size in
  let left := Z.max 0 (Z.min left width) in
  let top := Z.max 0 (Z.min top height) in
  let right := Z.max 0 (Z.min right width) in
  let bottom := Z.max 0 (Z.min bottom height) in
  (left, top, right, bottom).

Definition crop_to_request (merged_image : PIL.Image) (bounds : Bounds)
    (zoom : Z) (x_min y_min : Z) : PIL.Image :=
  let box := crop_box bounds zoom x_min y_min (PIL.size merged_image) in
  let left := box.1.1.1 in
  let top := box.1.1.2 in
  let right := box.1.2 in
  let bottom := box.2 in
  if ((left <? right) && (top <? bottom))%Z
  then PIL.crop merged_image (left, top, right, bottom)
  else merged_image.

(** What a run of the endpoint comes to, up to the cropped mosaic: the
    exception raised or the image handed to masking and export, and the
    events of the fetch tasks that were started. *)
Record Run := {
  outcome : Py.exn + PIL.Image;
  fetched : list (list Downloader.Event)
}.

Definition no_tiles : Py.exn :=
  Py.HTTPException 500 "Failed to download any tiles".

Section WithResampling.

Context {LANCZOS : PIL.Resampling}.

(** [TileDownloader(source=request.source, proxy=request.proxy,
    tianditu_token=request.tianditu_token)], the call of [download_tiles]
    and of [_download_task]. The arguments are evaluated before the call,
    and reading [request.tianditu_token] raises. [__init__] declares no
    [tianditu_token] parameter either: a call that got as far as the
    constructor would be refused with [TypeError]. *)
Definition new_downloader (request : DownloadRequest)
  : Py.exn + Downloader.TileDownloader :=
  let source := source request in
  let proxy := proxy request in
  let! tianditu_token := tianditu_token request in
  inl (Py.TypeError
         "TileDownloader.__init__() got an unexpected keyword argument 'tianditu_token'").

(** [download_tiles(request)] from its first line to the crop; the
    polygon mask and the export of the result follow the crop. *)
Definition download_tiles (request : DownloadRequest)
    (w : Downloader.World) : Run :=
  match validate request with
  | inl e => {| outcome := inl e; fetched := [] |}
  | inr bounds =>
      let tiles :=
        Tile.get_tiles_in_bounds (north bounds) (south bounds) (east bounds)
          (west bounds) (zoom request) in
      let '(x_min, y_min, x_max, y_max, cols, rows) :=
        Tile.get_tile_matrix_size (north bounds) (south bounds)
          (east bounds) (west bounds) (zoom request) in
      match new_downloader request with
      | inl e => {| outcome := inl e; fetched := [] |}
      | inr downloader =>
          let batch := Downloader.download_tiles downloader tiles false w in
          let tile_images := (Downloader.returned batch).1 in
          if decide (dom tile_images = ∅)
          then {| outcome := inl no_tiles;
                  fetched := Downloader.traces batch |}
          else
            {| outcome :=
                 (let! merged_image :=
                    Merger.merge_tiles tile_images x_min y_min x_max y_max in
                  inr (crop_to_request merged_image bounds (zoom request)
                         x_min y_min));
               fetched := Downloader.traces batch |}
      end
  end.

End WithResampling.

(** *** [/estimate] *)

(** [round(x, 2)]: the nearest multiple of one hundredth, ties to even. *)
Definition round2 (q : Q) : Q :=
  let t := (q * 100)%Q in
  let f := Qfloor t in
  let frac := (t - inject_Z f)%Q in
  let k :=
    match (frac ?= 1 # 2)%Q with
    | Lt => f
    | Gt => (f + 1)%Z
    | Eq => if Z.even f then f else (f + 1)%Z
    end in
  (inject_Z k / 100)%Q.

(** The dictionary returned by [estimate_download]; [warning] is present
    in the refusal only. *)
Record Estimate := {
  tile_count : Z;
  estimated_size_mb : Q;
  warning : option string;
  allowed : bool
}.

Definition estimate_download (request : DownloadRequest)
  : Py.exn + Estimate :=
  match bounds request with
  | None => inl (Py.HTTPException 400 "Bounds are required")
  | Some bounds =>
      let tile_count :=
        Tile.estimate_tile_count (north bounds) (south bounds)
          (east bounds) (west bounds) (zoom request) in
      let avg_tile_size_kb := 20%Z in
      let estimated_size_mb :=
        (inject_Z (tile_count * avg_tile_size_kb) / 1024)%Q in
      let max_tiles := 1000000%Z in
      if (max_tiles <? tile_count)%Z
      then inr {| tile_count := tile_count;
                  estimated_size_mb := round2 estimated_size_mb;
                  warning :=
                    Some ("区域过大，超过 " +:+ Py.str max_tiles
                            +:+ " 个瓦片限制。请缩小区域或降低缩放级别。");
                  allowed := false |}
      else inr {| tile_count := tile_count;
                  estimated_size_mb := round2 estimated_size_mb;
                  warning := None;
                  allowed := true |}
  end.

(** *** [/download_with_progress] and [/download_result] *)

(** An entry of the task store [download_tiles_with_progress.tasks]; the
    keys that an entry may lack are optional. *)
Record Task := {
  status : string;
  progress : Z;
  total : Z;
  completed : Z;
  failed : option Z;
  error : option string;
  filename : option string;
  data : option Exporter.bytes
}.

(** What [download_tiles_with_progress] returns and leaves behind: the
    answer, the task store and the arguments of the background task it
    starts. *)
Record Started := {
  task_id : string;
  started_total : Z;
  tasks : gmap string Task;
  background : string * DownloadRequest * Bounds
}.

(** [download_tiles_with_progress(request)]; [uuid4] is the identifier
    drawn for the task. *)
Definition download_tiles_with_progress (request : DownloadRequest)
    (uuid4 : string) (store : gmap string Task) : Py.exn + Started :=
  let points := default [] (polygon request) in
  let! area :=
    (match bounds request, points with
     | None, [] =>
         inl (Py.HTTPException 400 "Either bounds or polygon is required")
     | _, p :: ps => inr (inl (p, ps))
     | Some b, [] => inr (inr b)
     end) in
  let! _ :=
    (if decide (source request ∈ dom Config.TILE_SOURCES) then inr tt
     else inl (Py.HTTPException 400
                 ("Unknown source: " +:+ source request))) in
  let bounds :=
    match area with
    | inl (p, ps) =>
        let lats := map lat ps in
        let lngs := map lng ps in
        {| north := max_list (lat p) lats;
           south := min_list (lat p) lats;
           east := max_list (lng p) lngs;
           west := min_list (lng p) lngs |}
    | inr b => b
    end in
  let tile_count :=
    Tile.estimate_tile_count (north bounds) (south bounds) (east bounds)
      (west bounds) (zoom request) in
  if (1000000 <? tile_count)%Z
  then inl (Py.HTTPException 400 "区域过大")
  else
    let task_id := uuid4 in
    inr {| task_id := task_id;
           started_total := tile_count;
           tasks :=
             <[task_id := {| status := "pending"; progress := 0;
                             total := tile_count; completed := 0;
                             failed := None; error := None;
                             filename := None; data := None |}]> store;
           background := (task_id, request, bounds) |}.

(** The name given to the exported file by [download_tiles] and
    [_download_task]; [timestamp] is the formatted current time. *)
Definition task_filename (timestamp : string) (zoom : Z) (format : string)
  : string :=
  let ext := Exporter.get_file_extension format in
  "map_" +:+ timestamp +:+ "_z" +:+ Py.str zoom +:+ ext.

(** The streaming response of [get_download_result]. *)
Record FileResponse := {
  body : Exporter.bytes;
  media_type : string;
  content_disposition : string;
  content_length : string
}.

(** [get_download_result(task_id)]; the removal of the task that it
    schedules for a minute later does not touch the store before the
    answer is returned. *)
Definition get_download_result (store : gmap string Task)
    (task_id : string) : Py.exn + FileResponse :=
  match store !! task_id with
  | None => inl (Py.HTTPException 404 "Task not found")
  | Some task =>
      if negb (String.eqb (status task) "completed")
      then inl (Py.HTTPException 400 "Download not completed")
      else
        let file_bytes := data task in
        let filename := default "map.tif" (filename task) in
        match file_bytes with
        | None | Some "" =>
            inl (Py.HTTPException 500 "File data not found")
        | Some file_bytes =>
            let content_type :=
              if Py.endswith filename ".tif" then "image/tiff"
              else if Py.endswith filename ".png" then "image/png"
              else "image/jpeg" in
            inr {| body := file_bytes;
                   media_type := content_type;
                   content_disposition :=
                     "attachment; filename=" +:+ filename;
                   content_length :=
                     Py.str (Z.of_nat (String.length file_bytes)) |}
        end
  end.

End Api.

(** ** Vocabulary of the statements *)

Module Spec.

Import Downloader.

Definition is_jitter (e : Event) : bool :=
  match e with Jitter => true | _ => false end.

(** The requests and pauses of a fetch task, without the jitter. *)
Definition steps (events : list Event) : list Event :=
  List.filter (fun e => negb (is_jitter e)) events.

(** The attempt delivers a tile: status 200 and a body that decodes. *)
Definition delivers (o : Outcome) : bool :=
  match o with
  | Response status (inr _) => (status =? 200)%Z
  | _ => false
  end.

(** The attempt ends in a transport error, a non-200 response or a
    timeout. *)
Definition transport_failure (o : Outcome) : bool :=
  match o with
  | Response status _ => negb (status =? 200)%Z
  | TimeoutError | ClientError _ | OtherException _ => true
  end.

(** [n] attempts numbered from [k], with a pause of [1 * (index + 1)]
    seconds after every attempt but the last. *)
Fixpoint schedule_from (k : Z) (n : nat) : list Event :=
  match n with
  | O => []
  | S O => [Get k]
  | S n' => Get k :: Backoff (1 * (k + 1)) :: schedule_from (k + 1) n'
  end.

Definition schedule (n : nat) : list Event := schedule_from 0 n.

(** The key of a tile in the mapping returned by [download_tiles]. *)
Definition key (t : Tile.TileCoord) : Z * Z := (Tile.x t, Tile.y t).

(** The results of the fetch tasks of a batch, in the order of [tiles]. *)
Definition task_results (self : TileDownloader) (tiles : list Tile.TileCoord)
    (w : World) : list DownloadResult :=
  imap (fun i tile => (_download_tile self tile (net w i)).1) tiles.

(** Every attempt that task [i] is allowed fails. *)
Definition exhausts (self : TileDownloader) (w : World) (i : nat) : Prop :=
  forall k, (0 <= k <= retry_times self)%Z -> delivers (net w i k) = false.

(** The result carries a tile image: the test [result.success and
    result.image] of [download_tiles]. *)
Definition delivered (r : DownloadResult) : bool :=
  match success r, image r with
  | true, Some _ => true
  | _, _ => false
  end.

(** One observer snapshot does not go back on an earlier one. *)
Definition advances (p q : DownloadProgress) : Prop :=
  (completed p <= completed q)%Z /\ (failed p <= failed q)%Z.

(** No snapshot of the sequence goes back on the one before it. *)
Definition nondecreasing (l : list DownloadProgress) : Prop :=
  forall i p q, l !! i = Some p -> l !! S i = Some q -> advances p q.

(** The pixel [(X, Y)] of the canvas lies in the grid cell [(x, y)]. *)
Definition in_cell (x_min y_min x y X Y : Z) : Prop :=
  ((x - x_min) * 256 <= X < (x - x_min) * 256 + 256
   /\ (y - y_min) * 256 <= Y < (y - y_min) * 256 + 256)%Z.

(** The bitmap that [merge_tiles] pastes into the cell [(x, y)]: the tile
    of the mapping, resampled when its size is not 256 x 256, and the white
    blank tile when the mapping has none. *)
Definition placed {LANCZOS : PIL.Resampling}
    (tile_images : gmap (Z * Z) PIL.Image) (x y : Z) : PIL.Image :=
  match tile_images !! (x, y) with
  | Some tile_image =>
      if Merger.size_eqb (PIL.size tile_image) (256, 256)%Z then tile_image
      else PIL.resize tile_image (256, 256)%Z
  | None =>
      {| PIL.mode := PIL.RGB; PIL.size := (256, 256)%Z;
         PIL.getpixel := fun _ _ => (255, 255, 255)%Z |}
  end.

(** The tiles of a batch with the key [k] all exhaust their retries. *)
Definition tile_exhausts (self : TileDownloader)
    (tiles : list Tile.TileCoord) (w : World) (k : Z * Z) : Prop :=
  forall i t, tiles !! i = Some t -> key t = k -> exhausts self w i.

(** The true limit of the Web Mercator square, in degrees. *)
Definition mercator_limit : R := Tile.degrees (atan (sinh PI)).

(** The error text that [_download_tile] keeps for an attempt that did
    not deliver: the status of a non-200 response, "Timeout", or the text
    of the exception (for a 200 response, the exception raised while
    decoding the body). *)
Definition failure_text (o : Outcome) : string :=
  match o with
  | Response status decoded =>
      if (status =? 200)%Z
      then match decoded with inl msg => msg | inr _ => "" end
      else "HTTP " +:+ Py.str status
  | TimeoutError => "Timeout"
  | ClientError msg => msg
  | OtherException msg => msg
  end.

(** The image of a delivered tile, as [_download_tile] returns it. *)
Definition as_rgb (image : PIL.Image) : PIL.Image :=
  if PIL.Mode_eqb (PIL.mode image) PIL.RGB then image
  else PIL.convert image PIL.RGB.

(** The pixel that [mask_image_by_polygon] computes for a vertex, for an
    image of the given size and bounds (north, south, east, west) that are
    not degenerate. *)
Definition vertex_pixel (size : Z * Z) (image_bounds : R * R * R * R)
    (point : Models.PolygonCoord) : Z * Z :=
  let '(width, height) := size in
  let '(img_north, img_south, img_east, img_west) := image_bounds in
  (Py.int ((Models.lng point - img_west) / (img_east - img_west)
           * IZR width),
   Py.int ((img_north - Models.lat point) / (img_north - img_south)
           * IZR height)).

(** The line that [download_tiles] prints for a failed tile. *)
Definition failure_line (r : DownloadResult) : string :=
  "Failed to download tile " +:+ repr_tile (tile r) +:+ ": "
    +:+ repr_error (error r).

End Spec.

(** ** Rational arithmetic for the numeric bounds *)

Module Num.

(** Rational mirrors of the partial sums used for the numeric bounds. *)
Fixpoint qpow (q : Q) (n : nat) : Q :=
  match n with
  | O => 1
  | S n' => q * qpow q n'
  end.

Fixpoint qsum (f : nat -> Q) (n : nat) : Q :=
  match n with
  | O => f O
  | S n' => Qred (qsum f n' + f (S n'))
  end.

Definition qnat (n : nat) : Q := inject_Z (Z.of_nat n).

(** Term of the series of [PI / 4 = 2 * atan (1/3) + atan (1/7)]. *)
Definition q_pi_term (i : nat) : Q :=
  qpow (-1) i
  * (2 * (qpow (1 # 3) (2 * i + 1) / qnat (2 * i + 1))
     + qpow (1 # 7) (2 * i + 1) / qnat (2 * i + 1)).

(** [k!] computed in binary. *)
Fixpoint zfact (k : nat) : Z :=
  match k with
  | O => 1
  | S k' => Z.of_nat (S k') * zfact k'
  end.

(** Term of the series of [exp (- x)]. *)
Definition q_exp_term (x : Q) (k : nat) : Q :=
  qpow (-1) k * (qpow x k / inject_Z (zfact k)).

End Num.

(** ** Sample data for the examples *)

Module Sample.

Import Downloader.

Definition white : PIL.Image :=
  {| PIL.mode := PIL.RGB; PIL.size := (256, 256)%Z;
     PIL.getpixel := fun _ _ => (255, 255, 255)%Z |}.

Definition black : PIL.Image :=
  {| PIL.mode := PIL.RGB; PIL.size := (256, 256)%Z;
     PIL.getpixel := fun _ _ => (0, 0, 0)%Z |}.

Definition tile_1_1 : Tile.TileCoord :=
  {| Tile.x := 1; Tile.y := 1; Tile.z := 1 |}.

Definition tile_0_1 : Tile.TileCoord :=
  {| Tile.x := 0; Tile.y := 1; Tile.z := 1 |}.

Definition osm : Config.SourceConfig :=
  {| Config.url := "https://{s}.tile.openstreetmap.org/{z}/{x}/{y}.png";
     Config.subdomains := ["a"; "b"; "c"]; Config.max_zoom := 19 |}.

(** A downloader for OpenStreetMap with the given number of retries. *)
Definition downloader (retries : Z) : TileDownloader :=
  {| source := "osm"; source_config := osm; max_concurrent := 10;
     retry_times := retries; timeout := 30; delay := 1 # 10;
     proxy := None |}.

(** A server that answers 200 with an undecodable body first and with a
    proper tile afterwards. *)
Definition garbled_then_fine (attempt : Z) : Outcome :=
  if (attempt =? 0)%Z
  then Response 200 (inl "cannot identify image file")
  else Response 200 (inr black).

(** A server that always answers 404, and one that always delivers. *)
Definition always_404 (attempt : Z) : Outcome := Response 404 (inl "").
Definition always_fine (attempt : Z) : Outcome := Response 200 (inr black).

(** Nearest-neighbour resampling stands in for Pillow's filter. *)
Definition nearest (im : PIL.Image) (sz : Z * Z) : PIL.Image :=
  {| PIL.mode := PIL.mode im;
     PIL.size := sz;
     PIL.getpixel := fun i j =>
       PIL.getpixel im (i * (PIL.size im).1 / sz.1)%Z
                       (j * (PIL.size im).2 / sz.2)%Z |}.

#[export] Instance nearest_resampling : PIL.Resampling :=
  {| PIL.resize := nearest;
     PIL.resize_size := fun _ _ => eq_refl;
     PIL.resize_mode := fun _ _ => eq_refl |}.

(** A rasteriser that fills the bounding box of the vertices, and a paste
    that copies where the mask is white, stand in for Pillow's. *)
Definition bounding_box_fill (im : PIL.Image) (pixels : list (Z * Z))
    (fill : Z) : PIL.Image :=
  {| PIL.mode := PIL.mode im;
     PIL.size := PIL.size im;
     PIL.getpixel := fun i j =>
       if existsb (fun p => (p.1 <=? i)%Z) pixels
          && existsb (fun p => (i <=? p.1)%Z) pixels
          && existsb (fun p => (p.2 <=? j)%Z) pixels
          && existsb (fun p => (j <=? p.2)%Z) pixels
       then (fill, fill, fill)
       else PIL.getpixel im i j |}.

Definition paste_where_white (dest src : PIL.Image) (pos : Z * Z)
    (mask : PIL.Image) : PIL.Image :=
  {| PIL.mode := PIL.mode dest;
     PIL.size := PIL.size dest;
     PIL.getpixel := fun i j =>
       match PIL.getpixel mask (i - pos.1)%Z (j - pos.2)%Z with
       | (255, _, _)%Z => PIL.getpixel src (i - pos.1)%Z (j - pos.2)%Z
       | _ => PIL.getpixel dest i j
       end |}.

#[export] Instance box_masking : PIL.Masking :=
  {| PIL.polygon := bounding_box_fill;
     PIL.paste_mask := paste_where_white;
     PIL.polygon_size := fun _ _ _ => eq_refl;
     PIL.polygon_mode := fun _ _ _ => eq_refl;
     PIL.paste_mask_size := fun _ _ _ _ => eq_refl;
     PIL.paste_mask_mode := fun _ _ _ _ => eq_refl |}.

(** A triangle and a degenerate triangle on the equator. *)
Definition vertex (lat lng : R) : Models.PolygonCoord :=
  {| Models.lat := lat; Models.lng := lng |}.

Definition triangle : list Models.PolygonCoord :=
  [vertex 0 0; vertex 1 0; vertex 0 1].

(** A network on which every attempt delivers, tasks finishing in order. *)
Definition fine_world : World :=
  {| net := fun _ => always_fine; picks := [] |}.

(** A rectangle request on the equator at zoom 1. *)
Definition rectangle (west east : R) : Models.DownloadRequest :=
  {| Models.bounds :=
       Some {| Models.north := 0; Models.south := 0;
               Models.east := east; Models.west := west |};
     Models.polygon := None;
     Models.zoom := 1;
     Models.source := "osm";
     Models.format := "png";
     Models.crop_to_shape := false;
     Models.proxy := None |}.

(** Two requests whose west edge lies east of their east edge: one from
    170 E across the antimeridian to 170 W, one inside a single tile. *)
Definition across_antimeridian : Models.DownloadRequest :=
  rectangle 170 (-170).

Definition west_of_east : Models.DownloadRequest := rectangle 10 0.

(** A request with ordered longitudes that lies inside the tile (1, 1). *)
Definition one_tile : Models.DownloadRequest := rectangle 10 20.

(** An installation without rasterio, and an empty disk. *)
Definition no_rasterio : Exporter.Backend :=
  {| Exporter.RASTERIO_AVAILABLE := false;
     Exporter.gtiff_encode := fun _ _ _ =>
       inl (Py.RuntimeError "rasterio is required for GeoTIFF export");
     Exporter.png_encode := fun _ => "PNG";
     Exporter.jpeg_encode := fun _ _ => "JPEG" |}.

Definition empty_disk : Exporter.FS :=
  {| Exporter.files := ∅; Exporter.writable := fun _ => true |}.

Definition unit_bounds : Tile.TileBounds :=
  {| Tile.north := 1; Tile.south := 0; Tile.east := 1; Tile.west := 0 |}.

(** A finished PNG download in the task store. *)
Definition finished_task : Api.Task :=
  {| Api.status := "completed"; Api.progress := 100; Api.total := 1;
     Api.completed := 1; Api.failed := Some 0%Z; Api.error := None;
     Api.filename := Some (Api.task_filename "20240101_120000" 5 "png");
     Api.data := Some "PNG" |}.

End Sample.

(** * Properties *)

Import Downloader Spec.

(** ** Ranges and loops *)

Lemma range_In (a b k : Z) : In k (Py.range a b) <-> (a <= k < b)%Z.
Proof.
  unfold Py.range. rewrite in_map_iff. split.
  - intros [i [<- Hi]]. apply in_seq in Hi. lia.
  - intros Hk. exists (Z.to_nat (k - a)). split; [lia|].
    apply in_seq. lia.
Qed.

Lemma range_length (a b : Z) : length (Py.range a b) = Z.to_nat (b - a).
Proof. unfold Py.range. now rewrite length_map, length_seq. Qed.

Lemma range_nil (a b : Z) : (b <= a)%Z -> Py.range a b = [].
Proof.
  intros H. unfold Py.range. replace (Z.to_nat (b - a)) with O by lia.
  reflexivity.
Qed.

Lemma range_cons (a b : Z) :
  (a < b)%Z -> Py.range a b = a :: Py.range (a + 1) b.
Proof.
  intros H. unfold Py.range.
  replace (Z.to_nat (b - a)) with (S (Z.to_nat (b - (a + 1)))) by lia.
  cbn [seq map]. f_equal; [lia|].
  rewrite <- seq_shift, map_map. apply map_ext. intros i. lia.
Qed.

Lemma range_snoc (a b : Z) :
  (a <= b)%Z -> Py.range a (b + 1) = Py.range a b ++ [b].
Proof.
  intros H. unfold Py.range.
  replace (Z.to_nat (b + 1 - a)) with (Z.to_nat (b - a) + 1)%nat by lia.
  rewrite seq_app, map_app. cbn [seq map Nat.add]. do 2 f_equal. lia.
Qed.

Lemma range_down_In (a b k : Z) :
  In k (Py.range_down a b) <-> (b < k <= a)%Z.
Proof.
  unfold Py.range_down. rewrite in_map_iff. split.
  - intros [i [<- Hi]]. apply in_seq in Hi. lia.
  - intros Hk. exists (Z.to_nat (a - k)). split; [lia|].
    apply in_seq. lia.
Qed.

(** ** get_optimal_zoom *)

Section OptimalZoom.

Variables (count : Z -> Z) (max_tiles : Z).

(** The loop returns the first element of the list that fits, and [1] when
    none does. *)
Lemma get_optimal_zoom_loop_first (zooms : list Z) :
  (exists before after,
      zooms = before ++ Tile.get_optimal_zoom_loop count max_tiles zooms
                        :: after
      /\ (count (Tile.get_optimal_zoom_loop count max_tiles zooms)
          <= max_tiles)%Z
      /\ Forall (fun zoom => ~ (count zoom <= max_tiles)%Z) before)
  \/ (Forall (fun zoom => ~ (count zoom <= max_tiles)%Z) zooms
      /\ Tile.get_optimal_zoom_loop count max_tiles zooms = 1%Z).
Proof.
  induction zooms as [|zoom rest IH]; cbn.
  - right. split; [constructor | reflexivity].
  - destruct (Z.leb_spec (count zoom) max_tiles) as [Hfit|Hno].
    + left. exists [], rest. repeat split; [assumption | constructor].
    + destruct IH as [(before & after & Heq & Hfit & Hbefore)|[Hall Hone]].
      * left. exists (zoom :: before), after. repeat split.
        -- cbn. now rewrite <- Heq.
        -- assumption.
        -- constructor; [lia | assumption].
      * right. split; [constructor; [lia | assumption] | assumption].
Qed.

End OptimalZoom.

Lemma range_down_20_sorted :
  StronglySorted (fun a b => (b < a)%Z) (Py.range_down 20 0).
Proof.
  vm_compute Py.range_down.
  repeat (constructor; [| repeat (constructor; [lia|]); constructor]).
  constructor.
Qed.

(** * C8 *)

(** C8. [get_optimal_zoom] never fails and always returns a zoom level of
    the searched range 1..20. When some zoom of that range has an estimated
    tile count not above [max_tiles], the result is the largest such zoom
    (the search runs from 20 downward and stops at the first fit); when
    none has, the result is the minimum zoom 1. *)
Theorem get_optimal_zoom_largest_fit
    (north south east west : R) (max_tiles : Z) :
  let count := Tile.estimate_tile_count north south east west in
  let zoom := Tile.get_optimal_zoom north south east west max_tiles in
  (1 <= zoom <= 20)%Z
  /\ ((exists z, (1 <= z <= 20)%Z /\ (count z <= max_tiles)%Z) ->
      (count zoom <= max_tiles)%Z
      /\ forall z, (1 <= z <= 20)%Z -> (count z <= max_tiles)%Z ->
                   (z <= zoom)%Z)
  /\ ((forall z, (1 <= z <= 20)%Z -> (max_tiles < count z)%Z) ->
      zoom = 1%Z).
Proof.
  intros count zoom. subst zoom. unfold Tile.get_optimal_zoom. fold count.
  destruct (get_optimal_zoom_loop_first count max_tiles
              (Py.range_down 20 0))
    as [(before & after & Heq & Hfit & Hbefore)|[Hall Hone]].
  - set (zoom := Tile.get_optimal_zoom_loop count max_tiles
                   (Py.range_down 20 0)) in *.
    assert (Hin : In zoom (Py.range_down 20 0)).
    { rewrite Heq. apply in_or_app. right. now left. }
    apply range_down_In in Hin.
    split; [lia|]. split.
    + intros _. split; [exact Hfit|].
      intros z Hz Hz_fit.
      assert (Hz_in : In z (Py.range_down 20 0))
        by (apply range_down_In; lia).
      rewrite Heq in Hz_in. apply in_app_or in Hz_in.
      destruct Hz_in as [Hz_in|[->|Hz_in]].
      * rewrite List.Forall_forall in Hbefore.
        now destruct (Hbefore z Hz_in).
      * lia.
      * pose proof range_down_20_sorted as Hsorted.
        rewrite Heq in Hsorted.
        apply StronglySorted_app_1_r in Hsorted.
        apply StronglySorted_inv in Hsorted. destruct Hsorted as [_ Hlt].
        rewrite List.Forall_forall in Hlt. specialize (Hlt z Hz_in). lia.
    + intros Hnone. exfalso. specialize (Hnone zoom ltac:(lia)).
      unfold count in *. lia.
  - rewrite Hone. split; [lia|]. split.
    + intros (z & Hz & Hz_fit). exfalso.
      rewrite List.Forall_forall in Hall.
      apply (Hall z); [apply range_down_In; lia | exact Hz_fit].
    + reflexivity.
Qed.
(** ** DownloadProgress.to_dict *)

Lemma half_even_nearest (q : Q) :
  (q - (1 # 2) <= inject_Z (Binary64.half_even q) <= q + (1 # 2))%Q.
Proof.
  unfold Binary64.half_even.
  pose proof (Qfloor_le q) as Hlo. pose proof (Qlt_floor q) as Hhi.
  rewrite inject_Z_plus in Hhi. change (inject_Z 1) with 1%Q in Hhi.
  cbv zeta. generalize dependent (Qfloor q). intros f Hlo Hhi.
  destruct (Qcompare_spec (q - inject_Z f) (1 # 2)) as [He|Hl|Hg].
  - destruct (Z.even f).
    + Lqa.lra.
    + rewrite inject_Z_plus. change (inject_Z 1) with 1%Q. Lqa.lra.
  - Lqa.lra.
  - rewrite inject_Z_plus. change (inject_Z 1) with 1%Q. Lqa.lra.
Qed.

(** [round(x, 1)] of a finite float is the float of a decimal with one
    digit after the point that lies within half a tenth of [x]. *)
Lemma round_one_decimal (x : float) (v : Q) :
  Binary64.value x = Some v ->
  exists k : Z,
    Binary64.round x 1 = Binary64.decimal (get_sign x) k 1
    /\ (v - (1 # 20) <= inject_Z k / 10 <= v + (1 # 20))%Q.
Proof.
  intros Hv. unfold Binary64.round. rewrite Hv.
  exists (Binary64.half_even (v * inject_Z (10 ^ Z.of_nat 1))).
  split; [reflexivity|].
  change (inject_Z (10 ^ Z.of_nat 1)) with 10%Q.
  pose proof (half_even_nearest (v * 10)) as Hk.
  generalize dependent (Binary64.half_even (v * 10)). intros k Hk.
  unfold Qdiv. change (/ 10)%Q with (1 # 10)%Q. Lqa.lra.
Qed.

Lemma overflows_spec (a b : Z) :
  Binary64.overflows a b = false
  <-> (Z.abs a < (2 ^ 1024 - 2 ^ 970) * Z.abs b)%Z.
Proof. unfold Binary64.overflows. rewrite Z.leb_gt. reflexivity. Qed.

(** * C10 *)

(** C10 (amended). [to_dict] never raises a division by zero: the
    division is evaluated only when [total > 0]. When [total] is zero (or
    below) it returns the dictionary with the integer 0 as percentage.
    When [total > 0] and the quotient [completed / total] is within the
    range of a float, it returns the dictionary whose percentage is
    [round(completed / total * 100, 1)] as binary64 computes it: the
    quotient rounded to the nearest float, its product with 100 rounded to
    the nearest float, and that product rounded to the decimal with one
    digit after the point nearest to it (within half a tenth, ties to the
    even digit). The counters of a batch, with
    [0 <= completed <= total], are within that range. When [total > 0] and
    the quotient is beyond the range of a float, the division raises
    [OverflowError]. *)
Theorem to_dict_total (p : Downloader.DownloadProgress) :
  let total := Downloader.total p in
  let completed := Downloader.completed p in
  let dict percent :=
    {| Downloader.d_total := total;
       Downloader.d_completed := completed;
       Downloader.d_failed := Downloader.failed p;
       Downloader.d_status := Downloader.status p;
       Downloader.d_percent := percent |} in
  Downloader.to_dict p <> inl Py.ZeroDivisionError
  /\ ((total <= 0)%Z ->
      Downloader.to_dict p = inr (dict (Downloader.Int 0)))
  /\ ((0 < total)%Z ->
      (Z.abs completed < (2 ^ 1024 - 2 ^ 970) * total)%Z ->
      let product := (Binary64.nearest completed total * 100)%float in
      Downloader.to_dict p
      = inr (dict (Downloader.Float (Binary64.round product 1)))
      /\ (forall v, Binary64.value product = Some v ->
            exists k : Z,
              Binary64.round product 1
              = Binary64.decimal (get_sign product) k 1
              /\ (v - (1 # 20) <= inject_Z k / 10 <= v + (1 # 20))%Q))
  /\ ((0 < total)%Z -> (0 <= completed <= total)%Z ->
      (Z.abs completed < (2 ^ 1024 - 2 ^ 970) * total)%Z)
  /\ ((0 < total)%Z ->
      ((2 ^ 1024 - 2 ^ 970) * total <= Z.abs completed)%Z ->
      Downloader.to_dict p
      = inl (Py.OverflowError
               "integer division result too large for a float")).
Proof.
  intros total completed dict. subst total completed dict.
  unfold Downloader.to_dict, Binary64.truediv.
  destruct (Z.ltb_spec 0 (Downloader.total p)) as [Hpos|Hnon].
  - destruct (Z.eqb_spec (Downloader.total p) 0) as [Hz|_]; [lia|].
    assert (Habs : Z.abs (Downloader.total p) = Downloader.total p)
      by lia.
    split.
    { destruct (Binary64.overflows _ _); discriminate. }
    split; [lia|]. split; [|split].
    + intros _ Hrange.
      assert (Hin : Binary64.overflows (Downloader.completed p)
                      (Downloader.total p) = false).
      { apply overflows_spec. now rewrite Habs. }
      rewrite Hin. cbn [Py.bind]. split; [reflexivity|].
      intros v Hv. now apply round_one_decimal.
    + intros _ [Hlo Hhi].
      assert (Hbig : (2 <= 2 ^ 1024 - 2 ^ 970)%Z)
        by (apply Z.leb_le; vm_compute; reflexivity).
      generalize dependent (2 ^ 1024 - 2 ^ 970)%Z. intros big Hbig. nia.
    + intros _ Hrange.
      assert (Hout : Binary64.overflows (Downloader.completed p)
                       (Downloader.total p) = true).
      { unfold Binary64.overflows. apply Z.leb_le. now rewrite Habs. }
      now rewrite Hout.
  - split; [discriminate|]. split; [reflexivity|].
    repeat split; intros; lia.
Qed.

(** C10, counterexample. With one tile in total and [2 ^ 1024] completed,
    [to_dict] does not return: the quotient is beyond the largest float
    and the division raises [OverflowError]. *)
Lemma to_dict_overflow :
  Downloader.to_dict
    {| Downloader.total := 1; Downloader.completed := 2 ^ 1024;
       Downloader.failed := 0; Downloader.status := "downloading" |}
  = inl (Py.OverflowError "integer division result too large for a float").
Proof. vm_compute. reflexivity. Qed.

(** 23 of 80 tiles: the binary64 product is 28.749999999999996, below the
    tie, and the percentage is 28.7. *)
Example to_dict_23_of_80 :
  Downloader.to_dict
    {| Downloader.total := 80; Downloader.completed := 23;
       Downloader.failed := 0; Downloader.status := "downloading" |}
  = inr {| Downloader.d_total := 80; Downloader.d_completed := 23;
           Downloader.d_failed := 0; Downloader.d_status := "downloading";
           Downloader.d_percent := Downloader.Float 28.7 |}.
Proof. vm_compute. reflexivity. Qed.

Example to_dict_49_of_80 :
  Downloader.to_dict
    {| Downloader.total := 80; Downloader.completed := 49;
       Downloader.failed := 0; Downloader.status := "downloading" |}
  = inr {| Downloader.d_total := 80; Downloader.d_completed := 49;
           Downloader.d_failed := 0; Downloader.d_status := "downloading";
           Downloader.d_percent := Downloader.Float 61.3 |}.
Proof. vm_compute. reflexivity. Qed.

(** 1 of 16 tiles: the product 6.25 is a tie and goes to the even
    digit. *)
Example to_dict_1_of_16 :
  Downloader.to_dict
    {| Downloader.total := 16; Downloader.completed := 1;
       Downloader.failed := 0; Downloader.status := "downloading" |}
  = inr {| Downloader.d_total := 16; Downloader.d_completed := 1;
           Downloader.d_failed := 0; Downloader.d_status := "downloading";
           Downloader.d_percent := Downloader.Float 6.2 |}.
Proof. vm_compute. reflexivity. Qed.

Example to_dict_one_third :
  Downloader.to_dict
    {| Downloader.total := 3; Downloader.completed := 1;
       Downloader.failed := 0; Downloader.status := "downloading" |}
  = inr {| Downloader.d_total := 3; Downloader.d_completed := 1;
           Downloader.d_failed := 0; Downloader.d_status := "downloading";
           Downloader.d_percent := Downloader.Float 33.3 |}.
Proof. vm_compute. reflexivity. Qed.

Example to_dict_empty_batch :
  Downloader.to_dict
    {| Downloader.total := 0; Downloader.completed := 0;
       Downloader.failed := 0; Downloader.status := "downloading" |}
  = inr {| Downloader.d_total := 0; Downloader.d_completed := 0;
           Downloader.d_failed := 0; Downloader.d_status := "downloading";
           Downloader.d_percent := Downloader.Int 0 |}.
Proof. reflexivity. Qed.

(** ** _download_tile *)

Lemma loop_cons_delivers (self : TileDownloader) (tile : Tile.TileCoord)
    (net : Z -> Outcome) (a : Z) (rest : list Z) (last_error : option string) :
  delivers (net a) = true ->
  exists result,
    success result = true
    /\ _download_tile_loop self tile net (a :: rest) last_error
       = (result,
          (if Qle_bool (delay self) 0 then [] else [Jitter]) ++ [Get a]).
Proof.
  intros Hd. cbn [_download_tile_loop].
  destruct (net a) as [status [msg|image]| | |]; cbn in Hd; try discriminate.
  rewrite Hd. eexists. split; [|reflexivity]. reflexivity.
Qed.

Lemma loop_cons_fails (self : TileDownloader) (tile : Tile.TileCoord)
    (net : Z -> Outcome) (a : Z) (rest : list Z) (last_error : option string) :
  delivers (net a) = false ->
  exists msg,
    _download_tile_loop self tile net (a :: rest) last_error
    = let run := _download_tile_loop self tile net rest (Some msg) in
      (run.1,
       ((if Qle_bool (delay self) 0 then [] else [Jitter]) ++ [Get a])
         ++ (if (a <? retry_times self)%Z
             then [Backoff (1 * (a + 1))] else [])
         ++ run.2).
Proof.
  intros Hd. cbn [_download_tile_loop].
  destruct (net a) as [status [msg|image]| | |]; cbn in Hd.
  - destruct (status =? 200)%Z;
      [exists msg | exists ("HTTP " +:+ Py.str status)];
      cbv zeta; destruct (_download_tile_loop self tile net rest _); reflexivity.
  - rewrite Hd. exists ("HTTP " +:+ Py.str status).
    cbv zeta; destruct (_download_tile_loop self tile net rest _); reflexivity.
  - exists "Timeout". cbv zeta; destruct (_download_tile_loop self tile net rest _); reflexivity.
  - exists msg. cbv zeta; destruct (_download_tile_loop self tile net rest _); reflexivity.
  - exists msg. cbv zeta; destruct (_download_tile_loop self tile net rest _); reflexivity.
Qed.

Lemma steps_request (self : TileDownloader) (a : Z) (rest : list Event) :
  steps (((if Qle_bool (delay self) 0 then [] else [Jitter]) ++ [Get a])
           ++ rest)
  = Get a :: steps rest.
Proof. unfold steps. destruct (Qle_bool (delay self) 0); reflexivity. Qed.

Lemma loop_schedule (self : TileDownloader) (tile : Tile.TileCoord)
    (net : Z -> Outcome) (m : nat) :
  forall (a : Z) (last_error : option string),
  (a + Z.of_nat m = retry_times self + 1)%Z ->
  let run :=
    _download_tile_loop self tile net (Py.range a (a + Z.of_nat m))
      last_error in
  exists n : nat,
    (n <= m)%nat /\ (1 <= m -> 1 <= n)%nat
    /\ steps run.2 = schedule_from a n
    /\ (forall k, (a <= k < a + Z.of_nat n - 1)%Z -> delivers (net k) = false)
    /\ (success run.1 = true ->
        (1 <= n)%nat /\ delivers (net (a + Z.of_nat n - 1)%Z) = true)
    /\ (success run.1 = false ->
        n = m
        /\ forall k, (a <= k < a + Z.of_nat m)%Z -> delivers (net k) = false).
Proof.
  induction m as [|m IH]; intros a last_error Hend run; subst run.
  - rewrite range_nil by lia. cbn. exists O. repeat split; try lia.
    all: intros; lia.
  - rewrite range_cons by lia.
    replace (a + Z.of_nat (S m))%Z with (a + 1 + Z.of_nat m)%Z by lia.
    destruct (delivers (net a)) eqn:Hd.
    + destruct (loop_cons_delivers self tile net a
                  (Py.range (a + 1) (a + 1 + Z.of_nat m)) last_error Hd)
        as (result & Hok & ->).
      exists 1%nat. cbn [fst snd].
      rewrite <- (app_nil_r (_ ++ [Get a])), steps_request.
      split; [lia|]. split; [lia|]. split; [reflexivity|].
      split; [intros k Hk; lia|]. split.
      * intros _. split; [lia|].
        now replace (a + Z.of_nat 1 - 1)%Z with a by lia.
      * congruence.
    + destruct (loop_cons_fails self tile net a
                  (Py.range (a + 1) (a + 1 + Z.of_nat m)) last_error Hd)
        as (msg & ->).
      destruct (IH (a + 1)%Z (Some msg) ltac:(lia))
        as (n & Hle & Hone & Hsteps & Hfail & Hsucc & Hexh).
      cbv zeta. cbn [fst snd].
      rewrite steps_request.
      exists (S n). split; [lia|]. split; [lia|]. split.
      * destruct m as [|m].
        -- assert (n = O) by lia. subst n.
           destruct (Z.ltb_spec a (retry_times self)); [lia|].
           cbn [app]. rewrite Hsteps. reflexivity.
        -- destruct (Z.ltb_spec a (retry_times self)); [|lia].
           cbn [app]. unfold steps at 1. cbn [List.filter is_jitter negb].
           fold (steps (_download_tile_loop self tile net
                          (Py.range (a + 1) (a + 1 + Z.of_nat (S m)))
                          (Some msg)).2).
           rewrite Hsteps. destruct n as [|n]; [lia|]. reflexivity.
      * split; [|split].
        -- intros k Hk. destruct (Z.eq_dec k a) as [->|Hne]; [exact Hd|].
           apply Hfail. lia.
        -- intros Hs. destruct (Hsucc Hs) as [Hn Hdel]. split; [lia|].
           now replace (a + Z.of_nat (S n) - 1)%Z
             with (a + 1 + Z.of_nat n - 1)%Z by lia.
        -- intros Hs. destruct (Hexh Hs) as [-> Hall]. split; [reflexivity|].
           intros k Hk. destruct (Z.eq_dec k a) as [->|Hne]; [exact Hd|].
           apply Hall. lia.
Qed.

(** * C1 *)

(** C1 (amended). Whatever the outcomes of the attempts, a fetch task of a
    downloader whose retry count is [r] makes [n] requests with
    [n <= r + 1] ([n <= max 0 (r + 1)] for any integer [r]); its requests
    and pauses are exactly attempt 0, a pause of 1 x 1 s, attempt 1, a
    pause of 2 x 1 s, and so on up to attempt [n - 1]: the pause after the
    attempt of index [k] lasts [(k + 1)] times one second and no pause
    follows the last attempt. Every attempt but the last one made did not
    deliver a tile (a transport error, a non-200 status, a timeout, or any
    other exception such as a 200 body that does not decode); the task
    succeeds exactly when its last attempt delivers, and fails only after
    all [r + 1] attempts failed. *)
Theorem download_tile_retries (self : TileDownloader)
    (tile : Tile.TileCoord) (net : Z -> Outcome) :
  let run := _download_tile self tile net in
  exists n : nat,
    (Z.of_nat n <= Z.max 0 (retry_times self + 1))%Z
    /\ steps run.2 = schedule n
    /\ (forall k, (0 <= k)%Z -> (k + 1 < Z.of_nat n)%Z ->
                  delivers (net k) = false)
    /\ (success run.1 = true ->
        (1 <= n)%nat /\ delivers (net (Z.of_nat n - 1)%Z) = true)
    /\ (success run.1 = false ->
        Z.of_nat n = Z.max 0 (retry_times self + 1)
        /\ forall k, (0 <= k < Z.of_nat n)%Z -> delivers (net k) = false).
Proof.
  intros run. subst run. unfold _download_tile, schedule.
  destruct (Z.le_gt_cases 0 (retry_times self + 1)) as [Hr|Hr].
  - pose proof (loop_schedule self tile net (Z.to_nat (retry_times self + 1))
                  0%Z None ltac:(lia)) as H.
    cbv zeta in H.
    replace (0 + Z.of_nat (Z.to_nat (retry_times self + 1)))%Z
      with (retry_times self + 1)%Z in H by lia.
    destruct H as (n & Hle & _ & Hsteps & Hfail & Hsucc & Hexh).
    exists n. split; [lia|]. split; [exact Hsteps|]. split; [|split].
    + intros k Hk Hkn. apply Hfail. lia.
    + intros Hs. destruct (Hsucc Hs) as [Hn Hd]. split; [exact Hn|].
      now replace (Z.of_nat n - 1)%Z with (0 + Z.of_nat n - 1)%Z by lia.
    + intros Hs. destruct (Hexh Hs) as [-> Hall]. split; [lia|].
      intros k Hk. apply Hall. lia.
  - rewrite range_nil by lia. cbn. exists O.
    split; [lia|]. split; [reflexivity|]. split; [intros; lia|].
    split; [discriminate|]. intros _. split; [lia|]. intros; lia.
Qed.

(** C1, counterexample. With one retry configured, a 200 response whose
    body does not decode (no transport error, no non-200 status, no
    timeout) is followed by a pause and a second attempt. *)
Lemma retry_after_undecodable_body :
  let run :=
    _download_tile (Sample.downloader 1) Sample.tile_1_1
      Sample.garbled_then_fine in
  transport_failure (Sample.garbled_then_fine 0) = false
  /\ steps run.2 = [Get 0; Backoff 1; Get 1]
  /\ success run.1 = true.
Proof. repeat split. Qed.

(** The constructor reads a retry count of zero as "not given". *)
Example init_retry_times_zero :
  match __init__ "osm" None (Some 0%Z) None None None with
  | inr self => retry_times self = 3%Z
  | inl _ => False
  end.
Proof. reflexivity. Qed.

Example download_tile_all_fail :
  let run :=
    _download_tile (Sample.downloader 2) Sample.tile_1_1 Sample.always_404 in
  run.2 = [Jitter; Get 0; Backoff 1; Jitter; Get 1; Backoff 2; Jitter; Get 2]
  /\ success run.1 = false /\ error run.1 = Some "HTTP 404".
Proof. repeat split. Qed.

(** ** as_completed *)

Lemma as_completed_aux_perm {A : Type} (n : nat) :
  forall (picks : list nat) (pending : list A),
  length pending = n ->
  Permutation (Downloader.as_completed_aux picks pending n) pending.
Proof.
  induction n as [|n IH]; intros picks pending Hlen.
  - destruct pending; [constructor | discriminate].
  - destruct pending as [|first rest]; [discriminate|].
    cbn [Downloader.as_completed_aux].
    set (pending := first :: rest) in *.
    set (k := (hd O picks mod length pending)%nat).
    assert (Hk : (k < length pending)%nat).
    { apply Nat.mod_upper_bound. rewrite Hlen. discriminate. }
    assert (Hsplit : pending
                     = take k pending ++ nth k pending first
                         :: drop (S k) pending).
    { rewrite <- (take_drop k pending) at 1. f_equal.
      destruct (drop k pending) as [|e rest'] eqn:Hd.
      - apply (f_equal length) in Hd. rewrite length_drop in Hd.
        cbn in Hd. lia.
      - assert (He : nth k pending first = e).
        { rewrite <- (take_drop k pending) at 1. rewrite Hd.
          rewrite app_nth2; rewrite length_take; [|lia].
          replace (k - k `min` length pending)%nat with O by lia.
          reflexivity. }
        rewrite He. f_equal.
        rewrite <- (Nat.add_1_r k), <- drop_drop, Hd. reflexivity. }
    transitivity (nth k pending first
                    :: take k pending ++ drop (S k) pending).
    + constructor. apply IH.
      rewrite length_app, length_take, length_drop. lia.
    + etransitivity; [apply Permutation_middle|].
      rewrite <- Hsplit. reflexivity.
Qed.

Lemma as_completed_perm {A : Type} (picks : list nat) (pending : list A) :
  Permutation (Downloader.as_completed picks pending) pending.
Proof. now apply as_completed_aux_perm. Qed.

Lemma as_completed_length {A : Type} (picks : list nat) (pending : list A) :
  length (Downloader.as_completed picks pending) = length pending.
Proof. apply Permutation_length, as_completed_perm. Qed.

(** ** The result loop of download_tiles *)

Lemma handle_result_step (cb : bool) (st : LoopState) (r : DownloadResult) :
  let st' := handle_result cb st r in
  total (progress st') = total (progress st)
  /\ status (progress st') = status (progress st)
  /\ observed st' = observed st ++ (if cb then [progress st'] else [])
  /\ ((delivered r = true
       /\ completed (progress st') = (completed (progress st) + 1)%Z
       /\ failed (progress st') = failed (progress st)
       /\ exists img, image r = Some img
            /\ tile_images st' = <[key (tile r) := img]> (tile_images st))
      \/ (delivered r = false
          /\ completed (progress st') = completed (progress st)
          /\ failed (progress st') = (failed (progress st) + 1)%Z
          /\ tile_images st' = tile_images st)).
Proof.
  unfold handle_result, delivered, key.
  destruct (success r), (image r) as [img|]; cbn;
    (split; [reflexivity|]); (split; [reflexivity|]);
    (split; [destruct cb; [reflexivity | now rewrite app_nil_r]|]).
  - left. repeat split. exists img. split; reflexivity.
  - right. repeat split.
  - right. repeat split.
  - right. repeat split.
Qed.

Lemma fold_handle_progress (cb : bool) (rs : list DownloadResult) :
  forall st : LoopState,
  let st' := fold_left (handle_result cb) rs st in
  total (progress st') = total (progress st)
  /\ status (progress st') = status (progress st)
  /\ advances (progress st) (progress st')
  /\ (completed (progress st') + failed (progress st')
      = completed (progress st) + failed (progress st)
        + Z.of_nat (length rs))%Z
  /\ exists new,
       observed st' = observed st ++ new
       /\ length new = (if cb then length rs else O)
       /\ nondecreasing new
       /\ Forall (fun p =>
            total p = total (progress st)
            /\ advances (progress st) p /\ advances p (progress st')
            /\ (completed p + failed p
                <= completed (progress st) + failed (progress st)
                   + Z.of_nat (length rs))%Z) new.
Proof.
  unfold advances.
  induction rs as [|r rs IH]; intros st; cbn [fold_left].
  - cbn. split; [reflexivity|]. split; [reflexivity|]. split; [lia|].
    split; [lia|]. exists []. rewrite app_nil_r.
    split; [reflexivity|]. split; [now destruct cb|]. split.
    + intros i p q Hp. now rewrite lookup_nil in Hp.
    + constructor.
  - destruct (handle_result_step cb st r) as (Ht & Hs & Hobs & Hcase).
    destruct (IH (handle_result cb st r))
      as (Ht' & Hs' & [Hc Hf] & Hsum & new & Hnew & Hlen & Hchain & Hall).
    set (st1 := handle_result cb st r) in *.
    set (st' := fold_left (handle_result cb) rs st1) in *.
    assert (Hstep : (completed (progress st) <= completed (progress st1)
                     /\ failed (progress st) <= failed (progress st1)
                     /\ completed (progress st1) + failed (progress st1)
                        = completed (progress st) + failed (progress st) + 1)%Z)
      by (destruct Hcase as [(_ & -> & -> & _)|(_ & -> & -> & _)]; lia).
    split; [congruence|]. split; [congruence|]. split; [lia|].
    split; [cbn [length]; lia|].
    exists ((if cb then [progress st1] else []) ++ new).
    split; [rewrite Hnew, Hobs; now rewrite app_assoc|].
    split; [destruct cb; cbn [length app]; lia|].
    assert (Hall' : Forall (fun p =>
              total p = total (progress st)
              /\ ((completed (progress st) <= completed p)%Z
                  /\ (failed (progress st) <= failed p)%Z)
              /\ ((completed p <= completed (progress st'))%Z
                  /\ (failed p <= failed (progress st'))%Z)
              /\ (completed p + failed p
                  <= completed (progress st) + failed (progress st)
                     + Z.of_nat (length (r :: rs)))%Z) new).
    { eapply Forall_impl; [exact Hall|]. cbn beta.
      intros p (Hp1 & Hp2 & Hp3 & Hp4). cbn [length].
      split; [congruence|]. lia. }
    split.
    + destruct cb; [|exact Hchain].
      intros i p q Hp Hq. destruct i as [|i].
      * cbn in Hp, Hq. inversion Hp; subst p.
        destruct new as [|q' new']; [discriminate|].
        cbn in Hq. inversion Hq; subst q'.
        apply Forall_cons in Hall. destruct Hall as [(_ & Hadv & _) _].
        exact Hadv.
      * cbn in Hp, Hq. exact (Hchain i p q Hp Hq).
    + destruct cb; [|exact Hall'].
      cbn [app]. constructor; [|exact Hall'].
      split; [exact Ht|]. cbn [length]. lia.
Qed.

Lemma download_tiles_finished (self : TileDownloader)
    (tiles : list Tile.TileCoord) (cb : bool) (w : World) :
  Permutation (results (download_tiles self tiles cb w))
              (task_results self tiles w)
  /\ length (results (download_tiles self tiles cb w)) = length tiles.
Proof.
  unfold download_tiles, task_results. cbn [results].
  assert (Hmap : map fst (imap (fun i tile =>
                    _download_tile self tile (net w i)) tiles)
                 = imap (fun i tile =>
                    (_download_tile self tile (net w i)).1) tiles).
  { generalize (net w). induction tiles as [|t tiles IH]; intros f.
    - reflexivity.
    - cbn. f_equal. apply (IH (fun i => f (S i))). }
  rewrite Hmap. split.
  - apply as_completed_perm.
  - rewrite as_completed_length. apply length_imap.
Qed.

(** * C4 *)

(** C4. In one run of [download_tiles] over [tiles], the snapshots handed
    to the observer (one after every tile when an observer is given) all
    carry [total = len(tiles)], have non-negative counters with
    [completed + failed <= total], and from each snapshot to the next
    neither [completed] nor [failed] decreases. *)
Theorem progress_monotone (self : TileDownloader)
    (tiles : list Tile.TileCoord) (progress_callback : bool) (w : World) :
  let calls := callbacks (download_tiles self tiles progress_callback w) in
  length calls = (if progress_callback then length tiles else O)
  /\ Forall (fun p =>
       total p = Z.of_nat (length tiles)
       /\ (0 <= completed p)%Z /\ (0 <= failed p)%Z
       /\ (completed p + failed p <= total p)%Z) calls
  /\ nondecreasing calls.
Proof.
  intros calls. subst calls.
  pose proof (download_tiles_finished self tiles progress_callback w)
    as [_ Hlen].
  unfold download_tiles in *. cbn [callbacks results] in *.
  set (finished := as_completed _ _) in *.
  destruct (fold_handle_progress progress_callback finished
              {| tile_images := ∅;
                 progress := {| total := Z.of_nat (length tiles);
                                completed := 0; failed := 0;
                                status := "downloading" |};
                 observed := []; printed := [] |})
    as (Ht & _ & _ & _ & new & Hnew & Hnlen & Hchain & Hall).
  cbn [progress observed total completed failed app] in *.
  rewrite Hnew. split; [now rewrite Hnlen, Hlen|]. split; [|exact Hchain].
  eapply Forall_impl; [exact Hall|]. cbn beta.
  unfold advances. cbn [completed failed].
  intros p (Hp1 & Hp2 & Hp3 & Hp4). rewrite Hp1. lia.
Qed.

(** ** merge_tiles *)

Section Merge.

Context {LANCZOS : PIL.Resampling}.

Variable tile_images : gmap (Z * Z) PIL.Image.
Variables x_min y_min : Z.

Lemma size_eqb_eq (a b : Z * Z) : Merger.size_eqb a b = true <-> a = b.
Proof.
  destruct a as [a1 a2], b as [b1 b2]. unfold Merger.size_eqb. cbn.
  rewrite andb_true_iff, !Z.eqb_eq. split.
  - intros [-> ->]. reflexivity.
  - intros [= -> ->]. split; reflexivity.
Qed.

Lemma placed_size (x y : Z) :
  PIL.size (Spec.placed tile_images x y) = (256, 256)%Z.
Proof.
  unfold Spec.placed. destruct (tile_images !! (x, y)) as [t|]; [|reflexivity].
  destruct (Merger.size_eqb (PIL.size t) (256, 256)%Z) eqn:E.
  - now apply size_eqb_eq.
  - apply PIL.resize_size.
Qed.

Lemma paste_tile_placed (merged : PIL.Image) (x y : Z) :
  Merger.paste_tile tile_images x_min y_min merged x y
  = inr (PIL.paste merged (Spec.placed tile_images x y)
           ((x - x_min) * 256, (y - y_min) * 256)%Z).
Proof.
  unfold Merger.paste_tile, Spec.placed, Downloader.create_blank_tile.
  destruct (tile_images !! (x, y)) as [t|]; reflexivity.
Qed.

Lemma paste_placed_pixel (merged : PIL.Image) (x y X Y : Z) :
  PIL.getpixel
    (PIL.paste merged (Spec.placed tile_images x y)
       ((x - x_min) * 256, (y - y_min) * 256)%Z) X Y
  = if decide (Spec.in_cell x_min y_min x y X Y)
    then PIL.getpixel (Spec.placed tile_images x y)
           (X - (x - x_min) * 256)%Z (Y - (y - y_min) * 256)%Z
    else PIL.getpixel merged X Y.
Proof.
  unfold PIL.paste. rewrite placed_size. cbn [PIL.getpixel].
  unfold Spec.in_cell.
  destruct (decide _) as [Hin|Hout].
  - destruct Hin as [[H1 H2] [H3 H4]].
    apply Z.leb_le in H1, H3. apply Z.ltb_lt in H2, H4.
    now rewrite H1, H2, H3, H4.
  - destruct (Z.leb_spec ((x - x_min) * 256) X);
      destruct (Z.ltb_spec X ((x - x_min) * 256 + 256));
      destruct (Z.leb_spec ((y - y_min) * 256) Y);
      destruct (Z.ltb_spec Y ((y - y_min) * 256 + 256));
      cbn; try reflexivity.
    exfalso. apply Hout. lia.
Qed.

Lemma in_cell_unique (x y x' y' X Y : Z) :
  Spec.in_cell x_min y_min x y X Y -> Spec.in_cell x_min y_min x' y' X Y ->
  x = x' /\ y = y'.
Proof. unfold Spec.in_cell. lia. Qed.

(** The inner loop: one column of the grid. *)
Lemma merge_column (x : Z) (ys : list Z) :
  forall merged : PIL.Image,
  exists merged',
    Py.for_each ys merged (fun merged y =>
      Merger.paste_tile tile_images x_min y_min merged x y) = inr merged'
    /\ PIL.mode merged' = PIL.mode merged
    /\ PIL.size merged' = PIL.size merged
    /\ forall X Y,
         (forall y, In y ys -> Spec.in_cell x_min y_min x y X Y ->
            PIL.getpixel merged' X Y
            = PIL.getpixel (Spec.placed tile_images x y)
                (X - (x - x_min) * 256)%Z (Y - (y - y_min) * 256)%Z)
         /\ ((forall y, In y ys -> ~ Spec.in_cell x_min y_min x y X Y) ->
             PIL.getpixel merged' X Y = PIL.getpixel merged X Y).
Proof.
  induction ys as [|y0 ys IH]; intros merged.
  - exists merged. cbn. repeat split; try reflexivity. intros y [].
  - cbn [Py.for_each]. rewrite paste_tile_placed.
    set (merged1 := PIL.paste merged _ _).
    destruct (IH merged1) as (merged' & Hrun & Hmode & Hsize & Hpix).
    exists merged'. split; [exact Hrun|].
    split; [rewrite Hmode; subst merged1; unfold PIL.paste;
            now rewrite placed_size|].
    split; [rewrite Hsize; subst merged1; unfold PIL.paste;
            now rewrite placed_size|].
    intros X Y. destruct (Hpix X Y) as [Hin Hout]. split.
    + intros y Hy Hcell.
      destruct (in_dec Z.eq_dec y ys) as [Hys|Hys]; [now apply Hin|].
      destruct Hy as [<-|Hy]; [|contradiction].
      rewrite Hout.
      * subst merged1. rewrite paste_placed_pixel.
        destruct (decide _); [reflexivity | contradiction].
      * intros y' Hy' Hcell'.
        destruct (in_cell_unique _ _ _ _ _ _ Hcell Hcell') as [_ ->].
        contradiction.
    + intros Hnone. rewrite Hout.
      * subst merged1. rewrite paste_placed_pixel.
        destruct (decide _) as [Hcell|]; [|reflexivity].
        exfalso. apply (Hnone y0); [now left | exact Hcell].
      * intros y Hy. apply Hnone. now right.
Qed.

(** The outer loop: the columns one after the other. *)
Lemma merge_columns (xs ys : list Z) :
  forall merged : PIL.Image,
  exists merged',
    Py.for_each xs merged (fun merged x =>
      Py.for_each ys merged (fun merged y =>
        Merger.paste_tile tile_images x_min y_min merged x y)) = inr merged'
    /\ PIL.mode merged' = PIL.mode merged
    /\ PIL.size merged' = PIL.size merged
    /\ forall X Y,
         (forall x y, In x xs -> In y ys ->
            Spec.in_cell x_min y_min x y X Y ->
            PIL.getpixel merged' X Y
            = PIL.getpixel (Spec.placed tile_images x y)
                (X - (x - x_min) * 256)%Z (Y - (y - y_min) * 256)%Z)
         /\ ((forall x y, In x xs -> In y ys ->
                ~ Spec.in_cell x_min y_min x y X Y) ->
             PIL.getpixel merged' X Y = PIL.getpixel merged X Y).
Proof.
  induction xs as [|x0 xs IH]; intros merged.
  - exists merged. cbn. repeat split; try reflexivity. intros x y [].
  - cbn [Py.for_each].
    destruct (merge_column x0 ys merged)
      as (merged1 & Hrun1 & Hmode1 & Hsize1 & Hpix1).
    rewrite Hrun1.
    destruct (IH merged1) as (merged' & Hrun & Hmode & Hsize & Hpix).
    exists merged'. split; [exact Hrun|].
    split; [congruence|]. split; [congruence|].
    intros X Y. destruct (Hpix X Y) as [Hin Hout].
    destruct (Hpix1 X Y) as [Hin1 Hout1]. split.
    + intros x y Hx Hy Hcell.
      destruct (in_dec Z.eq_dec x xs) as [Hxs|Hxs]; [now apply Hin|].
      destruct Hx as [<-|Hx]; [|contradiction].
      rewrite Hout.
      * now apply Hin1.
      * intros x' y' Hx' _ Hcell'.
        destruct (in_cell_unique _ _ _ _ _ _ Hcell Hcell') as [-> _].
        contradiction.
    + intros Hnone. rewrite Hout.
      * apply Hout1. intros y Hy. apply Hnone; [now left | exact Hy].
      * intros x y Hx Hy. apply Hnone; [now right | exact Hy].
Qed.

End Merge.

(** The canvas can be built for every non-empty grid. *)
Lemma merge_tiles_ok {LANCZOS : PIL.Resampling}
    (tile_images : gmap (Z * Z) PIL.Image) (x_min y_min x_max y_max : Z) :
  (x_min <= x_max)%Z -> (y_min <= y_max)%Z ->
  exists merged,
    Merger.merge_tiles tile_images x_min y_min x_max y_max = inr merged.
Proof.
  intros Hx Hy. unfold Merger.merge_tiles, PIL.new, Config.TILE_SIZE.
  destruct (Z.ltb_spec ((x_max - x_min + 1) * 256) 0) as [?|_]; [lia|].
  destruct (Z.ltb_spec ((y_max - y_min + 1) * 256) 0) as [?|_]; [lia|].
  cbn [orb Py.bind].
  destruct (merge_columns tile_images x_min y_min
              (Py.range x_min (x_max + 1)) (Py.range y_min (y_max + 1))
              {| PIL.mode := PIL.RGB;
                 PIL.size := ((x_max - x_min + 1) * 256,
                              (y_max - y_min + 1) * 256)%Z;
                 PIL.getpixel := fun _ _ => (255, 255, 255)%Z |})
    as (merged & Hrun & _).
  eauto.
Qed.

(** * C7 *)

(** C7. For every tile-image mapping and every grid [x_min..x_max],
    [y_min..y_max] (the ranges may be empty, [x_max = x_min - 1], but not
    of negative length, for which Pillow has no image), [merge_tiles]
    returns an RGB canvas of exactly [cols * 256] by [rows * 256] pixels.
    Inside the cell of every grid position [(x, y)], that is at the pixels
    [((x - x_min) * 256 + i, (y - y_min) * 256 + j)] with
    [0 <= i, j < 256], the canvas is white (255, 255, 255) when the mapping
    has no tile at [(x, y)], and otherwise shows the pixel [(i, j)] of the
    tile of the mapping, resampled to 256 x 256 first when its size
    differs. *)
Theorem merge_tiles_canvas {LANCZOS : PIL.Resampling}
    (tile_images : gmap (Z * Z) PIL.Image) (x_min y_min x_max y_max : Z) :
  (x_min <= x_max + 1)%Z -> (y_min <= y_max + 1)%Z ->
  exists merged,
    Merger.merge_tiles tile_images x_min y_min x_max y_max = inr merged
    /\ PIL.mode merged = PIL.RGB
    /\ PIL.size merged
       = ((x_max - x_min + 1) * 256, (y_max - y_min + 1) * 256)%Z
    /\ forall x y i j,
         (x_min <= x <= x_max)%Z -> (y_min <= y <= y_max)%Z ->
         (0 <= i < 256)%Z -> (0 <= j < 256)%Z ->
         PIL.getpixel merged ((x - x_min) * 256 + i)%Z
                             ((y - y_min) * 256 + j)%Z
         = match tile_images !! (x, y) with
           | None => (255, 255, 255)%Z
           | Some tile_image =>
               if decide (PIL.size tile_image = (256, 256)%Z)
               then PIL.getpixel tile_image i j
               else PIL.getpixel (PIL.resize tile_image (256, 256)%Z) i j
           end.
Proof.
  intros Hx Hy. unfold Merger.merge_tiles, PIL.new, Config.TILE_SIZE.
  destruct (Z.ltb_spec ((x_max - x_min + 1) * 256) 0) as [?|_]; [lia|].
  destruct (Z.ltb_spec ((y_max - y_min + 1) * 256) 0) as [?|_]; [lia|].
  cbn [orb Py.bind].
  destruct (merge_columns tile_images x_min y_min
              (Py.range x_min (x_max + 1)) (Py.range y_min (y_max + 1))
              {| PIL.mode := PIL.RGB;
                 PIL.size := ((x_max - x_min + 1) * 256,
                              (y_max - y_min + 1) * 256)%Z;
                 PIL.getpixel := fun _ _ => (255, 255, 255)%Z |})
    as (merged & Hrun & Hmode & Hsize & Hpix).
  exists merged. split; [exact Hrun|]. split; [exact Hmode|].
  split; [exact Hsize|].
  intros x y i j Hxr Hyr Hi Hj.
  destruct (Hpix ((x - x_min) * 256 + i)%Z ((y - y_min) * 256 + j)%Z)
    as [Hin _].
  rewrite (Hin x y).
  - replace ((x - x_min) * 256 + i - (x - x_min) * 256)%Z with i by lia.
    replace ((y - y_min) * 256 + j - (y - y_min) * 256)%Z with j by lia.
    unfold Spec.placed.
    destruct (tile_images !! (x, y)) as [t|]; [|reflexivity].
    destruct (decide (PIL.size t = (256, 256)%Z)) as [Heq|Hne].
    + apply size_eqb_eq in Heq. now rewrite Heq.
    + destruct (Merger.size_eqb (PIL.size t) (256, 256)%Z) eqn:E;
        [apply size_eqb_eq in E; contradiction | reflexivity].
  - apply range_In. lia.
  - apply range_In. lia.
  - unfold Spec.in_cell. lia.
Qed.

Lemma merge_tiles_canvas_witness :
  ((0 <= 1 + 1)%Z /\ (0 <= 0 + 1)%Z)
  /\ exists merged,
       @Merger.merge_tiles Sample.nearest_resampling
         {[ (0, 0)%Z := Sample.black ]} 0 0 1 0
       = inr merged
       /\ PIL.mode merged = PIL.RGB
       /\ PIL.size merged = ((1 - 0 + 1) * 256, (0 - 0 + 1) * 256)%Z
       /\ forall x y i j,
            (0 <= x <= 1)%Z -> (0 <= y <= 0)%Z ->
            (0 <= i < 256)%Z -> (0 <= j < 256)%Z ->
            PIL.getpixel merged ((x - 0) * 256 + i)%Z ((y - 0) * 256 + j)%Z
            = match ({[ (0, 0)%Z := Sample.black ]}
                       : gmap (Z * Z) PIL.Image) !! (x, y) with
              | None => (255, 255, 255)%Z
              | Some tile_image =>
                  if decide (PIL.size tile_image = (256, 256)%Z)
                  then PIL.getpixel tile_image i j
                  else PIL.getpixel
                         (@PIL.resize Sample.nearest_resampling tile_image
                            (256, 256)%Z) i j
              end.
Proof.
  split; [split; lia|].
  apply (@merge_tiles_canvas Sample.nearest_resampling
           {[ (0, 0)%Z := Sample.black ]} 0 0 1 0); lia.
Defined.

(** ** The mapping built by the result loop *)

Lemma fold_handle_images (cb : bool) (rs : list DownloadResult) :
  forall st : LoopState,
  let st' := fold_left (handle_result cb) rs st in
  (forall k,
      (forall r, In r rs -> key (tile r) = k -> delivered r = false) ->
      tile_images st' !! k = tile_images st !! k)
  /\ (forall r, In r rs -> delivered r = true ->
        is_Some (tile_images st' !! key (tile r)))
  /\ (forall k, is_Some (tile_images st !! k) ->
        is_Some (tile_images st' !! k))
  /\ (forall k img, tile_images st' !! k = Some img ->
        tile_images st !! k = Some img
        \/ exists r, In r rs /\ delivered r = true /\ key (tile r) = k
                     /\ image r = Some img)
  /\ completed (progress st')
     = (completed (progress st)
        + Z.of_nat (length (List.filter delivered rs)))%Z
  /\ failed (progress st')
     = (failed (progress st)
        + Z.of_nat (length (List.filter (fun r => negb (delivered r)) rs)))%Z.
Proof.
  induction rs as [|r rs IH]; intros st; cbn [fold_left].
  - cbn. repeat split; try lia; try tauto.
  - destruct (handle_result_step cb st r) as (_ & _ & _ & Hcase).
    destruct (IH (handle_result cb st r))
      as (Habs & Hpres & Hkeep & Hfrom & Hc & Hf).
    set (st1 := handle_result cb st r) in *.
    set (st' := fold_left (handle_result cb) rs st1) in *.
    cbn [List.filter].
    destruct Hcase as [(Hd & Hc1 & Hf1 & img & Himg & Hmap)
                      |(Hd & Hc1 & Hf1 & Hmap)];
      rewrite Hd; cbn [negb length].
    + split; [|split; [|split; [|split; [|split]]]].
      * intros k Hk. rewrite Habs.
        -- rewrite Hmap. apply lookup_insert_ne. intros Heq.
           specialize (Hk r (or_introl eq_refl) Heq). congruence.
        -- intros r' Hr'. apply Hk. now right.
      * intros r' [<-|Hr'] Hd'.
        -- apply Hkeep. rewrite Hmap, lookup_insert_eq. eauto.
        -- now apply Hpres.
      * intros k Hk. apply Hkeep. rewrite Hmap.
        destruct (decide (key (tile r) = k)) as [<-|Hne].
        -- rewrite lookup_insert_eq. eauto.
        -- now rewrite lookup_insert_ne.
      * intros k img' Hk. destruct (Hfrom k img' Hk) as [H1|(r' & Hr' & H')].
        -- rewrite Hmap in H1.
           destruct (decide (key (tile r) = k)) as [<-|Hne].
           ++ rewrite lookup_insert_eq in H1. inversion H1; subst img'.
              right. exists r. repeat split; try assumption. now left.
           ++ rewrite lookup_insert_ne in H1 by assumption. now left.
        -- right. exists r'. split; [now right | exact H'].
      * lia.
      * lia.
    + split; [|split; [|split; [|split; [|split]]]].
      * intros k Hk. rewrite Habs.
        -- now rewrite Hmap.
        -- intros r' Hr'. apply Hk. now right.
      * intros r' [<-|Hr'] Hd'; [congruence | now apply Hpres].
      * intros k Hk. apply Hkeep. now rewrite Hmap.
      * intros k img' Hk. destruct (Hfrom k img' Hk) as [H1|(r' & Hr' & H')].
        -- rewrite Hmap in H1. now left.
        -- right. exists r'. split; [now right | exact H'].
      * lia.
      * lia.
Qed.

(** A fetch task fails exactly when all its attempts fail, and a
    successful one carries its image. *)
Lemma download_tile_fails_iff (self : TileDownloader)
    (tile : Tile.TileCoord) (net : Z -> Outcome) :
  success (_download_tile self tile net).1 = false
  <-> forall k, (0 <= k <= retry_times self)%Z -> delivers (net k) = false.
Proof.
  unfold _download_tile.
  destruct (Z.le_gt_cases 0 (retry_times self + 1)) as [Hr|Hr].
  - pose proof (loop_schedule self tile net (Z.to_nat (retry_times self + 1))
                  0%Z None ltac:(lia)) as H.
    cbv zeta in H.
    replace (0 + Z.of_nat (Z.to_nat (retry_times self + 1)))%Z
      with (retry_times self + 1)%Z in H by lia.
    destruct H as (n & Hle & _ & _ & _ & Hsucc & Hexh).
    split.
    + intros Hs k Hk. destruct (Hexh Hs) as [_ Hall]. apply Hall. lia.
    + intros Hall. destruct (success _) eqn:Hs; [|reflexivity].
      destruct (Hsucc eq_refl) as [Hpos Hd].
      rewrite Hall in Hd by lia. discriminate.
  - rewrite range_nil by lia. cbn. split; [|reflexivity].
    intros _ k Hk. lia.
Qed.

Lemma download_tile_loop_result (self : TileDownloader)
    (tile0 : Tile.TileCoord) (net : Z -> Outcome) (attempts : list Z) :
  forall last_error,
  let r := (_download_tile_loop self tile0 net attempts last_error).1 in
  tile r = tile0 /\ delivered r = success r.
Proof.
  induction attempts as [|a rest IH]; intros last_error.
  - cbn. split; reflexivity.
  - destruct (delivers (net a)) eqn:Hd.
    + cbn [_download_tile_loop].
      destruct (net a) as [status [msg|img]| | |]; cbn in Hd;
        try discriminate.
      rewrite Hd. cbn. split; reflexivity.
    + destruct (loop_cons_fails self tile0 net a rest last_error Hd)
        as (msg & ->).
      cbv zeta. cbn [fst]. apply IH.
Qed.

Lemma task_results_spec (self : TileDownloader)
    (tiles : list Tile.TileCoord) (w : World) (r : DownloadResult) :
  In r (task_results self tiles w)
  <-> exists i t, tiles !! i = Some t
                  /\ r = (_download_tile self t (net w i)).1.
Proof.
  unfold task_results. rewrite <- list_elem_of_In, list_elem_of_lookup.
  split.
  - intros [i Hi]. rewrite list_lookup_imap in Hi.
    destruct (tiles !! i) as [t|] eqn:Ht; [|discriminate].
    cbn in Hi. inversion Hi. eauto.
  - intros (i & t & Ht & ->). exists i. rewrite list_lookup_imap, Ht.
    reflexivity.
Qed.

(** ** The endpoint up to the download *)

Lemma validate_error (request : Models.DownloadRequest) (e : Py.exn) :
  Api.validate request = inl e ->
  exists detail, e = Py.HTTPException 400 detail.
Proof.
  unfold Api.validate.
  destruct (Models.bounds request) as [b|],
           (default [] (Models.polygon request)) as [|p ps];
    cbn [Py.bind].
  all: try (intros [= <-]; eauto; fail).
  all: destruct (decide (Models.source request ∈ dom Config.TILE_SOURCES));
    cbn [Py.bind]; [|intros [= <-]; eauto].
  all: destruct (Api.in_list _ _); cbn [Py.bind]; [|intros [= <-]; eauto].
  all: destruct (_ <? _)%Z; [intros [= <-]; eauto | discriminate].
Qed.

Lemma validate_source (request : Models.DownloadRequest)
    (bounds : Models.Bounds) :
  Api.validate request = inr bounds ->
  exists downloader,
    __init__ (Models.source request) None None None None
      (Models.proxy request) = inr downloader
    /\ retry_times downloader = 3%Z.
Proof.
  unfold Api.validate.
  destruct (Models.bounds request) as [b|],
           (default [] (Models.polygon request)) as [|p ps];
    cbn [Py.bind]; try discriminate.
  all: destruct (decide (Models.source request ∈ dom Config.TILE_SOURCES))
         as [Hin|]; cbn [Py.bind]; [|discriminate].
  all: intros _; apply elem_of_dom in Hin; destruct Hin as [cfg Hcfg].
  all: unfold __init__; rewrite Hcfg; eexists; split; reflexivity.
Qed.

Lemma get_tiles_in_bounds_grid (north south east west : R) (zoom : Z)
    (t : Tile.TileCoord) :
  In t (Tile.get_tiles_in_bounds north south east west zoom) <->
  let '(x_min, y_min, x_max, y_max, _, _) :=
    Tile.get_tile_matrix_size north south east west zoom in
  (x_min <= Tile.x t <= x_max)%Z /\ (y_min <= Tile.y t <= y_max)%Z
  /\ Tile.z t = zoom.
Proof.
  unfold Tile.get_tiles_in_bounds, Tile.get_tile_matrix_size.
  destruct (Tile.latlng_to_tile north west zoom) as [x_min y_min].
  destruct (Tile.latlng_to_tile south east zoom) as [x_max y_max].
  rewrite in_flat_map. split.
  - intros (x & Hx & Ht). apply in_map_iff in Ht.
    destruct Ht as (y & <- & Hy). apply range_In in Hx, Hy. cbn. lia.
  - intros (Hx & Hy & Hz). exists (Tile.x t). split.
    + apply range_In. lia.
    + apply in_map_iff. exists (Tile.y t). split.
      * destruct t; cbn in *. now subst.
      * apply range_In. lia.
Qed.

Lemma download_tiles_images_from (self : TileDownloader)
    (tiles : list Tile.TileCoord) (cb : bool) (w : World) (k : Z * Z)
    (img : PIL.Image) :
  (returned (download_tiles self tiles cb w)).1 !! k = Some img ->
  exists i t, tiles !! i = Some t /\ key t = k
              /\ success (_download_tile self t (net w i)).1 = true.
Proof.
  intros Hk.
  destruct (download_tiles_finished self tiles cb w) as [Hperm _].
  unfold download_tiles in *. cbn [returned results fst] in *.
  set (finished := as_completed _ _) in *.
  destruct (fold_handle_images cb finished
              {| tile_images := ∅;
                 progress := {| total := Z.of_nat (length tiles);
                                completed := 0; failed := 0;
                                status := "downloading" |};
                 observed := []; printed := [] |})
    as (_ & _ & _ & Hfrom & _).
  cbn [tile_images] in Hfrom.
  destruct (Hfrom k img Hk) as [Hempty|(r & Hr & Hd & Hkey & _)].
  - now rewrite lookup_empty in Hempty.
  - apply (Permutation_in _ Hperm) in Hr.
    apply task_results_spec in Hr. destruct Hr as (i & t & Ht & ->).
    unfold _download_tile in *.
    destruct (download_tile_loop_result self t (net w i)
                (Py.range 0 (retry_times self + 1)) None) as [Htile Hdel].
    exists i, t. split; [exact Ht|]. split; [now rewrite <- Hkey, Htile|].
    now rewrite <- Hdel.
Qed.

Lemma filter_length_perm {A : Type} (f : A -> bool) (l l' : list A) :
  Permutation l l' ->
  length (List.filter f l) = length (List.filter f l').
Proof.
  induction 1 as [|a l l' _ IH|a b l|l l' l'' _ IH1 _ IH2]; cbn.
  - reflexivity.
  - destruct (f a); cbn; congruence.
  - destruct (f a), (f b); reflexivity.
  - congruence.
Qed.

Lemma filter_length_ext {A : Type} (f g : A -> bool) (l : list A) :
  (forall a, In a l -> f a = g a) ->
  length (List.filter f l) = length (List.filter g l).
Proof.
  induction l as [|a l IH]; intros H; cbn; [reflexivity|].
  rewrite (H a (or_introl eq_refl)).
  destruct (g a); cbn; rewrite IH; auto; intros; apply H; now right.
Qed.

Lemma download_tile_tile (self : TileDownloader) (t : Tile.TileCoord)
    (net : Z -> Outcome) :
  tile (_download_tile self t net).1 = t.
Proof. apply (download_tile_loop_result self t net). Qed.

Lemma task_results_delivered (self : TileDownloader)
    (tiles : list Tile.TileCoord) (w : World) (r : DownloadResult) :
  In r (task_results self tiles w) -> delivered r = success r.
Proof.
  intros Hr. apply task_results_spec in Hr. destruct Hr as (i & t & _ & ->).
  apply (download_tile_loop_result self t (net w i)).
Qed.

(** ** The endpoint up to the construction of the downloader *)

Section Endpoint.

Context {LANCZOS : PIL.Resampling}.

Lemma endpoint_rejected (request : Models.DownloadRequest) (w : World)
    (e : Py.exn) :
  Api.validate request = inl e ->
  Api.download_tiles request w = {| Api.outcome := inl e; Api.fetched := [] |}.
Proof. intros Hv. unfold Api.download_tiles. now rewrite Hv. Qed.

Lemma endpoint_validated (request : Models.DownloadRequest) (w : World)
    (bounds : Models.Bounds) :
  Api.validate request = inr bounds ->
  Api.download_tiles request w
  = {| Api.outcome :=
         inl (Py.AttributeError
                "'DownloadRequest' object has no attribute 'tianditu_token'");
       Api.fetched := [] |}.
Proof.
  intros Hv. unfold Api.download_tiles. rewrite Hv.
  destruct (Tile.get_tile_matrix_size _ _ _ _ _)
    as [[[[[x_min y_min] x_max] y_max] cols] rows].
  reflexivity.
Qed.

End Endpoint.

(** * C3 *)

(** C3. For every batch: every tile is run to its result whatever happens
    to the others (the results are those of the fetch tasks, in completion
    order), a task fails exactly when it exhausts its retries,
    [failed] counts the failed tasks and [completed] the successful ones,
    and together they account for every tile of the batch. A tile whose
    fetches all exhaust their retries (one fetch per tile in the grids the
    pipeline builds) is absent from the returned mapping, and a tile with
    a successful fetch is present. The endpoint, however, never hands a
    batch to the downloader: a request that fails validation is answered
    with the validation error, and every request that passes validation
    raises [AttributeError] where the downloader is constructed, because
    the call reads [request.tianditu_token]. No tile is fetched in either
    case, and the zero-tiles check that follows the download is not
    reached. *)
Theorem failed_tiles_absent {LANCZOS : PIL.Resampling}
    (self : TileDownloader) (tiles : list Tile.TileCoord)
    (progress_callback : bool) (w : World) :
  let batch := download_tiles self tiles progress_callback w in
  let images := (returned batch).1 in
  let final := (returned batch).2 in
  Permutation (results batch) (task_results self tiles w)
  /\ (forall i t, tiles !! i = Some t ->
        (exhausts self w i
         <-> success (_download_tile self t (net w i)).1 = false))
  /\ failed final
     = Z.of_nat (length (List.filter (fun r => negb (success r))
                           (task_results self tiles w)))
  /\ completed final
     = Z.of_nat (length (List.filter success (task_results self tiles w)))
  /\ (completed final + failed final)%Z = Z.of_nat (length tiles)
  /\ total final = Z.of_nat (length tiles)
  /\ (forall t, In t tiles -> tile_exhausts self tiles w (key t) ->
        images !! key t = None)
  /\ (forall i t, tiles !! i = Some t ->
        success (_download_tile self t (net w i)).1 = true ->
        is_Some (images !! key t))
  /\ (forall request w',
        let run := Api.download_tiles request w' in
        Api.fetched run = []
        /\ (forall e, Api.validate request = inl e ->
              Api.outcome run = inl e)
        /\ (forall bounds, Api.validate request = inr bounds ->
              Api.outcome run
              = inl (Py.AttributeError
                       "'DownloadRequest' object has no attribute 'tianditu_token'"))).
Proof.
  intros batch images final.
  destruct (download_tiles_finished self tiles progress_callback w)
    as [Hperm Hlen].
  fold batch in Hperm, Hlen.
  assert (Hdel : forall r, In r (results batch) -> delivered r = success r).
  { intros r Hr. apply (task_results_delivered self tiles w).
    now apply (Permutation_in _ Hperm). }
  subst images final. unfold batch, download_tiles in *.
  cbn [returned results fst snd] in *.
  set (finished := as_completed _ _) in *.
  set (st0 := {| tile_images := ∅;
                 progress := {| total := Z.of_nat (length tiles);
                                completed := 0; failed := 0;
                                status := "downloading" |};
                 observed := []; printed := [] |}).
  destruct (fold_handle_images progress_callback finished st0)
    as (Habs & Hpres & _ & _ & Hc & Hf).
  destruct (fold_handle_progress progress_callback finished st0)
    as (Ht & _ & _ & Hsum & _).
  cbn [st0 tile_images progress total completed failed] in *.
  split; [exact Hperm|].
  split.
  { intros i t _. symmetry. apply download_tile_fails_iff. }
  split.
  { rewrite Hf, Z.add_0_l. f_equal.
    rewrite (filter_length_ext _ (fun r => negb (success r)) finished).
    - now apply filter_length_perm.
    - intros r Hr. now rewrite Hdel. }
  split.
  { rewrite Hc, Z.add_0_l. f_equal.
    rewrite (filter_length_ext _ success finished Hdel).
    now apply filter_length_perm. }
  split; [rewrite Hsum, Hlen; lia|].
  split; [exact Ht|].
  split.
  { intros t Hin Hex. rewrite Habs; [apply lookup_empty|].
    intros r Hr Hkey. rewrite (Hdel r Hr).
    apply (Permutation_in _ Hperm) in Hr.
    apply task_results_spec in Hr. destruct Hr as (i & t' & Ht' & ->).
    apply download_tile_fails_iff. apply (Hex i t' Ht').
    rewrite <- Hkey. now rewrite download_tile_tile. }
  split.
  { intros i t Hti Hs.
    set (r := (_download_tile self t (net w i)).1) in *.
    assert (Hr : In r finished).
    { apply (Permutation_in _ (Permutation_sym Hperm)).
      apply task_results_spec. eauto. }
    replace (key t) with (key (tile r)).
    - apply Hpres; [exact Hr|]. now rewrite Hdel.
    - subst r. now rewrite download_tile_tile. }
  intros request w'. cbv zeta.
  destruct (Api.validate request) as [e|bounds] eqn:Hv.
  - rewrite (endpoint_rejected request w' e Hv). cbn [Api.fetched Api.outcome].
    split; [reflexivity|]. split; [now intros ? [= <-] | discriminate].
  - rewrite (endpoint_validated request w' bounds Hv).
    cbn [Api.fetched Api.outcome].
    split; [reflexivity|]. split; [discriminate | reflexivity].
Qed.

(** ** export_image *)

Lemma lower_geotiff_eqb (format : string) :
  Py.lower format = "geotiff" ->
  String.eqb (Py.lower format) "geotiff" = true.
Proof. intros ->. reflexivity. Qed.

(** * C9 *)

(** C9. When GeoTIFF export is requested ([format.lower() == 'geotiff'])
    and the GeoTIFF backend is unavailable or its encoder raises,
    [export_image] does not raise: with or without an output path it
    returns the PNG encoding of the image with content type [image/png],
    and prints exactly one line, the warning that GeoTIFF export failed. *)
Theorem geotiff_falls_back_to_png (B : Exporter.Backend)
    (image : PIL.Image) (bounds : Tile.TileBounds) (format : string)
    (output_path : option string) (fs : Exporter.FS) :
  Py.lower format = "geotiff" ->
  Exporter.RASTERIO_AVAILABLE B = false
  \/ (exists e, Exporter.gtiff_encode B image bounds "EPSG:4326" = inl e) ->
  let out := Exporter.export_image B image bounds format output_path fs in
  Exporter.result out = inr (Exporter.png_encode B image, "image/png")
  /\ exists e, Exporter.printed out
               = ["GeoTIFF export failed: " +:+ Exporter.exn_text e
                    +:+ ", falling back to PNG"].
Proof.
  intros Hfmt Hfail out. subst out. unfold Exporter.export_image.
  rewrite (lower_geotiff_eqb format Hfmt).
  unfold Exporter.export_geotiff, Exporter.export_geotiff_bytes,
    Exporter.read_back, Exporter.export_png_bytes.
  destruct (Exporter.given output_path) as [path|];
    destruct Hfail as [Hna|[e He]];
    try rewrite Hna;
    try (destruct (Exporter.RASTERIO_AVAILABLE B); try rewrite He);
    cbn [negb Py.bind Exporter.result Exporter.printed];
    (split; [reflexivity | eexists; reflexivity]).
Qed.

Lemma geotiff_falls_back_to_png_witness :
  (Py.lower "GeoTIFF" = "geotiff"
   /\ (Exporter.RASTERIO_AVAILABLE Sample.no_rasterio = false
       \/ exists e,
            Exporter.gtiff_encode Sample.no_rasterio Sample.white
              Sample.unit_bounds "EPSG:4326" = inl e))
  /\ let out :=
       Exporter.export_image Sample.no_rasterio Sample.white
         Sample.unit_bounds "GeoTIFF" None Sample.empty_disk in
     Exporter.result out
     = inr (Exporter.png_encode Sample.no_rasterio Sample.white, "image/png")
     /\ exists e, Exporter.printed out
                  = ["GeoTIFF export failed: " +:+ Exporter.exn_text e
                       +:+ ", falling back to PNG"].
Proof.
  split.
  - split; [reflexivity | left; reflexivity].
  - apply (geotiff_falls_back_to_png Sample.no_rasterio Sample.white
             Sample.unit_bounds "GeoTIFF" None Sample.empty_disk).
    + reflexivity.
    + left. reflexivity.
Defined.

(** ** Tile mathematics *)

Section TileMath.

Local Open Scope R_scope.

Lemma pow2_pos (zoom : Z) : 0 < Tile.pow2 zoom.
Proof. unfold Tile.pow2. apply powerRZ_lt. lra. Qed.

Lemma pow2_IZR (zoom : Z) :
  (0 <= zoom)%Z -> Tile.pow2 zoom = IZR (2 ^ zoom).
Proof.
  intros Hz. unfold Tile.pow2.
  rewrite <- (Z2Nat.id zoom Hz) at 1.
  rewrite <- pow_powerRZ, pow_IZR. now rewrite Z2Nat.id.
Qed.

Lemma int_nonneg (r : R) :
  0 <= r -> (0 <= Py.int r)%Z /\ IZR (Py.int r) <= r < IZR (Py.int r) + 1.
Proof.
  intros Hr. unfold Py.int. destruct (Rle_dec 0 r) as [_|Hn]; [|lra].
  split; [|apply Zfloor_bound].
  rewrite <- (ZfloorZ 0). now apply Zfloor_le.
Qed.

Lemma int_nonpos (r : R) : r <= 0 -> (Py.int r <= 0)%Z.
Proof.
  intros Hr. unfold Py.int. destruct (Rle_dec 0 r) as [Hp|Hn].
  - assert (r = 0) by lra. subst r. rewrite (ZfloorZ 0). lia.
  - replace 0%Z with (Zceil 0).
    + now apply Zceil_le.
    + apply Zceil_eq. lra.
Qed.

Lemma int_le (a b : R) : a <= b -> (Py.int a <= Py.int b)%Z.
Proof.
  intros Hab. destruct (Rle_dec 0 a) as [Ha|Ha].
  - unfold Py.int. destruct (Rle_dec 0 a); [|contradiction].
    destruct (Rle_dec 0 b); [|lra]. now apply Zfloor_le.
  - destruct (Rle_dec 0 b) as [Hb|Hb].
    + pose proof (int_nonpos a ltac:(lra)).
      pose proof (int_nonneg b Hb). lia.
    + unfold Py.int. destruct (Rle_dec 0 a); [contradiction|].
      destruct (Rle_dec 0 b); [contradiction|]. now apply Zceil_le.
Qed.

Lemma int_eq (z : Z) (r : R) :
  (0 <= z)%Z -> IZR z <= r < IZR z + 1 -> Py.int r = z.
Proof.
  intros Hz Hr. unfold Py.int.
  assert (0 <= IZR z) by now apply IZR_le.
  destruct (Rle_dec 0 r); [|lra]. now apply Zfloor_eq.
Qed.

(** The clamp of the latitude. *)
Lemma clamp_range (lat : R) :
  -85.05112878 <= Rmax (-85.05112878) (Rmin 85.05112878 lat) <= 85.05112878.
Proof.
  unfold Rmax, Rmin.
  destruct (Rle_dec 85.05112878 lat);
    destruct (Rle_dec (-85.05112878) _); lra.
Qed.

Lemma clamp_le (a b : R) :
  a <= b ->
  Rmax (-85.05112878) (Rmin 85.05112878 a)
  <= Rmax (-85.05112878) (Rmin 85.05112878 b).
Proof.
  intros Hab. unfold Rmax, Rmin.
  destruct (Rle_dec 85.05112878 a); destruct (Rle_dec 85.05112878 b);
    repeat destruct (Rle_dec (-85.05112878) _); lra.
Qed.

Lemma clamp_id (lat : R) :
  -85.05112878 <= lat <= 85.05112878 ->
  Rmax (-85.05112878) (Rmin 85.05112878 lat) = lat.
Proof.
  intros H. unfold Rmax, Rmin.
  destruct (Rle_dec 85.05112878 lat);
    destruct (Rle_dec (-85.05112878) _); lra.
Qed.

Lemma radians_range (d : R) :
  -90 < d < 90 -> - PI / 2 < Tile.radians d < PI / 2.
Proof.
  intros H. unfold Tile.radians. pose proof PI_RGT_0. split; nra.
Qed.

Lemma tan_le (a b : R) :
  - PI / 2 < a -> a <= b -> b < PI / 2 -> tan a <= tan b.
Proof.
  intros Ha [Hlt| ->] Hb; [|lra]. left. now apply tan_increasing.
Qed.

(** The vertical tile coordinate, before rounding, as a function of the
    latitude. *)
Lemma mercator_y (lat lng : R) (zoom : Z) :
  (Tile.latlng_to_tile_float lat lng zoom).2
  = (1 - arcsinh (tan (Tile.radians
           (Rmax (-85.05112878) (Rmin 85.05112878 lat)))) / PI) / 2
    * Tile.pow2 zoom.
Proof. reflexivity. Qed.

Lemma mercator_x (lat lng : R) (zoom : Z) :
  (Tile.latlng_to_tile_float lat lng zoom).1
  = (lng + 180) / 360 * Tile.pow2 zoom.
Proof. reflexivity. Qed.

Lemma mercator_x_le (lat lat' west east : R) (zoom : Z) :
  west <= east ->
  (Tile.latlng_to_tile_float lat west zoom).1
  <= (Tile.latlng_to_tile_float lat' east zoom).1.
Proof.
  intros H. rewrite !mercator_x. pose proof (pow2_pos zoom). nra.
Qed.

Lemma mercator_y_le (south north lng lng' : R) (zoom : Z) :
  south <= north ->
  (Tile.latlng_to_tile_float north lng zoom).2
  <= (Tile.latlng_to_tile_float south lng' zoom).2.
Proof.
  intros H. rewrite !mercator_y.
  pose proof (pow2_pos zoom) as Hn. pose proof PI_RGT_0 as Hpi.
  pose proof (clamp_range south) as Hs. pose proof (clamp_range north) as Hn'.
  pose proof (clamp_le south north H) as Hle.
  set (s := Rmax _ (Rmin _ south)) in *.
  set (n := Rmax _ (Rmin _ north)) in *.
  assert (Hasinh : arcsinh (tan (Tile.radians s))
                   <= arcsinh (tan (Tile.radians n))).
  { apply arcsinh_le, tan_le.
    - apply radians_range. lra.
    - unfold Tile.radians. nra.
    - apply radians_range. lra. }
  assert (Hdiv : arcsinh (tan (Tile.radians s)) / PI
                 <= arcsinh (tan (Tile.radians n)) / PI).
  { unfold Rdiv. apply Rmult_le_compat_r; [|exact Hasinh].
    left. now apply Rinv_0_lt_compat. }
  nra.
Qed.

(** The corner tiles of a box are ordered like its corners. *)
Lemma latlng_to_tile_x_le (lat lat' west east : R) (zoom : Z) :
  west <= east ->
  ((Tile.latlng_to_tile lat west zoom).1
   <= (Tile.latlng_to_tile lat' east zoom).1)%Z.
Proof.
  intros H. unfold Tile.latlng_to_tile.
  pose proof (int_le _ _ (mercator_x_le lat lat' west east zoom H)) as Hle.
  destruct (Tile.latlng_to_tile_float lat west zoom) as [x1 y1].
  destruct (Tile.latlng_to_tile_float lat' east zoom) as [x2 y2].
  cbn [fst] in *. lia.
Qed.

Lemma latlng_to_tile_y_le (south north lng lng' : R) (zoom : Z) :
  south <= north ->
  ((Tile.latlng_to_tile north lng zoom).2
   <= (Tile.latlng_to_tile south lng' zoom).2)%Z.
Proof.
  intros H. unfold Tile.latlng_to_tile.
  pose proof (int_le _ _ (mercator_y_le south north lng lng' zoom H)) as Hle.
  destruct (Tile.latlng_to_tile_float north lng zoom) as [x1 y1].
  destruct (Tile.latlng_to_tile_float south lng' zoom) as [x2 y2].
  cbn [snd] in *. lia.
Qed.

End TileMath.

(** * C5 *)

(** C5 (amended). For every canvas (of non-negative width and height,
    as Pillow's are), every zoom, every grid origin and all requested bounds with
    [south <= north] and [west <= east], the crop rectangle computed from
    the fractional tile coordinates and clamped satisfies
    [0 <= left <= right <= width] and [0 <= top <= bottom <= height];
    when [right <= left] or [bottom <= top] the crop is skipped and the
    canvas is left as it is, and otherwise the canvas is cropped to the
    rectangle. *)
Theorem crop_box_within (merged_image : PIL.Image) (bounds : Models.Bounds)
    (zoom x_min y_min : Z) :
  (Models.south bounds <= Models.north bounds)%R ->
  (Models.west bounds <= Models.east bounds)%R ->
  (0 <= (PIL.size merged_image).1)%Z ->
  (0 <= (PIL.size merged_image).2)%Z ->
  let box :=
    Api.crop_box bounds zoom x_min y_min (PIL.size merged_image) in
  let left := box.1.1.1 in
  let top := box.1.1.2 in
  let right := box.1.2 in
  let bottom := box.2 in
  let width := (PIL.size merged_image).1 in
  let height := (PIL.size merged_image).2 in
  (0 <= left <= right)%Z /\ (right <= width)%Z
  /\ (0 <= top <= bottom)%Z /\ (bottom <= height)%Z
  /\ ((right <= left)%Z \/ (bottom <= top)%Z ->
      Api.crop_to_request merged_image bounds zoom x_min y_min
      = merged_image)
  /\ ((left < right)%Z /\ (top < bottom)%Z ->
      Api.crop_to_request merged_image bounds zoom x_min y_min
      = PIL.crop merged_image (left, top, right, bottom)).
Proof.
  intros Hlat Hlng Hw Hh.
  unfold Api.crop_to_request.
  set (box := Api.crop_box _ _ _ _ _).
  cbv zeta.
  assert (Hbox : (0 <= box.1.1.1 <= box.1.2)%Z
                 /\ (box.1.2 <= (PIL.size merged_image).1)%Z
                 /\ (0 <= box.1.1.2 <= box.2)%Z
                 /\ (box.2 <= (PIL.size merged_image).2)%Z).
  { subst box. unfold Api.crop_box.
    pose proof (mercator_x_le (Models.north bounds) (Models.south bounds)
                  _ _ zoom Hlng) as Hx.
    pose proof (mercator_y_le _ _ (Models.west bounds) (Models.east bounds)
                  zoom Hlat) as Hy.
    destruct (Tile.latlng_to_tile_float (Models.north bounds)
                (Models.west bounds) zoom) as [nw_x nw_y].
    destruct (Tile.latlng_to_tile_float (Models.south bounds)
                (Models.east bounds) zoom) as [se_x se_y].
    destruct (PIL.size merged_image) as [width height].
    cbn [fst snd] in *.
    assert (H256 : (0 < IZR Config.TILE_SIZE)%R)
      by (unfold Config.TILE_SIZE; lra).
    pose proof (int_le ((nw_x - IZR x_min) * IZR Config.TILE_SIZE)
                  ((se_x - IZR x_min) * IZR Config.TILE_SIZE)
                  ltac:(nra)).
    pose proof (int_le ((nw_y - IZR y_min) * IZR Config.TILE_SIZE)
                  ((se_y - IZR y_min) * IZR Config.TILE_SIZE)
                  ltac:(nra)).
    lia. }
  destruct Hbox as (Hl & Hr & Ht & Hb).
  repeat split; try lia.
  - intros Hskip.
    destruct (Z.ltb_spec box.1.1.1 box.1.2);
      destruct (Z.ltb_spec box.1.1.2 box.2); cbn [andb];
      try reflexivity; lia.
  - intros [Hlr Htb].
    destruct (Z.ltb_spec box.1.1.1 box.1.2); [|lia].
    destruct (Z.ltb_spec box.1.1.2 box.2); [|lia]. reflexivity.
Qed.

Lemma crop_box_within_witness :
  ((0 <= 1)%R /\ (0 <= 1)%R
   /\ (0 <= (PIL.size Sample.white).1)%Z
   /\ (0 <= (PIL.size Sample.white).2)%Z)
  /\ let bounds :=
       {| Models.north := 1; Models.south := 0;
          Models.east := 1; Models.west := 0 |} in
     let box := Api.crop_box bounds 1 1 0 (PIL.size Sample.white) in
     (0 <= box.1.1.1 <= box.1.2)%Z
     /\ (box.1.2 <= (PIL.size Sample.white).1)%Z
     /\ (0 <= box.1.1.2 <= box.2)%Z
     /\ (box.2 <= (PIL.size Sample.white).2)%Z
     /\ ((box.1.2 <= box.1.1.1)%Z \/ (box.2 <= box.1.1.2)%Z ->
         Api.crop_to_request Sample.white bounds 1 1 0 = Sample.white)
     /\ ((box.1.1.1 < box.1.2)%Z /\ (box.1.1.2 < box.2)%Z ->
         Api.crop_to_request Sample.white bounds 1 1 0
         = PIL.crop Sample.white (box.1.1.1, box.1.1.2, box.1.2, box.2)).
Proof.
  split.
  - cbn. repeat split; try lra; lia.
  - apply (crop_box_within Sample.white
             {| Models.north := 1; Models.south := 0;
                Models.east := 1; Models.west := 0 |} 1 1 0); cbn;
      try lra; lia.
Defined.

(** ** Tiles on the equator *)

Section Equator.

Local Open Scope R_scope.

Lemma pow2_1 : Tile.pow2 1 = 2.
Proof. unfold Tile.pow2. apply powerRZ_1. Qed.

Lemma tile_float_equator (lng : R) (zoom : Z) :
  Tile.latlng_to_tile_float 0 lng zoom
  = ((lng + 180) / 360 * Tile.pow2 zoom, Tile.pow2 zoom / 2).
Proof.
  unfold Tile.latlng_to_tile_float. rewrite clamp_id by lra.
  unfold Tile.radians. rewrite Rmult_0_l, tan_0, arcsinh_0.
  replace (0 / PI) with 0 by (unfold Rdiv; now rewrite Rmult_0_l).
  f_equal. lra.
Qed.

(** At zoom 1 a point of the equator lies in row 1 and in the column given
    by its longitude. *)
Lemma latlng_to_tile_equator_1 (lng : R) (column : Z) :
  (0 <= column <= 1)%Z ->
  IZR column <= (lng + 180) / 180 < IZR column + 1 ->
  Tile.latlng_to_tile 0 lng 1 = (column, 1%Z).
Proof.
  intros Hc Hl. unfold Tile.latlng_to_tile.
  rewrite tile_float_equator, pow2_1.
  rewrite (int_eq 2 2) by (lia || lra).
  rewrite (int_eq column) by (lia || lra).
  rewrite (int_eq 1 (2 / 2)) by (lia || lra).
  f_equal; lia.
Qed.

End Equator.

(** C5, counterexample. The request with bounds north = south = 0,
    west = 10, east = 0 at zoom 1 lies in the single tile (1, 1); on the
    256 x 256 canvas of that grid its crop rectangle has left = 14 and
    right = 0. *)
Lemma crop_box_inverted_bounds :
  let bounds :=
    {| Models.north := 0; Models.south := 0;
       Models.east := 0; Models.west := 10 |} in
  Tile.get_tile_matrix_size 0 0 0 10 1 = (1, 1, 1, 1, 1, 1)%Z
  /\ let box := Api.crop_box bounds 1 1 1 (256, 256)%Z in
     box.1.1.1 = 14%Z /\ box.1.2 = 0%Z /\ ~ (box.1.1.1 <= box.1.2)%Z.
Proof.
  cbv zeta. split.
  - unfold Tile.get_tile_matrix_size.
    rewrite (latlng_to_tile_equator_1 10 1) by (lia || lra).
    rewrite (latlng_to_tile_equator_1 0 1) by (lia || lra).
    reflexivity.
  - unfold Api.crop_box. cbn [Models.north Models.south Models.east
                               Models.west].
    rewrite !tile_float_equator, pow2_1. unfold Config.TILE_SIZE.
    rewrite (int_eq 14) by (lia || lra).
    rewrite (int_eq 0 ((2 / 2 - 1) * 256)) by (lia || lra).
    rewrite (int_eq 0) by (lia || lra).
    cbn. repeat split; lia.
Qed.

(** A corner on a grid line: with east = 180 at zoom 1 the fractional
    column is exactly 2, and the right edge is the canvas width. *)
Example crop_box_grid_boundary :
  Api.crop_box
    {| Models.north := 0; Models.south := 0;
       Models.east := 180; Models.west := 0 |} 1 1 1 (256, 256)%Z
  = (0, 0, 256, 0)%Z.
Proof.
  unfold Api.crop_box. cbn [Models.north Models.south Models.east
                            Models.west].
  rewrite !tile_float_equator, pow2_1. unfold Config.TILE_SIZE.
  rewrite (int_eq 0 (((0 + 180) / 360 * 2 - 1) * 256)) by (lia || lra).
  rewrite (int_eq 0 ((2 / 2 - 1) * 256)) by (lia || lra).
  rewrite (int_eq 256) by (lia || lra).
  reflexivity.
Qed.
(** ** Requests whose longitudes are inverted *)

Lemma validate_rectangle (request : Models.DownloadRequest)
    (b : Models.Bounds) :
  Models.bounds request = Some b ->
  Models.polygon request = None ->
  Models.source request ∈ dom Config.TILE_SOURCES ->
  Api.in_list (Py.lower (Models.format request))
    ["geotiff"; "png"; "jpeg"; "jpg"] = true ->
  (Tile.estimate_tile_count (Models.north b) (Models.south b)
     (Models.east b) (Models.west b) (Models.zoom request)
   <= Api.max_tiles)%Z ->
  Api.validate request = inr b.
Proof.
  intros Hb Hp Hs Hf Hcount. unfold Api.validate.
  rewrite Hb, Hp. cbn [default Py.bind].
  destruct (decide _) as [_|Hn]; [|contradiction].
  cbn [Py.bind]. rewrite Hf. cbn [Py.bind].
  destruct (Z.ltb_spec Api.max_tiles
              (Tile.estimate_tile_count (Models.north b) (Models.south b)
                 (Models.east b) (Models.west b) (Models.zoom request)));
    [lia | reflexivity].
Qed.

Lemma validate_rectangle_count (request : Models.DownloadRequest)
    (b : Models.Bounds) :
  Models.bounds request = Some b ->
  Models.polygon request = None ->
  Api.validate request = inr b ->
  (Tile.estimate_tile_count (Models.north b) (Models.south b)
     (Models.east b) (Models.west b) (Models.zoom request)
   <= Api.max_tiles)%Z.
Proof.
  intros Hb Hp. unfold Api.validate.
  rewrite Hb, Hp. cbn [default Py.bind].
  destruct (decide _); cbn [Py.bind]; [|discriminate].
  destruct (Api.in_list _ _); cbn [Py.bind]; [|discriminate].
  destruct (Z.ltb_spec Api.max_tiles
              (Tile.estimate_tile_count (Models.north b) (Models.south b)
                 (Models.east b) (Models.west b) (Models.zoom request)));
    [discriminate | intros _; lia].
Qed.

(** * C2 *)

(** C2 (amended). The endpoint has no check on the order of the
    longitudes. For a rectangle request with a known source and format,
    [south <= north] and [west > east], the tile column of the north-west
    corner is not left of that of the south-east corner, and when it lies
    strictly to the right the tile count is zero or negative. Validation
    accepts the request, with its bounds as given, exactly when its tile
    count is within the ceiling of 1,000,000 tiles, as it does for any
    other rectangle; in particular it accepts every such request whose
    corners lie in different columns. A request that validation accepts
    is not answered with an input-validation error (HTTP 400). *)
Theorem inverted_longitudes_not_validated {LANCZOS : PIL.Resampling}
    (request : Models.DownloadRequest)
    (b : Models.Bounds) (w : World) :
  Models.bounds request = Some b ->
  Models.polygon request = None ->
  Models.source request ∈ dom Config.TILE_SOURCES ->
  Api.in_list (Py.lower (Models.format request))
    ["geotiff"; "png"; "jpeg"; "jpg"] = true ->
  (Models.south b <= Models.north b)%R ->
  (Models.east b < Models.west b)%R ->
  let run := Api.download_tiles request w in
  let x_min :=
    (Tile.latlng_to_tile (Models.north b) (Models.west b)
       (Models.zoom request)).1 in
  let x_max :=
    (Tile.latlng_to_tile (Models.south b) (Models.east b)
       (Models.zoom request)).1 in
  let tile_count :=
    Tile.estimate_tile_count (Models.north b) (Models.south b)
      (Models.east b) (Models.west b) (Models.zoom request) in
  (x_max <= x_min)%Z
  /\ ((x_max < x_min)%Z -> (tile_count <= 0)%Z)
  /\ (Api.validate request = inr b <-> (tile_count <= Api.max_tiles)%Z)
  /\ (Api.validate request = inr b ->
      forall detail,
        Api.outcome run <> inl (Py.HTTPException 400 detail)).
Proof.
  intros Hb Hp Hs Hf Hlat Hlng run x_min x_max tile_count.
  assert (Hx : (x_max <= x_min)%Z).
  { apply latlng_to_tile_x_le. lra. }
  pose proof (latlng_to_tile_y_le (Models.south b) (Models.north b)
                (Models.west b) (Models.east b) (Models.zoom request) Hlat)
    as Hy.
  split; [exact Hx|]. subst run x_min x_max tile_count. split; [|split].
  - intros Hlt. unfold Tile.estimate_tile_count.
    destruct (Tile.latlng_to_tile (Models.north b) (Models.west b) _)
      as [x_min y_min].
    destruct (Tile.latlng_to_tile (Models.south b) (Models.east b) _)
      as [x_max y_max].
    cbn [fst snd] in *. nia.
  - split.
    + now apply validate_rectangle_count.
    + now apply validate_rectangle.
  - intros Hv detail. rewrite (endpoint_validated request w b Hv).
    discriminate.
Qed.

Section InvertedExamples.

Local Open Scope R_scope.

Lemma rectangle_validates (west east : R) (x_min x_max : Z) :
  Tile.latlng_to_tile 0 west 1 = (x_min, 1%Z) ->
  Tile.latlng_to_tile 0 east 1 = (x_max, 1%Z) ->
  (x_max - x_min + 1 <= 1000000)%Z ->
  Api.validate (Sample.rectangle west east)
  = inr {| Models.north := 0; Models.south := 0;
           Models.east := east; Models.west := west |}.
Proof.
  intros Hw He Hcount.
  apply validate_rectangle;
    [reflexivity | reflexivity
     | apply elem_of_dom; eexists; reflexivity | reflexivity |].
  cbn [Models.north Models.south Models.east Models.west Models.zoom
       Sample.rectangle].
  unfold Tile.estimate_tile_count, Api.max_tiles. rewrite Hw, He. lia.
Qed.

End InvertedExamples.

(** C2, counterexample. At zoom 1 on the equator, the request from 170 E
    across the antimeridian to 170 W and the request with west = 10 and
    east = 0 both pass validation. Neither is answered with an
    input-validation error: each ends, without a tile fetched, in the
    [AttributeError] that the construction of the downloader raises for
    every request that passes validation. *)
Lemma inverted_longitudes_accepted :
  Api.validate Sample.across_antimeridian
  = inr {| Models.north := 0; Models.south := 0;
           Models.east := -170; Models.west := 170 |}
  /\ @Api.download_tiles Sample.nearest_resampling
       Sample.across_antimeridian Sample.fine_world
     = {| Api.outcome :=
            inl (Py.AttributeError
                   "'DownloadRequest' object has no attribute 'tianditu_token'");
          Api.fetched := [] |}
  /\ Api.validate Sample.west_of_east
     = inr {| Models.north := 0; Models.south := 0;
              Models.east := 0; Models.west := 10 |}
  /\ @Api.download_tiles Sample.nearest_resampling
       Sample.west_of_east Sample.fine_world
     = {| Api.outcome :=
            inl (Py.AttributeError
                   "'DownloadRequest' object has no attribute 'tianditu_token'");
          Api.fetched := [] |}.
Proof.
  assert (H170 : Tile.latlng_to_tile 0 170 1 = (1, 1)%Z)
    by (apply latlng_to_tile_equator_1; [lia | lra]).
  assert (H190 : Tile.latlng_to_tile 0 (-170) 1 = (0, 1)%Z)
    by (apply latlng_to_tile_equator_1; [lia | lra]).
  assert (H10 : Tile.latlng_to_tile 0 10 1 = (1, 1)%Z)
    by (apply latlng_to_tile_equator_1; [lia | lra]).
  assert (H0 : Tile.latlng_to_tile 0 0 1 = (1, 1)%Z)
    by (apply latlng_to_tile_equator_1; [lia | lra]).
  assert (HvA := rectangle_validates 170 (-170) 1 0 H170 H190 ltac:(lia)).
  assert (HvB := rectangle_validates 10 0 1 1 H10 H0 ltac:(lia)).
  split; [exact HvA|]. split; [|split; [exact HvB|]].
  - exact (endpoint_validated _ _ _ HvA).
  - exact (endpoint_validated _ _ _ HvB).
Qed.

Lemma inverted_longitudes_not_validated_witness :
  (0 <= 0)%R /\ (-170 < 170)%R
  /\ let b :=
       {| Models.north := 0%R; Models.south := 0%R;
          Models.east := (-170)%R; Models.west := 170%R |} in
     let run :=
       @Api.download_tiles Sample.nearest_resampling
         Sample.across_antimeridian Sample.fine_world in
     let x_min := (Tile.latlng_to_tile 0 170 1).1 in
     let x_max := (Tile.latlng_to_tile 0 (-170) 1).1 in
     let tile_count := Tile.estimate_tile_count 0 0 (-170) 170 1 in
     (x_max <= x_min)%Z
     /\ ((x_max < x_min)%Z -> (tile_count <= 0)%Z)
     /\ (Api.validate Sample.across_antimeridian = inr b
         <-> (tile_count <= Api.max_tiles)%Z)
     /\ (Api.validate Sample.across_antimeridian = inr b ->
         forall detail,
           Api.outcome run <> inl (Py.HTTPException 400 detail)).
Proof.
  split; [lra|]. split; [lra|].
  apply (@inverted_longitudes_not_validated Sample.nearest_resampling
           Sample.across_antimeridian
           {| Models.north := 0%R; Models.south := 0%R;
              Models.east := (-170)%R; Models.west := 170%R |}
           Sample.fine_world).
  - reflexivity.
  - reflexivity.
  - apply elem_of_dom. eexists. reflexivity.
  - reflexivity.
  - cbn. lra.
  - cbn. lra.
Defined.

(** ** A request whose tiles would all be delivered *)

(** C3, the endpoint at a request that passes validation. The request
    lies in the single tile (1, 1); on a network where every attempt
    delivers, the downloader built for its source returns a mapping that
    holds that tile, with the batch completed. The endpoint nevertheless
    fails, with the [AttributeError] of the constructor call, and fetches
    nothing. *)
Lemma endpoint_fails_with_tiles_delivered :
  let tiles := Tile.get_tiles_in_bounds 0 0 20 10 1 in
  let batch :=
    download_tiles (Sample.downloader 3) tiles false Sample.fine_world in
  Api.validate Sample.one_tile
  = inr {| Models.north := 0%R; Models.south := 0%R;
           Models.east := 20%R; Models.west := 10%R |}
  /\ __init__ "osm" None None None None None = inr (Sample.downloader 3)
  /\ tiles = [Sample.tile_1_1]
  /\ (returned batch).1 !! (1, 1)%Z = Some Sample.black
  /\ completed (returned batch).2 = 1%Z
  /\ failed (returned batch).2 = 0%Z
  /\ @Api.download_tiles Sample.nearest_resampling
       Sample.one_tile Sample.fine_world
     = {| Api.outcome :=
            inl (Py.AttributeError
                   "'DownloadRequest' object has no attribute 'tianditu_token'");
          Api.fetched := [] |}.
Proof.
  assert (H10 : Tile.latlng_to_tile 0 10 1 = (1, 1)%Z)
    by (apply latlng_to_tile_equator_1; [lia | lra]).
  assert (H20 : Tile.latlng_to_tile 0 20 1 = (1, 1)%Z)
    by (apply latlng_to_tile_equator_1; [lia | lra]).
  assert (Hv := rectangle_validates 10 20 1 1 H10 H20 ltac:(lia)).
  assert (Htiles : Tile.get_tiles_in_bounds 0 0 20 10 1 = [Sample.tile_1_1]).
  { unfold Tile.get_tiles_in_bounds. rewrite H10, H20. reflexivity. }
  cbv zeta. rewrite Htiles.
  split; [exact Hv|]. split; [vm_compute; reflexivity|].
  split; [reflexivity|]. split; [vm_compute; reflexivity|].
  split; [vm_compute; reflexivity|]. split; [vm_compute; reflexivity|].
  exact (endpoint_validated _ _ _ Hv).
Qed.

(** ** Numeric bounds: PI, exp and the Mercator limit *)

Section Numerics.

Local Open Scope R_scope.

Lemma Q2R_qpow (q : Q) (n : nat) : Q2R (Num.qpow q n) = Q2R q ^ n.
Proof.
  induction n as [|n IH]; cbn [Num.qpow pow].
  - unfold Q2R. cbn. lra.
  - now rewrite Q2R_mult, IH.
Qed.

Lemma Q2R_qnat (n : nat) : Q2R (Num.qnat n) = INR n.
Proof.
  unfold Num.qnat, Q2R. cbn. rewrite INR_IZR_INZ. lra.
Qed.

Lemma qnat_nonzero (n : nat) : (0 < n)%nat -> ~ (Num.qnat n == 0)%Q.
Proof.
  intros Hn. unfold Num.qnat, Qeq. cbn. lia.
Qed.

Lemma Q2R_qsum (f : nat -> Q) (g : nat -> R) (n : nat) :
  (forall i, (i <= n)%nat -> g i = Q2R (f i)) ->
  sum_f_R0 g n = Q2R (Num.qsum f n).
Proof.
  induction n as [|n IH]; intros H; cbn [sum_f_R0 Num.qsum].
  - apply H. lia.
  - rewrite (Qeq_eqR _ _ (Qred_correct _)), Q2R_plus.
    rewrite IH by (intros; apply H; lia). f_equal. apply H. lia.
Qed.

Lemma Q2R_m1 : Q2R (-1) = -1.
Proof. unfold Q2R. cbn. lra. Qed.

Lemma q_pi_term_spec (i : nat) :
  tg_alt PI_2_3_7_tg i = Q2R (Num.q_pi_term i).
Proof.
  unfold tg_alt, PI_2_3_7_tg, Ratan_seq, Num.q_pi_term.
  assert (Hnz : ~ (Num.qnat (2 * i + 1) == 0)%Q) by (apply qnat_nonzero; lia).
  rewrite Q2R_mult, Q2R_plus, Q2R_mult, !Q2R_div by exact Hnz.
  rewrite !Q2R_qpow, Q2R_qnat, Q2R_m1.
  replace (Q2R (1 # 3)) with (/ 3) by (unfold Q2R; cbn; lra).
  replace (Q2R (1 # 7)) with (/ 7) by (unfold Q2R; cbn; lra).
  replace (Q2R 2) with 2 by (unfold Q2R; cbn; lra).
  reflexivity.
Qed.

Lemma PI_bounds : 3.1415926535897 < PI < 3.1415926535898.
Proof.
  pose proof (PI_2_3_7_ineq 7) as [Hlo Hhi].
  rewrite (Q2R_qsum Num.q_pi_term) in Hlo, Hhi
    by (intros; apply q_pi_term_spec).
  assert (H1 : Q2R (31415926535897 # 40000000000000)
               < Q2R (Num.qsum Num.q_pi_term (S (2 * 7)))).
  { apply Qlt_Rlt. vm_compute. reflexivity. }
  assert (H2 : Q2R (Num.qsum Num.q_pi_term (2 * 7))
               < Q2R (31415926535898 # 40000000000000)).
  { apply Qlt_Rlt. vm_compute. reflexivity. }
  unfold Q2R in H1 at 1. unfold Q2R in H2 at 2. cbn [Qnum Qden] in H1, H2.
  lra.
Qed.


(** Partial sums of odd order of the series of [exp (- x)] lie below it,
    for [0 <= x <= 1]. *)
Lemma exp_neg_lower (x : R) (n : nat) :
  0 <= x <= 1 ->
  sum_f_R0 (tg_alt (fun k => x ^ k / INR (fact k))) (S (2 * n))
  <= exp (- x).
Proof.
  intros Hx.
  apply (alternated_series_ineq (fun k => x ^ k / INR (fact k))
           (exp (- x)) n).
  - intros k. cbn [pow]. rewrite fact_simpl, mult_INR.
    pose proof (INR_fact_lt_0 k) as Hf.
    pose proof (pow_le x k (proj1 Hx)) as Hp.
    assert (Hs : 1 <= INR (S k)).
    { rewrite S_INR. pose proof (pos_INR k). lra. }
    unfold Rdiv. rewrite Rinv_mult.
    assert (Hinv : 0 < / INR (fact k)) by now apply Rinv_0_lt_compat.
    assert (Hinv' : 0 < / INR (S k) <= 1).
    { split; [apply Rinv_0_lt_compat; lra|].
      rewrite <- Rinv_1. apply Rinv_le_contravar; lra. }
    assert (x * / INR (S k) <= 1) by nra.
    assert (0 <= x ^ k * / INR (fact k)) by nra.
    replace (x * x ^ k * (/ INR (S k) * / INR (fact k)))
      with ((x * / INR (S k)) * (x ^ k * / INR (fact k))) by ring.
    nra.
  - apply cv_speed_pow_fact.
  - pose proof (proj2_sig (exist_exp (- x))) as Hexp.
    unfold exp_in, infinite_sum in Hexp. fold (exp (- x)) in Hexp.
    intros eps Heps. destruct (Hexp eps Heps) as [N HN].
    exists N. intros m Hm. specialize (HN m Hm).
    rewrite (sum_eq _ (fun i => / INR (fact i) * (- x) ^ i)); [exact HN|].
    intros i _. unfold tg_alt.
    replace (- x) with (-1 * x) by ring. rewrite Rpow_mult_distr.
    unfold Rdiv. ring.
Qed.

Lemma zfact_INR (k : nat) : IZR (Num.zfact k) = INR (fact k).
Proof.
  induction k as [|k IH]; [reflexivity|].
  cbn [Num.zfact]. rewrite mult_IZR, IH, <- INR_IZR_INZ.
  rewrite fact_simpl, mult_INR. reflexivity.
Qed.

Lemma q_exp_term_spec (q : Q) (k : nat) :
  tg_alt (fun k => Q2R q ^ k / INR (fact k)) k = Q2R (Num.q_exp_term q k).
Proof.
  unfold tg_alt, Num.q_exp_term.
  assert (Hpos : 0 < IZR (Num.zfact k))
    by (rewrite zfact_INR; apply INR_fact_lt_0).
  assert (Hnz : ~ (inject_Z (Num.zfact k) == 0)%Q).
  { unfold Qeq. cbn. apply lt_IZR in Hpos. lia. }
  rewrite Q2R_mult, Q2R_div by exact Hnz.
  rewrite !Q2R_qpow, Q2R_m1.
  replace (Q2R (inject_Z (Num.zfact k))) with (INR (fact k)).
  - reflexivity.
  - rewrite <- zfact_INR. unfold Q2R. cbn. lra.
Qed.

Lemma exp_quarter_PI_lower : 0.455938127765994 <= exp (- (PI / 4)).
Proof.
  pose proof PI_bounds as [Hlo Hhi].
  set (q := (78539816339745 # 100000000000000)%Q).
  assert (Hq : Q2R q = 0.78539816339745) by (unfold Q2R; cbn; lra).
  assert (Hle : exp (- Q2R q) <= exp (- (PI / 4))).
  { left. apply exp_increasing. rewrite Hq. lra. }
  pose proof (exp_neg_lower (Q2R q) 7 ltac:(rewrite Hq; lra)) as Hsum.
  rewrite (Q2R_qsum (Num.q_exp_term q)) in Hsum
    by (intros; apply q_exp_term_spec).
  assert (H1 : Q2R (455938127765994 # 1000000000000000)
               <= Q2R (Num.qsum (Num.q_exp_term q) (S (2 * 7)))).
  { apply Qle_Rle. vm_compute. discriminate. }
  unfold Q2R in H1 at 1. cbn [Qnum Qden] in H1. lra.
Qed.

Lemma exp_neg_PI_lower : 0.043213918263771 <= exp (- PI).
Proof.
  pose proof exp_quarter_PI_lower as Ha.
  replace (- PI) with (- (PI / 4) + - (PI / 4) + (- (PI / 4) + - (PI / 4)))
    by lra.
  rewrite !exp_plus.
  set (a := exp (- (PI / 4))) in *.
  assert (H2 : 0.455938127765994 * 0.455938127765994 <= a * a) by nra.
  assert (0 <= a * a) by nra.
  nra.
Qed.

Lemma sinh_PI_upper : sinh PI <= 11.5487393572581.
Proof.
  pose proof exp_neg_PI_lower as Hu. unfold sinh.
  replace (exp PI) with (/ exp (- PI))
    by (rewrite exp_Ropp, Rinv_inv; reflexivity).
  set (u := exp (- PI)) in *.
  assert (Hinv : / u <= / 0.043213918263771)
    by (apply Rinv_le_contravar; lra).
  lra.
Qed.


Lemma INR_fact_value (n : nat) (v : Z) :
  Z.of_nat (fact n) = v -> INR (fact n) = IZR v.
Proof. intros <-. apply INR_IZR_INZ. Qed.

Lemma sin_ub_poly (a : R) :
  sin_ub a = a - a ^ 3 / 6 + a ^ 5 / 120 - a ^ 7 / 5040 + a ^ 9 / 362880.
Proof.
  unfold sin_ub, sin_approx, sin_term. cbn [sum_f_R0].
  change (2 * 0 + 1)%nat with 1%nat. change (2 * 1 + 1)%nat with 3%nat.
  change (2 * 2 + 1)%nat with 5%nat. change (2 * 3 + 1)%nat with 7%nat.
  change (2 * 4 + 1)%nat with 9%nat.
  rewrite (INR_fact_value 1 1), (INR_fact_value 3 6),
    (INR_fact_value 5 120), (INR_fact_value 7 5040),
    (INR_fact_value 9 362880) by (vm_compute; reflexivity).
  field.
Qed.

Lemma cos_lb_poly (a : R) :
  cos_lb a = 1 - a ^ 2 / 2 + a ^ 4 / 24 - a ^ 6 / 720.
Proof.
  unfold cos_lb, cos_approx, cos_term. cbn [sum_f_R0].
  change (2 * 0)%nat with 0%nat. change (2 * 1)%nat with 2%nat.
  change (2 * 2)%nat with 4%nat. change (2 * 3)%nat with 6%nat.
  rewrite (INR_fact_value 0 1), (INR_fact_value 2 2),
    (INR_fact_value 4 24), (INR_fact_value 6 720)
    by (vm_compute; reflexivity).
  field.
Qed.

(** The clamp constant of the code lies beyond the Mercator limit:
    [sinh PI < tan (radians 85.05112878)]. *)
Lemma sinh_PI_lt_tan_clamp : sinh PI < tan (Tile.radians 85.05112878).
Proof.
  pose proof PI_bounds as [Hlo Hhi]. pose proof sinh_PI_upper as HS.
  assert (HS0 : 0 < sinh PI).
  { rewrite <- sinh_0. apply sinh_lt. lra. }
  set (d := 4.94887122 * (PI / 180)).
  assert (Hd : 0.086374097046186 <= d <= 0.086374097046189)
    by (unfold d; lra).
  replace (Tile.radians 85.05112878) with (PI / 2 - d)
    by (unfold Tile.radians, d; lra).
  unfold tan. rewrite sin_shift, cos_shift.
  pose proof (SIN d ltac:(lra) ltac:(lra)) as [_ Hsin].
  pose proof (COS d ltac:(lra) ltac:(lra)) as [Hcos _].
  rewrite sin_ub_poly in Hsin. rewrite cos_lb_poly in Hcos.
  assert (Hsin0 : 0 < sin d) by (apply sin_gt_0; lra).
  pose proof (pow_incr 0.086374097046186 d 2 ltac:(lra)) as L2.
  pose proof (pow_incr 0.086374097046186 d 3 ltac:(lra)) as L3.
  pose proof (pow_incr 0.086374097046186 d 4 ltac:(lra)) as L4.
  pose proof (pow_incr 0.086374097046186 d 7 ltac:(lra)) as L7.
  pose proof (pow_incr d 0.086374097046189 2 ltac:(lra)) as U2.
  pose proof (pow_incr d 0.086374097046189 5 ltac:(lra)) as U5.
  pose proof (pow_incr d 0.086374097046189 6 ltac:(lra)) as U6.
  pose proof (pow_incr d 0.086374097046189 9 ltac:(lra)) as U9.
  set (s_hi := 0.086374097046189 - 0.086374097046186 ^ 3 / 6
               + 0.086374097046189 ^ 5 / 120
               - 0.086374097046186 ^ 7 / 5040
               + 0.086374097046189 ^ 9 / 362880).
  set (c_lo := 1 - 0.086374097046189 ^ 2 / 2
               + 0.086374097046186 ^ 4 / 24
               - 0.086374097046189 ^ 6 / 720).
  assert (Hs : sin d <= s_hi) by (unfold s_hi; lra).
  assert (Hc : c_lo <= cos d) by (unfold c_lo; lra).
  assert (Hnum : 11.5487393572581 * s_hi < c_lo)
    by (unfold s_hi, c_lo; lra).
  assert (Hprod : sinh PI * sin d <= 11.5487393572581 * s_hi).
  { apply Rmult_le_compat; lra. }
  apply (Rmult_lt_reg_r (sin d)); [exact Hsin0|].
  unfold Rdiv. rewrite Rmult_assoc, Rinv_l by lra. lra.
Qed.

Lemma mercator_limit_lt : Spec.mercator_limit < 85.05112878.
Proof.
  pose proof PI_bounds as [Hlo Hhi].
  unfold Spec.mercator_limit, Tile.degrees.
  assert (Hrange : - (PI / 2) < Tile.radians 85.05112878 < PI / 2)
    by (unfold Tile.radians; lra).
  pose proof (atan_increasing _ _ sinh_PI_lt_tan_clamp) as Hatan.
  rewrite (atan_tan _ Hrange) in Hatan. unfold Tile.radians in Hatan.
  apply (Rmult_lt_reg_r (PI / 180)); [lra|].
  replace (atan (sinh PI) * (180 / PI) * (PI / 180)) with (atan (sinh PI))
    by (field; lra).
  exact Hatan.
Qed.


End Numerics.

(** ** Round trip between a point and its tile *)

Section RoundTrip.

Local Open Scope R_scope.

Lemma sinh_opp (x : R) : sinh (- x) = - sinh x.
Proof. unfold sinh. rewrite Ropp_involutive. lra. Qed.






Lemma int_pow2 (zoom : Z) : (0 <= zoom)%Z -> Py.int (Tile.pow2 zoom) = (2 ^ zoom)%Z.
Proof.
  intros Hz. rewrite pow2_IZR by exact Hz.
  apply int_eq; [apply Z.pow_nonneg; lia | lra].
Qed.





End RoundTrip.

(** * C6 *)

Section RoundTripClaim.

Local Open Scope R_scope.



(** C6, counterexample. The latitude 85.05112878, the upper end of the
    range, is put in row 0 at zoom 15, and the northern edge of that row
    is the Mercator limit, which lies below 85.05112878: the bounds of the
    tile do not contain the point. *)
Lemma clamp_latitude_above_tile :
  let t := Tile.latlng_to_tile 85.05112878 0 15 in
  t.2 = 0%Z
  /\ (Tile.north (Tile.tile_to_latlng t.1 t.2 15) < 85.05112878)%R
  /\ ~ (85.05112878 <= Tile.north (Tile.tile_to_latlng t.1 t.2 15))%R.
Proof.
  cbv zeta.
  assert (Hrow : (Tile.latlng_to_tile 85.05112878 0 15).2 = 0%Z).
  { unfold Tile.latlng_to_tile, Tile.latlng_to_tile_float.
    rewrite clamp_id by lra. rewrite (int_pow2 15) by lia. cbn [snd].
    pose proof sinh_PI_lt_tan_clamp as Htan.
    apply arcsinh_lt in Htan. rewrite arcsinh_sinh in Htan.
    pose proof PI_RGT_0 as Hpi. pose proof (pow2_pos 15) as Hn.
    set (a := arcsinh (tan (Tile.radians 85.05112878))) in *.
    assert (Hq : 1 < a / PI).
    { apply (Rmult_lt_reg_r PI); [lra|].
      replace (a / PI * PI) with a by (field; lra). lra. }
    pose proof (int_nonpos ((1 - a / PI) / 2 * Tile.pow2 15)
                  ltac:(nra)) as Hint.
    assert ((0 <= 2 ^ 15 - 1)%Z) by lia. lia. }
  rewrite Hrow.
  assert (Hnorth : Tile.north
                     (Tile.tile_to_latlng
                        (Tile.latlng_to_tile 85.05112878 0 15).1 0 15)
                   = Spec.mercator_limit).
  { unfold Tile.tile_to_latlng, Spec.mercator_limit. cbn [Tile.north].
    do 3 f_equal. pose proof (pow2_pos 15).
    change (IZR (2 * 0)) with 0%R. unfold Rdiv. rewrite Rmult_0_l. lra. }
  rewrite Hnorth. pose proof mercator_limit_lt.
  split; [reflexivity|]. split; lra.
Qed.

End RoundTripClaim.

(** ** The column of a longitude on binary64 *)

(** * Further properties of the tile mathematics *)

Section TileGrid.

Local Open Scope R_scope.

Lemma pow2_negative (zoom : Z) : (zoom < 0)%Z -> 0 < Tile.pow2 zoom < 1.
Proof.
  intros Hz. split; [apply pow2_pos|].
  unfold Tile.pow2. destruct zoom as [|p|p]; try lia.
  cbn [powerRZ].
  assert (H : 1 < 2 ^ Pos.to_nat p).
  { apply Rlt_pow_R1; [lra|]. lia. }
  rewrite <- Rinv_1. apply Rinv_lt_contravar; lra.
Qed.

(** [int(2.0 ** zoom)], for every zoom. *)
Lemma int_pow2_any (zoom : Z) :
  Py.int (Tile.pow2 zoom) = Z.max 0 (2 ^ zoom)%Z
  /\ (zoom < 0 -> Py.int (Tile.pow2 zoom) = 0)%Z.
Proof.
  destruct (Z.le_gt_cases 0 zoom) as [Hz|Hz].
  - rewrite int_pow2 by exact Hz. split; [|lia].
    pose proof (Z.pow_pos_nonneg 2 zoom ltac:(lia) Hz). lia.
  - destruct (pow2_negative zoom Hz) as [H0 H1].
    assert (Hint : Py.int (Tile.pow2 zoom) = 0%Z)
      by (apply int_eq; [lia | lra]).
    rewrite Hint. split; [|reflexivity].
    rewrite Z.pow_neg_r by lia. reflexivity.
Qed.

(** The tile index at a zoom level from 0 up. *)
Lemma tile_index_range (lat lng : R) (zoom : Z) :
  (0 <= zoom)%Z ->
  let t := Tile.latlng_to_tile lat lng zoom in
  (0 <= t.1 < 2 ^ zoom)%Z /\ (0 <= t.2 < 2 ^ zoom)%Z.
Proof.
  intros Hz. cbv zeta. unfold Tile.latlng_to_tile.
  destruct (Tile.latlng_to_tile_float lat lng zoom) as [x y].
  rewrite (int_pow2 zoom Hz). cbn [fst snd].
  pose proof (Z.pow_pos_nonneg 2 zoom ltac:(lia) Hz). lia.
Qed.

End TileGrid.

(** X1. Whatever the latitude, the longitude and the zoom, the tile index
    returned by [latlng_to_tile] is a valid index of the pyramid level:
    both coordinates lie between 0 and [2 ^ zoom - 1] (and are 0 when the
    zoom is negative). *)
Theorem latlng_to_tile_in_range (lat lng : R) (zoom : Z) :
  let t := Tile.latlng_to_tile lat lng zoom in
  (0 <= t.1 <= Z.max 0 (2 ^ zoom - 1))%Z
  /\ (0 <= t.2 <= Z.max 0 (2 ^ zoom - 1))%Z
  /\ ((zoom < 0)%Z -> t = (0, 0)%Z).
Proof.
  cbv zeta. unfold Tile.latlng_to_tile.
  destruct (Tile.latlng_to_tile_float lat lng zoom) as [x y].
  destruct (int_pow2_any zoom) as [Hint Hneg].
  split; [rewrite Hint; cbn [fst]; lia|].
  split; [rewrite Hint; cbn [snd]; lia|].
  intros Hz. rewrite (Hneg Hz). f_equal; lia.
Qed.

(** ** The grid of a bounding box *)

Lemma range_NoDup (a b : Z) : NoDup (Py.range a b).
Proof.
  unfold Py.range. apply NoDup_fmap_2.
  - intros i j H. lia.
  - apply NoDup_seq.
Qed.

Lemma grid_NoDup (xs ys : list Z) :
  NoDup xs -> NoDup ys ->
  NoDup (flat_map (fun x => map (pair x) ys) xs).
Proof.
  intros Hxs Hys. induction Hxs as [|x xs Hx _ IH]; cbn.
  - constructor.
  - apply NoDup_app. split; [|split].
    + apply NoDup_fmap_2; [|exact Hys]. intros y y' [= ->]. reflexivity.
    + intros [x' y'] Hin Hin'.
      apply list_elem_of_In, in_map_iff in Hin.
      destruct Hin as (y & [= <- <-] & _).
      apply list_elem_of_In, in_flat_map in Hin'.
      destruct Hin' as (x'' & Hx'' & Hin').
      apply in_map_iff in Hin'. destruct Hin' as (y'' & [= -> _] & _).
      apply Hx. now apply list_elem_of_In.
    + exact IH.
Qed.

Lemma grid_length {A : Type} (f : Z -> Z -> A) (xs ys : list Z) :
  length (flat_map (fun x => map (f x) ys) xs)
  = (length xs * length ys)%nat.
Proof.
  induction xs as [|x xs IH]; cbn; [reflexivity|].
  rewrite length_app, length_map, IH. reflexivity.
Qed.

Lemma grid_keys (xs ys : list Z) (zoom : Z) :
  map key
    (flat_map (fun x => map (fun y => {| Tile.x := x; Tile.y := y;
                                         Tile.z := zoom |}) ys) xs)
  = flat_map (fun x => map (pair x) ys) xs.
Proof.
  induction xs as [|x xs IH]; cbn; [reflexivity|].
  rewrite map_app, IH, map_map. reflexivity.
Qed.

Lemma get_tiles_in_bounds_keys (north south east west : R) (zoom : Z) :
  NoDup (map key (Tile.get_tiles_in_bounds north south east west zoom)).
Proof.
  unfold Tile.get_tiles_in_bounds.
  destruct (Tile.latlng_to_tile north west zoom) as [x_min y_min].
  destruct (Tile.latlng_to_tile south east zoom) as [x_max y_max].
  rewrite grid_keys. apply grid_NoDup; apply range_NoDup.
Qed.

(** X2. The list built by [get_tiles_in_bounds] holds every cell of the
    tile matrix of the box exactly once: its tiles all carry the requested
    zoom, a tile is listed exactly when its column lies in
    [x_min..x_max] and its row in [y_min..y_max] of
    [get_tile_matrix_size], and no two listed tiles share their
    [(x, y)]. *)
Theorem get_tiles_in_bounds_each_cell_once
    (north south east west : R) (zoom : Z) :
  let tiles := Tile.get_tiles_in_bounds north south east west zoom in
  let '(x_min, y_min, x_max, y_max, _, _) :=
    Tile.get_tile_matrix_size north south east west zoom in
  NoDup (map key tiles)
  /\ NoDup tiles
  /\ forall t,
       In t tiles <->
       (x_min <= Tile.x t <= x_max)%Z /\ (y_min <= Tile.y t <= y_max)%Z
       /\ Tile.z t = zoom.
Proof.
  cbv zeta.
  pose proof (get_tiles_in_bounds_keys north south east west zoom) as Hkeys.
  pose proof (get_tiles_in_bounds_grid north south east west zoom) as Hgrid.
  destruct (Tile.get_tile_matrix_size north south east west zoom)
    as [[[[[x_min y_min] x_max] y_max] cols] rows].
  split; [exact Hkeys|]. split; [|exact Hgrid].
  eapply NoDup_fmap_1. exact Hkeys.
Qed.

(** X3. For a box with [south <= north] and [west <= east], the number
    that [estimate_tile_count] announces is exactly the number of tiles
    that [get_tiles_in_bounds] lists, it is [cols * rows] of
    [get_tile_matrix_size], and it is at least 1. *)
Theorem estimate_tile_count_exact (north south east west : R) (zoom : Z) :
  (south <= north)%R -> (west <= east)%R ->
  let count := Tile.estimate_tile_count north south east west zoom in
  let '(_, _, _, _, cols, rows) :=
    Tile.get_tile_matrix_size north south east west zoom in
  Z.of_nat (length (Tile.get_tiles_in_bounds north south east west zoom))
  = count
  /\ count = (cols * rows)%Z
  /\ (1 <= cols)%Z /\ (1 <= rows)%Z /\ (1 <= count)%Z.
Proof.
  intros Hlat Hlng. cbv zeta.
  pose proof (latlng_to_tile_x_le north south west east zoom Hlng) as Hx.
  pose proof (latlng_to_tile_y_le south north west east zoom Hlat) as Hy.
  unfold Tile.estimate_tile_count, Tile.get_tile_matrix_size,
    Tile.get_tiles_in_bounds.
  destruct (Tile.latlng_to_tile north west zoom) as [x_min y_min].
  destruct (Tile.latlng_to_tile south east zoom) as [x_max y_max].
  cbn [fst snd] in Hx, Hy.
  rewrite grid_length, !range_length.
  split; [|split; [reflexivity|]]; nia.
Qed.

Lemma estimate_tile_count_exact_witness :
  ((0 <= 1)%R /\ (0 <= 1)%R)
  /\ let count := Tile.estimate_tile_count 1 0 1 0 3 in
     let '(_, _, _, _, cols, rows) :=
       Tile.get_tile_matrix_size 1 0 1 0 3 in
     Z.of_nat (length (Tile.get_tiles_in_bounds 1 0 1 0 3)) = count
     /\ count = (cols * rows)%Z
     /\ (1 <= cols)%Z /\ (1 <= rows)%Z /\ (1 <= count)%Z.
Proof.
  split; [split; lra|].
  apply (estimate_tile_count_exact 1 0 1 0 3); lra.
Defined.

(** ** The bounds of tiles *)

Section TileBoundsFacts.

Local Open Scope R_scope.

Lemma degrees_lt (a b : R) : a < b -> Tile.degrees a < Tile.degrees b.
Proof.
  intros H. unfold Tile.degrees. pose proof PI_RGT_0 as Hpi.
  apply Rmult_lt_compat_r; [|exact H].
  apply Rdiv_lt_0_compat; lra.
Qed.

Lemma degrees_opp (a : R) : Tile.degrees (- a) = - Tile.degrees a.
Proof. unfold Tile.degrees. ring. Qed.

(** The latitude of the parallel at [k] half-rows from the top. *)
Lemma parallel_lt (j k : Z) (zoom : Z) :
  (j < k)%Z ->
  Tile.degrees (atan (sinh (PI * (1 - IZR k / Tile.pow2 zoom))))
  < Tile.degrees (atan (sinh (PI * (1 - IZR j / Tile.pow2 zoom)))).
Proof.
  intros Hjk. pose proof (pow2_pos zoom) as Hn. pose proof PI_RGT_0 as Hpi.
  apply degrees_lt, atan_increasing, sinh_lt.
  apply Rmult_lt_compat_l; [exact Hpi|].
  assert (IZR j / Tile.pow2 zoom < IZR k / Tile.pow2 zoom); [|lra].
  unfold Rdiv. apply Rmult_lt_compat_r.
  - now apply Rinv_0_lt_compat.
  - now apply IZR_lt.
Qed.

Lemma meridian_lt (i k : Z) (zoom : Z) :
  (i < k)%Z ->
  IZR i / Tile.pow2 zoom * 360 - 180 < IZR k / Tile.pow2 zoom * 360 - 180.
Proof.
  intros Hik. pose proof (pow2_pos zoom) as Hn.
  assert (IZR i / Tile.pow2 zoom < IZR k / Tile.pow2 zoom); [|lra].
  unfold Rdiv. apply Rmult_lt_compat_r.
  - now apply Rinv_0_lt_compat.
  - now apply IZR_lt.
Qed.

End TileBoundsFacts.

Section TileBoundsClaims.

Local Open Scope R_scope.

(** X4. The tiles of a zoom level tessellate: for every tile,
    [tile_to_latlng] gives bounds with [west < east] and [south < north],
    every tile is [360 / 2 ^ zoom] degrees wide, the east edge of a tile is
    the west edge of its right-hand neighbour, and its south edge is the
    north edge of the tile below. *)
Theorem tile_to_latlng_tessellates (x y zoom : Z) :
  let b := Tile.tile_to_latlng x y zoom in
  Tile.west b < Tile.east b
  /\ Tile.south b < Tile.north b
  /\ Tile.east b - Tile.west b = 360 / Tile.pow2 zoom
  /\ Tile.east b = Tile.west (Tile.tile_to_latlng (x + 1) y zoom)
  /\ Tile.south b = Tile.north (Tile.tile_to_latlng x (y + 1) zoom).
Proof.
  cbv zeta. unfold Tile.tile_to_latlng.
  cbn [Tile.north Tile.south Tile.east Tile.west].
  pose proof (pow2_pos zoom) as Hn.
  split; [apply meridian_lt; lia|].
  split; [apply parallel_lt; lia|].
  split; [rewrite plus_IZR; field; lra|].
  split; reflexivity.
Qed.

(** X5. At every zoom level from 0 up, the merged bounds of the whole
    level, from tile (0, 0) to tile [(2 ^ zoom - 1, 2 ^ zoom - 1)], are the
    Web Mercator square: longitudes from -180 to 180 and latitudes from
    minus to plus [degrees (atan (sinh PI))]. *)
Theorem get_merged_bounds_whole_level (zoom : Z) :
  (0 <= zoom)%Z ->
  Tile.get_merged_bounds 0 0 (2 ^ zoom - 1) (2 ^ zoom - 1) zoom
  = {| Tile.north := Spec.mercator_limit;
       Tile.south := - Spec.mercator_limit;
       Tile.east := 180;
       Tile.west := -180 |}.
Proof.
  intros Hz. unfold Tile.get_merged_bounds, Tile.tile_to_latlng.
  cbn [Tile.north Tile.south Tile.east Tile.west].
  pose proof (pow2_pos zoom) as Hn.
  rewrite (pow2_IZR zoom Hz) in *.
  set (N := (2 ^ zoom)%Z) in *.
  assert (HN : IZR N <> 0) by lra.
  unfold Spec.mercator_limit. f_equal.
  - do 3 f_equal. change (IZR (2 * 0)) with 0. field. exact HN.
  - rewrite <- degrees_opp, <- atan_opp, <- sinh_opp. do 3 f_equal.
    replace (2 * (N - 1 + 1))%Z with (2 * N)%Z by lia.
    rewrite mult_IZR. field. exact HN.
  - replace (N - 1 + 1)%Z with N by lia. field. exact HN.
  - field. exact HN.
Qed.

Lemma get_merged_bounds_whole_level_witness :
  (0 <= 3)%Z
  /\ Tile.get_merged_bounds 0 0 (2 ^ 3 - 1) (2 ^ 3 - 1) 3
     = {| Tile.north := Spec.mercator_limit;
          Tile.south := - Spec.mercator_limit;
          Tile.east := 180;
          Tile.west := -180 |}.
Proof.
  split; [lia|]. apply (get_merged_bounds_whole_level 3). lia.
Defined.

(** X7. For a tile matrix with [x_min <= x_max] and [y_min <= y_max],
    the merged bounds are a proper box ([west < east], [south < north])
    that is exactly [cols] tile widths wide,
    [east - west = cols * 360 / 2 ^ zoom]. *)
Theorem get_merged_bounds_span (x_min y_min x_max y_max zoom : Z) :
  (x_min <= x_max)%Z -> (y_min <= y_max)%Z ->
  let b := Tile.get_merged_bounds x_min y_min x_max y_max zoom in
  Tile.west b < Tile.east b
  /\ Tile.south b < Tile.north b
  /\ Tile.east b - Tile.west b
     = IZR (x_max - x_min + 1) * (360 / Tile.pow2 zoom).
Proof.
  intros Hx Hy. cbv zeta. unfold Tile.get_merged_bounds, Tile.tile_to_latlng.
  cbn [Tile.north Tile.south Tile.east Tile.west].
  pose proof (pow2_pos zoom) as Hn.
  split; [apply meridian_lt; lia|].
  split; [apply parallel_lt; lia|].
  rewrite !plus_IZR, minus_IZR. field. lra.
Qed.

Lemma get_merged_bounds_span_witness :
  ((2 <= 3)%Z /\ (1 <= 1)%Z)
  /\ let b := Tile.get_merged_bounds 2 1 3 1 2 in
     Tile.west b < Tile.east b
     /\ Tile.south b < Tile.north b
     /\ Tile.east b - Tile.west b = IZR (3 - 2 + 1) * (360 / Tile.pow2 2).
Proof.
  split; [split; lia|]. apply (get_merged_bounds_span 2 1 3 1 2); lia.
Defined.

(** X8. The ground resolution halves with every zoom level:
    [meters_per_pixel lat (zoom + 1)] is half of
    [meters_per_pixel lat zoom]. It is the same north and south of the
    equator, and for latitudes between -90 and 90 it is never negative and
    never above its value on the equator. *)
Theorem meters_per_pixel_halves (lat : R) (zoom : Z) :
  Tile.meters_per_pixel lat (zoom + 1) = Tile.meters_per_pixel lat zoom / 2
  /\ Tile.meters_per_pixel (- lat) zoom = Tile.meters_per_pixel lat zoom
  /\ (-90 <= lat <= 90 ->
      0 <= Tile.meters_per_pixel lat zoom <= Tile.meters_per_pixel 0 zoom).
Proof.
  unfold Tile.meters_per_pixel, Config.TILE_SIZE.
  pose proof (pow2_pos zoom) as Hn. pose proof PI_RGT_0 as Hpi.
  assert (Hnext : Tile.pow2 (zoom + 1) = Tile.pow2 zoom * 2).
  { unfold Tile.pow2. rewrite powerRZ_add by lra. now rewrite powerRZ_1. }
  split; [rewrite Hnext; field; lra|].
  split.
  { unfold Tile.radians.
    replace (- lat * (PI / 180)) with (- (lat * (PI / 180))) by ring.
    now rewrite cos_neg. }
  intros Hlat.
  assert (Hcos : 0 <= cos (Tile.radians lat) <= 1).
  { split; [|apply COS_bound].
    apply cos_ge_0; unfold Tile.radians; nra. }
  assert (H0 : cos (Tile.radians 0) = 1).
  { unfold Tile.radians. rewrite Rmult_0_l. apply cos_0. }
  rewrite H0.
  assert (Hd : 0 < / (256 * Tile.pow2 zoom)).
  { apply Rinv_0_lt_compat. nra. }
  unfold Rdiv. split.
  - apply Rmult_le_pos; [nra | lra].
  - apply Rmult_le_compat_r; [lra | nra].
Qed.

End TileBoundsClaims.

(** ** Tile counts and the zoom search *)

Lemma get_optimal_zoom_loop_In (count : Z -> Z) (max_tiles : Z)
    (zooms : list Z) :
  In (Tile.get_optimal_zoom_loop count max_tiles zooms) zooms
  \/ Tile.get_optimal_zoom_loop count max_tiles zooms = 1%Z.
Proof.
  induction zooms as [|zoom rest IH]; cbn; [now right|].
  destruct (count zoom <=? max_tiles)%Z; [left; now left|].
  destruct IH as [IH|IH]; [left; now right | now right].
Qed.

Lemma get_optimal_zoom_loop_mono (count : Z -> Z) (m m' : Z)
    (zooms : list Z) :
  (m <= m')%Z ->
  StronglySorted (fun a b => (b < a)%Z) zooms ->
  Forall (fun zoom => (1 <= zoom)%Z) zooms ->
  (Tile.get_optimal_zoom_loop count m zooms
   <= Tile.get_optimal_zoom_loop count m' zooms)%Z.
Proof.
  intros Hm Hsorted Hpos.
  induction zooms as [|zoom rest IH]; cbn; [lia|].
  apply StronglySorted_inv in Hsorted. destruct Hsorted as [Hrest Hlt].
  apply Forall_cons in Hpos. destruct Hpos as [Hz Hpos].
  destruct (Z.leb_spec (count zoom) m) as [Hfit|Hno].
  - destruct (Z.leb_spec (count zoom) m'); lia.
  - destruct (Z.leb_spec (count zoom) m') as [Hfit'|Hno'].
    + destruct (get_optimal_zoom_loop_In count m rest) as [Hin| ->].
      * rewrite List.Forall_forall in Hlt. specialize (Hlt _ Hin). lia.
      * exact Hz.
    + now apply IH.
Qed.

(** X9. Raising the tile budget never lowers the zoom that
    [get_optimal_zoom] picks: for [max_tiles <= max_tiles'] the zoom
    chosen under [max_tiles] is at most the one chosen under
    [max_tiles']. *)
Theorem get_optimal_zoom_monotone (north south east west : R)
    (max_tiles max_tiles' : Z) :
  (max_tiles <= max_tiles')%Z ->
  (Tile.get_optimal_zoom north south east west max_tiles
   <= Tile.get_optimal_zoom north south east west max_tiles')%Z.
Proof.
  intros Hm. unfold Tile.get_optimal_zoom.
  apply get_optimal_zoom_loop_mono.
  - exact Hm.
  - exact range_down_20_sorted.
  - apply List.Forall_forall. intros zoom Hin.
    apply range_down_In in Hin. lia.
Qed.

Lemma get_optimal_zoom_monotone_witness :
  (1000 <= 2000)%Z
  /\ (Tile.get_optimal_zoom 1 0 1 0 1000
      <= Tile.get_optimal_zoom 1 0 1 0 2000)%Z.
Proof.
  split; [lia|]. apply (get_optimal_zoom_monotone 1 0 1 0 1000 2000). lia.
Defined.

(** A matrix of tiles of a level has at most as many cells as the level. *)
Lemma grid_count_le (N x_min y_min x_max y_max : Z) :
  (0 <= x_min < N)%Z -> (0 <= x_max < N)%Z ->
  (0 <= y_min < N)%Z -> (0 <= y_max < N)%Z ->
  ((x_max - x_min + 1) * (y_max - y_min + 1) <= N * N)%Z.
Proof. intros Hx Hx' Hy Hy'. nia. Qed.

Lemma estimate_tile_count_small_zoom (north south east west : R)
    (zoom : Z) :
  (0 <= zoom <= 9)%Z ->
  (Tile.estimate_tile_count north south east west zoom <= Api.max_tiles)%Z.
Proof.
  intros Hz.
  pose proof (tile_index_range north west zoom ltac:(lia)) as Hnw.
  pose proof (tile_index_range south east zoom ltac:(lia)) as Hse.
  unfold Tile.estimate_tile_count.
  destruct (Tile.latlng_to_tile north west zoom) as [x_min y_min].
  destruct (Tile.latlng_to_tile south east zoom) as [x_max y_max].
  cbv zeta in Hnw, Hse. cbn [fst snd] in Hnw, Hse.
  pose proof (grid_count_le (2 ^ zoom) x_min y_min x_max y_max
                ltac:(lia) ltac:(lia) ltac:(lia) ltac:(lia)) as Hle.
  assert (H9 : (2 ^ zoom <= 2 ^ 9)%Z) by (apply Z.pow_le_mono_r; lia).
  change (2 ^ 9)%Z with 512%Z in H9. unfold Api.max_tiles. nia.
Qed.

(** X10. At a zoom level from 0 up, [estimate_tile_count] never announces
    more tiles than the level has: the count is at most [4 ^ zoom],
    whatever the box. Up to zoom 9 that is below the ceiling of one
    million tiles of the endpoints, which therefore never refuse a
    request of zoom 9 or less for its size. *)
Theorem estimate_tile_count_le_level (north south east west : R) (zoom : Z) :
  (0 <= zoom)%Z ->
  (Tile.estimate_tile_count north south east west zoom <= 4 ^ zoom)%Z
  /\ (zoom <= 9 ->
      Tile.estimate_tile_count north south east west zoom
      <= Api.max_tiles)%Z.
Proof.
  intros Hz. split.
  - pose proof (tile_index_range north west zoom Hz) as Hnw.
    pose proof (tile_index_range south east zoom Hz) as Hse.
    unfold Tile.estimate_tile_count.
    destruct (Tile.latlng_to_tile north west zoom) as [x_min y_min].
    destruct (Tile.latlng_to_tile south east zoom) as [x_max y_max].
    cbv zeta in Hnw, Hse. cbn [fst snd] in Hnw, Hse.
    replace (4 ^ zoom)%Z with (2 ^ zoom * 2 ^ zoom)%Z
      by (change 4%Z with (2 * 2)%Z; symmetry; apply Z.pow_mul_l).
    apply grid_count_le; lia.
  - intros Hz9. apply estimate_tile_count_small_zoom. lia.
Qed.

Lemma estimate_tile_count_le_level_witness :
  (0 <= 3)%Z
  /\ (Tile.estimate_tile_count 1 0 1 0 3 <= 4 ^ 3)%Z
  /\ (3 <= 9 -> Tile.estimate_tile_count 1 0 1 0 3 <= Api.max_tiles)%Z.
Proof.
  split; [lia|]. apply (estimate_tile_count_le_level 1 0 1 0 3). lia.
Defined.

(** * Further properties of the downloader *)

(** X11. [TileDownloader.__init__] raises [ValueError] exactly for a
    source that is not a key of [TILE_SOURCES]. Otherwise it keeps the
    source, its configuration and the proxy, and because every numeric
    argument goes through [arg or default], the downloader it builds never
    has a zero [max_concurrent], [retry_times], [timeout] or [delay]: each
    of the four is the configured default (10, 3, 30 and 0.1) when its
    argument is missing or zero, and the argument itself otherwise. *)
Theorem init_never_zero (source0 : string)
    (max_concurrent0 retry_times0 timeout0 : option Z) (delay0 : option Q)
    (proxy0 : option string) :
  match __init__ source0 max_concurrent0 retry_times0 timeout0 delay0
          proxy0 with
  | inl e =>
      Config.TILE_SOURCES !! source0 = None
      /\ exists msg, e = Py.ValueError msg
  | inr self =>
      Config.TILE_SOURCES !! source0 = Some (source_config self)
      /\ source self = source0 /\ proxy self = proxy0
      /\ max_concurrent self <> 0%Z /\ retry_times self <> 0%Z
      /\ timeout self <> 0%Z /\ ~ (delay self == 0)%Q
      /\ max_concurrent self
         = match max_concurrent0 with
           | Some v => if decide (v = 0%Z) then 10%Z else v
           | None => 10%Z
           end
      /\ retry_times self
         = match retry_times0 with
           | Some v => if decide (v = 0%Z) then 3%Z else v
           | None => 3%Z
           end
      /\ timeout self
         = match timeout0 with
           | Some v => if decide (v = 0%Z) then 30%Z else v
           | None => 30%Z
           end
      /\ delay self
         = match delay0 with
           | Some v => if Qeq_bool v 0 then 1 # 10 else v
           | None => 1 # 10
           end
  end.
Proof.
  unfold __init__.
  destruct (Config.TILE_SOURCES !! source0) as [cfg|] eqn:Hcfg.
  - cbn [source source_config proxy max_concurrent retry_times timeout
         delay].
    assert (HZ : forall arg d, d <> 0%Z ->
              or_Z arg d <> 0%Z
              /\ or_Z arg d = match arg with
                              | Some v => if decide (v = 0%Z) then d else v
                              | None => d
                              end).
    { intros [v|] d Hd; cbn; [|auto].
      destruct (Z.eqb_spec v 0), (decide (v = 0%Z)); try lia; auto. }
    destruct (HZ max_concurrent0 Config.max_concurrent ltac:(discriminate))
      as [Hm1 Hm2].
    destruct (HZ retry_times0 Config.retry_times ltac:(discriminate))
      as [Hr1 Hr2].
    destruct (HZ timeout0 Config.timeout ltac:(discriminate)) as [Ht1 Ht2].
    repeat split; try assumption.
    destruct delay0 as [v|]; cbn; [|discriminate].
    destruct (Qeq_bool v 0) eqn:E; [discriminate|].
    intros Heq. apply Qeq_bool_iff in Heq. congruence.
  - split; [reflexivity | eauto].
Qed.

(** ** The result of a fetch task *)

Lemma loop_result_first (self : TileDownloader) (tile0 : Tile.TileCoord)
    (net : Z -> Outcome) (k : Z) (img : PIL.Image) (after : list Z) :
  net k = Response 200 (inr img) ->
  forall (before : list Z) (last_error : option string),
  (forall j, In j before -> delivers (net j) = false) ->
  (_download_tile_loop self tile0 net (before ++ k :: after) last_error).1
  = {| tile := tile0; success := true; image := Some (as_rgb img);
       error := None |}.
Proof.
  intros Hk. induction before as [|a before IH]; intros last_error Hfail.
  - cbn [app _download_tile_loop]. rewrite Hk. cbn. reflexivity.
  - cbn [app].
    destruct (loop_cons_fails self tile0 net a (before ++ k :: after)
                last_error (Hfail a (or_introl eq_refl))) as (msg & ->).
    cbv zeta. cbn [fst]. apply IH. intros j Hj. apply Hfail. now right.
Qed.

Lemma loop_cons_failure_text (self : TileDownloader)
    (tile0 : Tile.TileCoord) (net : Z -> Outcome) (a : Z) (rest : list Z)
    (last_error : option string) :
  delivers (net a) = false ->
  (_download_tile_loop self tile0 net (a :: rest) last_error).1
  = (_download_tile_loop self tile0 net rest
       (Some (failure_text (net a)))).1.
Proof.
  intros Hd. cbn [_download_tile_loop]. unfold failure_text.
  destruct (net a) as [status [msg|image]| | |]; cbn in Hd.
  - destruct (status =? 200)%Z;
      destruct (_download_tile_loop self tile0 net rest _); reflexivity.
  - rewrite Hd.
    destruct (_download_tile_loop self tile0 net rest _); reflexivity.
  - destruct (_download_tile_loop self tile0 net rest _); reflexivity.
  - destruct (_download_tile_loop self tile0 net rest _); reflexivity.
  - destruct (_download_tile_loop self tile0 net rest _); reflexivity.
Qed.

Lemma loop_result_exhausted (self : TileDownloader)
    (tile0 : Tile.TileCoord) (net : Z -> Outcome) (attempts : list Z) :
  forall last_error : option string,
  (forall j, In j attempts -> delivers (net j) = false) ->
  (_download_tile_loop self tile0 net attempts last_error).1
  = {| tile := tile0; success := false; image := None;
       error := match last attempts with
                | Some k => Some (failure_text (net k))
                | None => last_error
                end |}.
Proof.
  induction attempts as [|a rest IH]; intros last_error Hfail.
  - reflexivity.
  - rewrite loop_cons_failure_text by (apply Hfail; now left).
    rewrite IH by (intros j Hj; apply Hfail; now right).
    f_equal. destruct rest as [|b rest]; [reflexivity|].
    change (last (a :: b :: rest)) with (last (b :: rest)).
    destruct (last (b :: rest)) eqn:E; [reflexivity|].
    apply last_None in E. discriminate.
Qed.

(** A fetch task carries an image exactly when it succeeds, and the image
    is in RGB mode. *)
Lemma loop_result_image (self : TileDownloader) (tile0 : Tile.TileCoord)
    (net : Z -> Outcome) (attempts : list Z) :
  forall last_error : option string,
  let r := (_download_tile_loop self tile0 net attempts last_error).1 in
  (success r = false -> image r = None)
  /\ forall img, image r = Some img -> PIL.mode img = PIL.RGB.
Proof.
  induction attempts as [|a rest IH]; intros last_error.
  - cbn. split; [reflexivity | discriminate].
  - destruct (delivers (net a)) eqn:Hd.
    + cbn [_download_tile_loop].
      destruct (net a) as [status [msg|img0]| | |]; cbn in Hd;
        try discriminate.
      rewrite Hd. cbn. split; [discriminate|].
      intros img [= <-].
      destruct (PIL.Mode_eqb (PIL.mode img0) PIL.RGB) eqn:E; [|reflexivity].
      destruct (PIL.mode img0); try discriminate. reflexivity.
    + rewrite loop_cons_failure_text by exact Hd. apply IH.
Qed.

Lemma range_last (a b : Z) :
  (a < b)%Z -> last (Py.range a b) = Some (b - 1)%Z.
Proof.
  intros H. replace b with (b - 1 + 1)%Z at 1 by lia.
  rewrite range_snoc by lia. apply last_snoc.
Qed.

Lemma map_seq_from {A : Type} (f : nat -> A) (n : nat) :
  forall s : nat,
  map f (seq s n) = map (fun i => f (s + i)%nat) (seq 0 n).
Proof.
  induction n as [|n IH]; intros s; cbn [seq map]; [reflexivity|].
  f_equal; [f_equal; lia|].
  rewrite (IH (S s)), <- seq_shift, map_map. apply map_ext.
  intros i. f_equal. lia.
Qed.

Lemma range_split (a k b : Z) :
  (a <= k < b)%Z ->
  Py.range a b = Py.range a k ++ k :: Py.range (k + 1) b.
Proof.
  intros H. rewrite <- range_cons by lia. unfold Py.range.
  replace (Z.to_nat (b - a))
    with (Z.to_nat (k - a) + Z.to_nat (b - k))%nat by lia.
  rewrite seq_app, map_app. f_equal. cbn [Nat.add].
  rewrite map_seq_from. apply map_ext. intros i. lia.
Qed.

(** X12. A fetch task returns the image of the first attempt that
    delivers: when the attempts before attempt [k] (with
    [0 <= k <= retry_times]) all fail and attempt [k] answers 200 with a
    body that decodes, the result is a success for the tile, its image is
    that body's image (converted to RGB unless it is RGB already), its
    error is [None], and the task made exactly [k + 1] requests with the
    usual pauses in between. *)
Theorem download_tile_first_delivery (self : TileDownloader)
    (tile0 : Tile.TileCoord) (net : Z -> Outcome) (k : Z)
    (img : PIL.Image) :
  (0 <= k <= retry_times self)%Z ->
  (forall j, (0 <= j < k)%Z -> delivers (net j) = false) ->
  net k = Response 200 (inr img) ->
  let run := _download_tile self tile0 net in
  run.1 = {| tile := tile0; success := true; image := Some (as_rgb img);
             error := None |}
  /\ steps run.2 = schedule (Z.to_nat (k + 1)).
Proof.
  intros Hk Hfail Hnet run. subst run. unfold _download_tile.
  assert (Hres :
    (_download_tile_loop self tile0 net (Py.range 0 (retry_times self + 1))
       None).1
    = {| tile := tile0; success := true; image := Some (as_rgb img);
         error := None |}).
  { rewrite (range_split 0 k (retry_times self + 1)) by lia.
    apply loop_result_first; [exact Hnet|].
    intros j Hj. apply range_In in Hj. apply Hfail. lia. }
  split; [exact Hres|].
  pose proof (loop_schedule self tile0 net (Z.to_nat (retry_times self + 1))
                0%Z None ltac:(lia)) as H.
  cbv zeta in H.
  replace (0 + Z.of_nat (Z.to_nat (retry_times self + 1)))%Z
    with (retry_times self + 1)%Z in H by lia.
  destruct H as (n & Hle & _ & Hsteps & Hbefore & Hsucc & _).
  rewrite Hres in Hsucc. destruct (Hsucc eq_refl) as [Hn Hd].
  assert (Hdk : delivers (net k) = true) by (rewrite Hnet; reflexivity).
  assert (Hnk : Z.of_nat n = (k + 1)%Z).
  { destruct (Z.lt_trichotomy (Z.of_nat n - 1) k) as [Hlt|[Heq|Hgt]].
    - rewrite (Hfail (0 + Z.of_nat n - 1)%Z) in Hd by lia. discriminate.
    - lia.
    - rewrite (Hbefore k) in Hdk by lia. discriminate. }
  rewrite Hsteps. unfold schedule. f_equal. lia.
Qed.

Lemma download_tile_first_delivery_witness :
  ((0 <= 1 <= retry_times (Sample.downloader 1))%Z
   /\ (forall j, (0 <= j < 1)%Z ->
         delivers (Sample.garbled_then_fine j) = false)
   /\ Sample.garbled_then_fine 1 = Response 200 (inr Sample.black))
  /\ let run :=
       _download_tile (Sample.downloader 1) Sample.tile_1_1
         Sample.garbled_then_fine in
     run.1 = {| tile := Sample.tile_1_1; success := true;
                image := Some (as_rgb Sample.black); error := None |}
     /\ steps run.2 = schedule (Z.to_nat (1 + 1)).
Proof.
  assert (Hfail : forall j, (0 <= j < 1)%Z ->
            delivers (Sample.garbled_then_fine j) = false).
  { intros j Hj. replace j with 0%Z by lia. reflexivity. }
  split.
  - split; [cbn; lia|]. split; [exact Hfail | reflexivity].
  - apply (download_tile_first_delivery (Sample.downloader 1)
             Sample.tile_1_1 Sample.garbled_then_fine 1 Sample.black).
    + cbn. lia.
    + exact Hfail.
    + reflexivity.
Defined.

(** X13. When every attempt that a fetch task is allowed fails, the
    result is a failure for the tile without an image, and its error is
    the text of the last attempt, the one of index [retry_times]: the
    status of a non-200 response, "Timeout", or the exception's text. With
    a negative [retry_times] the task makes no request at all and fails
    with the error [None]. *)
Theorem download_tile_last_error (self : TileDownloader)
    (tile0 : Tile.TileCoord) (net : Z -> Outcome) :
  (forall k, (0 <= k <= retry_times self)%Z -> delivers (net k) = false) ->
  let run := _download_tile self tile0 net in
  run.1 = {| tile := tile0; success := false; image := None;
             error := if (0 <=? retry_times self)%Z
                      then Some (failure_text (net (retry_times self)))
                      else None |}
  /\ ((retry_times self < 0)%Z -> run.2 = []).
Proof.
  intros Hfail run. subst run. unfold _download_tile.
  rewrite loop_result_exhausted
    by (intros j Hj; apply range_In in Hj; apply Hfail; lia).
  destruct (Z.leb_spec 0 (retry_times self)) as [Hr|Hr].
  - rewrite range_last by lia.
    replace (retry_times self + 1 - 1)%Z with (retry_times self) by lia.
    split; [reflexivity | lia].
  - rewrite range_nil by lia. split; reflexivity.
Qed.

Lemma download_tile_last_error_witness :
  (forall k, (0 <= k <= retry_times (Sample.downloader 2))%Z ->
     delivers (Sample.always_404 k) = false)
  /\ let run :=
       _download_tile (Sample.downloader 2) Sample.tile_1_1
         Sample.always_404 in
     run.1 = {| tile := Sample.tile_1_1; success := false; image := None;
                error :=
                  if (0 <=? retry_times (Sample.downloader 2))%Z
                  then Some (failure_text
                               (Sample.always_404
                                  (retry_times (Sample.downloader 2))))
                  else None |}
     /\ ((retry_times (Sample.downloader 2) < 0)%Z -> run.2 = []).
Proof.
  split; [intros k _; reflexivity|].
  apply (download_tile_last_error (Sample.downloader 2) Sample.tile_1_1
           Sample.always_404).
  intros k _. reflexivity.
Defined.

(** ** The batch *)

Lemma download_tile_image (self : TileDownloader) (t : Tile.TileCoord)
    (net : Z -> Outcome) :
  let r := (_download_tile self t net).1 in
  (success r = false -> image r = None)
  /\ forall img, image r = Some img -> PIL.mode img = PIL.RGB.
Proof. apply (loop_result_image self t net). Qed.

(** The state in which the result loop of [download_tiles] starts. *)
Lemma download_tiles_unfold (self : TileDownloader)
    (tiles : list Tile.TileCoord) (cb : bool) (w : World) :
  let batch := download_tiles self tiles cb w in
  let st :=
    fold_left (handle_result cb) (results batch)
      {| tile_images := ∅;
         progress := {| total := Z.of_nat (length tiles); completed := 0;
                        failed := 0; status := "downloading" |};
         observed := []; printed := [] |} in
  (returned batch).1 = tile_images st
  /\ total (returned batch).2 = total (progress st)
  /\ completed (returned batch).2 = completed (progress st)
  /\ failed (returned batch).2 = failed (progress st)
  /\ status (returned batch).2
     = (if (failed (progress st) =? 0)%Z then "completed"
        else "completed_with_errors")
  /\ output batch = printed st.
Proof. cbv zeta. unfold download_tiles. cbn. repeat split. Qed.

(** X14. Every image in the mapping returned by [download_tiles] is in
    RGB mode, and its key is the [(x, y)] of a tile of the batch whose
    fetch task succeeded. *)
Theorem download_tiles_images_rgb (self : TileDownloader)
    (tiles : list Tile.TileCoord) (progress_callback : bool) (w : World)
    (k : Z * Z) (img : PIL.Image) :
  (returned (download_tiles self tiles progress_callback w)).1 !! k
  = Some img ->
  PIL.mode img = PIL.RGB
  /\ exists i t, tiles !! i = Some t /\ key t = k
                 /\ image (_download_tile self t (net w i)).1 = Some img.
Proof.
  intros Hk.
  destruct (download_tiles_finished self tiles progress_callback w)
    as [Hperm _].
  destruct (download_tiles_unfold self tiles progress_callback w)
    as (Himg & _).
  rewrite Himg in Hk.
  destruct (fold_handle_images progress_callback
              (results (download_tiles self tiles progress_callback w))
              {| tile_images := ∅;
                 progress := {| total := Z.of_nat (length tiles);
                                completed := 0; failed := 0;
                                status := "downloading" |};
                 observed := []; printed := [] |})
    as (_ & _ & _ & Hfrom & _).
  destruct (Hfrom k img Hk) as [Hempty|(r & Hr & _ & Hkey & Hi)].
  - cbn in Hempty. now rewrite lookup_empty in Hempty.
  - apply (Permutation_in _ Hperm) in Hr.
    apply task_results_spec in Hr. destruct Hr as (i & t & Ht & ->).
    split.
    + now apply (download_tile_image self t (net w i)).
    + exists i, t. split; [exact Ht|]. split; [|exact Hi].
      now rewrite <- Hkey, download_tile_tile.
Qed.

Lemma download_tiles_images_rgb_witness :
  (returned (download_tiles (Sample.downloader 1) [Sample.tile_1_1] false
               Sample.fine_world)).1 !! (1, 1)%Z = Some Sample.black
  /\ PIL.mode Sample.black = PIL.RGB
  /\ exists i t, [Sample.tile_1_1] !! i = Some t /\ key t = (1, 1)%Z
       /\ image (_download_tile (Sample.downloader 1) t
                   (net Sample.fine_world i)).1 = Some Sample.black.
Proof.
  assert (H : (returned (download_tiles (Sample.downloader 1)
                           [Sample.tile_1_1] false Sample.fine_world)).1
              !! (1, 1)%Z = Some Sample.black).
  { vm_compute. reflexivity. }
  split; [exact H|].
  exact (download_tiles_images_rgb (Sample.downloader 1) [Sample.tile_1_1]
           false Sample.fine_world (1, 1)%Z Sample.black H).
Defined.

Lemma fold_handle_printed (cb : bool) (rs : list DownloadResult) :
  forall st : LoopState,
  printed (fold_left (handle_result cb) rs st)
  = printed st
      ++ map failure_line (List.filter (fun r => negb (delivered r)) rs).
Proof.
  induction rs as [|r rs IH]; intros st; cbn [fold_left List.filter map].
  - now rewrite app_nil_r.
  - rewrite IH. unfold handle_result, delivered, failure_line.
    destruct (success r), (image r) as [img|];
      cbn [printed negb map List.filter];
      try rewrite <- app_assoc; reflexivity.
Qed.

Lemma filter_nil_iff {A : Type} (f : A -> bool) (l : list A) :
  List.filter f l = [] <-> forall a, In a l -> f a = false.
Proof.
  induction l as [|a l IH]; cbn.
  - split; [intros _ a [] | reflexivity].
  - destruct (f a) eqn:E.
    + split; [discriminate|]. intros H.
      specialize (H a (or_introl eq_refl)). congruence.
    + rewrite IH. split.
      * intros H b [<-|Hb]; [exact E | now apply H].
      * intros H b Hb. apply H. now right.
Qed.

(** X15. [download_tiles] ends with the status "completed" exactly when
    every fetch task of the batch succeeded, and with
    "completed_with_errors" otherwise. It prints one line per failed tile,
    "Failed to download tile <tile>: <error>", in the order in which the
    tasks finished, so the number of printed lines is the final [failed]
    count. *)
Theorem download_tiles_status (self : TileDownloader)
    (tiles : list Tile.TileCoord) (progress_callback : bool) (w : World) :
  let batch := download_tiles self tiles progress_callback w in
  let final := (returned batch).2 in
  (status final = "completed"
   <-> forall i t, tiles !! i = Some t ->
         success (_download_tile self t (net w i)).1 = true)
  /\ (status final = "completed"
      \/ status final = "completed_with_errors")
  /\ (status final = "completed" <-> failed final = 0%Z)
  /\ output batch
     = map failure_line
         (List.filter (fun r => negb (success r)) (results batch))
  /\ Z.of_nat (length (output batch)) = failed final.
Proof.
  intros batch final. subst final.
  destruct (download_tiles_finished self tiles progress_callback w)
    as [Hperm _].
  destruct (download_tiles_unfold self tiles progress_callback w)
    as (_ & _ & _ & Hf & Hs & Hout).
  fold batch in Hperm, Hf, Hs, Hout.
  set (st0 := {| tile_images := ∅;
                 progress := {| total := Z.of_nat (length tiles);
                                completed := 0; failed := 0;
                                status := "downloading" |};
                 observed := []; printed := [] |}) in *.
  destruct (fold_handle_images progress_callback (results batch) st0)
    as (_ & _ & _ & _ & _ & Hfailed).
  pose proof (fold_handle_printed progress_callback (results batch) st0)
    as Hprinted.
  cbn [st0 printed progress failed app] in Hfailed, Hprinted.
  assert (Hdel : forall r, In r (results batch) -> delivered r = success r).
  { intros r Hr. apply (task_results_delivered self tiles w).
    now apply (Permutation_in _ Hperm). }
  assert (Hfilter :
    List.filter (fun r => negb (delivered r)) (results batch)
    = List.filter (fun r => negb (success r)) (results batch)).
  { apply List.filter_ext_in. intros r Hr. now rewrite Hdel. }
  rewrite Hfilter in *.
  set (bad := List.filter (fun r => negb (success r)) (results batch)) in *.
  assert (Hzero : failed (returned batch).2 = 0%Z <-> bad = []).
  { rewrite Hf, Hfailed, Z.add_0_l. destruct bad; cbn; split;
      congruence || lia. }
  assert (Hstatus : status (returned batch).2 = "completed"
                    <-> failed (returned batch).2 = 0%Z).
  { rewrite Hs, <- Hf.
    destruct (Z.eqb_spec (failed (returned batch).2) 0); split;
      auto; try discriminate; contradiction. }
  split; [|split; [|split; [exact Hstatus|split]]].
  - rewrite Hstatus, Hzero. unfold bad. rewrite filter_nil_iff. split.
    + intros H i t Ht.
      assert (Hin : In (_download_tile self t (net w i)).1 (results batch)).
      { apply (Permutation_in _ (Permutation_sym Hperm)).
        apply task_results_spec. eauto. }
      specialize (H _ Hin). now destruct (success _).
    + intros H r Hr. apply (Permutation_in _ Hperm) in Hr.
      apply task_results_spec in Hr. destruct Hr as (i & t & Ht & ->).
      now rewrite (H i t Ht).
  - rewrite Hs. destruct (_ =? _)%Z; [now left | now right].
  - now rewrite Hout, Hprinted.
  - rewrite Hout, Hprinted, length_map, Hf, Hfailed. lia.
Qed.

(** ** Batches without repeated tiles *)

Section DistinctKeys.

Variables (self : TileDownloader) (tiles : list Tile.TileCoord).
Variable w : World.

Hypothesis distinct : NoDup (map key tiles).

Lemma distinct_index (i j : nat) (t t' : Tile.TileCoord) :
  tiles !! i = Some t -> tiles !! j = Some t' -> key t = key t' ->
  i = j /\ t = t'.
Proof.
  intros Hi Hj Hk.
  assert (i = j).
  { apply (NoDup_lookup (map key tiles) i j (key t)); [exact distinct| |].
    - change (map key tiles) with (key <$> tiles).
      now rewrite list_lookup_fmap, Hi.
    - change (map key tiles) with (key <$> tiles).
      now rewrite list_lookup_fmap, Hj, Hk. }
  subst j. split; [reflexivity | congruence].
Qed.

(** The mapping of a batch without repeated tiles holds, for every tile,
    what the fetch task of that tile returned. *)
Lemma distinct_mapping (cb : bool) (picks0 : list nat) (i : nat)
    (t : Tile.TileCoord) :
  tiles !! i = Some t ->
  (returned (download_tiles self tiles cb
               {| net := net w; picks := picks0 |})).1 !! key t
  = image (_download_tile self t (net w i)).1.
Proof.
  intros Ht.
  set (w' := {| net := net w; picks := picks0 |}).
  destruct (download_tiles_finished self tiles cb w') as [Hperm _].
  destruct (download_tiles_unfold self tiles cb w') as (Himg & _).
  rewrite Himg.
  destruct (fold_handle_images cb (results (download_tiles self tiles cb w'))
              {| tile_images := ∅;
                 progress := {| total := Z.of_nat (length tiles);
                                completed := 0; failed := 0;
                                status := "downloading" |};
                 observed := []; printed := [] |})
    as (Habs & Hpres & _ & Hfrom & _).
  cbn [tile_images] in *.
  set (images := tile_images _) in *.
  set (r := (_download_tile self t (net w i)).1).
  assert (Hsame : forall r', In r' (results (download_tiles self tiles cb w'))
            -> key (tile r') = key t -> r' = r).
  { intros r' Hr' Hkey. apply (Permutation_in _ Hperm) in Hr'.
    apply task_results_spec in Hr'. destruct Hr' as (j & t' & Ht' & ->).
    rewrite download_tile_tile in Hkey.
    destruct (distinct_index j i t' t Ht' Ht Hkey) as [-> ->].
    reflexivity. }
  assert (Hin : In r (results (download_tiles self tiles cb w'))).
  { apply (Permutation_in _ (Permutation_sym Hperm)).
    apply (task_results_spec self tiles w'). exists i, t. now split. }
  assert (Hdel : delivered r = success r)
    by apply (download_tile_loop_result self t (net w i)).
  destruct (success r) eqn:Hs.
  - assert (Hsome : is_Some (images !! key (tile r)))
      by now apply Hpres.
    unfold r in Hsome at 1. rewrite download_tile_tile in Hsome.
    destruct Hsome as [img Himg'].
    destruct (Hfrom _ _ Himg') as [Hempty|(r' & Hr' & _ & Hkey & Hi)].
    + now rewrite lookup_empty in Hempty.
    + rewrite (Hsame r' Hr' Hkey) in Hi. now rewrite Himg', Hi.
  - destruct (download_tile_image self t (net w i)) as [Hnone _].
    fold r in Hnone. rewrite (Hnone Hs).
    rewrite Habs; [apply lookup_empty|].
    intros r' Hr' Hkey. rewrite (Hsame r' Hr' Hkey). congruence.
Qed.

Lemma distinct_mapping_keys (cb : bool) (picks0 : list nat) (k : Z * Z) :
  is_Some ((returned (download_tiles self tiles cb
                        {| net := net w; picks := picks0 |})).1 !! k) ->
  exists i t, tiles !! i = Some t /\ key t = k.
Proof.
  intros [img Hk].
  destruct (download_tiles_images_from self tiles cb _ k img Hk)
    as (i & t & Ht & Hkey & _).
  eauto.
Qed.

Lemma distinct_final (cb : bool) (w' : World) :
  net w' = net w ->
  (returned (download_tiles self tiles cb w')).2
  = (returned (download_tiles self tiles cb w)).2.
Proof.
  intros Hnet.
  assert (Hcount : forall w0,
    let p := (returned (download_tiles self tiles cb w0)).2 in
    total p = Z.of_nat (length tiles)
    /\ completed p
       = Z.of_nat (length (List.filter delivered (task_results self tiles w0)))
    /\ failed p
       = Z.of_nat (length (List.filter (fun r => negb (delivered r))
                             (task_results self tiles w0)))
    /\ status p = (if (failed p =? 0)%Z then "completed"
                   else "completed_with_errors")).
  { intros w0. cbv zeta.
    destruct (download_tiles_finished self tiles cb w0) as [Hperm _].
    destruct (download_tiles_unfold self tiles cb w0)
      as (_ & Ht & Hc & Hf & Hs & _).
    set (st0 := {| tile_images := ∅;
                   progress := {| total := Z.of_nat (length tiles);
                                  completed := 0; failed := 0;
                                  status := "downloading" |};
                   observed := []; printed := [] |}) in *.
    destruct (fold_handle_images cb
                (results (download_tiles self tiles cb w0)) st0)
      as (_ & _ & _ & _ & Hc' & Hf').
    destruct (fold_handle_progress cb
                (results (download_tiles self tiles cb w0)) st0)
      as (Ht' & _).
    cbn [st0 progress total completed failed] in Hc', Hf', Ht'.
    rewrite Ht, Ht', Hc, Hc', Hs, Hf, Hf', !Z.add_0_l.
    rewrite (filter_length_perm delivered _ _ Hperm).
    rewrite (filter_length_perm (fun r => negb (delivered r)) _ _ Hperm).
    repeat split. }
  destruct (Hcount w) as (Ht & Hc & Hf & Hs).
  destruct (Hcount w') as (Ht' & Hc' & Hf' & Hs').
  assert (Hres : task_results self tiles w' = task_results self tiles w).
  { unfold task_results. now rewrite Hnet. }
  rewrite Hres in *.
  destruct ((returned (download_tiles self tiles cb w')).2) as [t1 c1 f1 s1].
  destruct ((returned (download_tiles self tiles cb w)).2) as [t2 c2 f2 s2].
  cbn [total completed failed status] in *.
  rewrite <- Hf in Hf'. subst. reflexivity.
Qed.

End DistinctKeys.

(** X16. When no two tiles of the batch share their [(x, y)] (as in the
    lists built by [get_tiles_in_bounds]), the mapping returned by
    [download_tiles] holds for every tile exactly the image that the
    tile's own fetch task returned, no entry for a tile whose task failed,
    and no entry under any other key. What [download_tiles] returns, the
    mapping and the final progress, is then the same for every order in
    which the tasks finish. *)
Theorem download_tiles_order_independent (self : TileDownloader)
    (tiles : list Tile.TileCoord) (progress_callback : bool) (w : World) :
  NoDup (map key tiles) ->
  let images := (returned (download_tiles self tiles progress_callback w)).1 in
  (forall i t, tiles !! i = Some t ->
     images !! key t = image (_download_tile self t (net w i)).1)
  /\ (forall k, is_Some (images !! k) -> exists t, In t tiles /\ key t = k)
  /\ forall picks',
       returned (download_tiles self tiles progress_callback
                   {| net := net w; picks := picks' |})
       = returned (download_tiles self tiles progress_callback w).
Proof.
  intros Hdistinct images.
  assert (Hw : w = {| net := net w; picks := picks w |})
    by (destruct w; reflexivity).
  assert (Hmap : forall picks0 i t, tiles !! i = Some t ->
            (returned (download_tiles self tiles progress_callback
                         {| net := net w; picks := picks0 |})).1 !! key t
            = image (_download_tile self t (net w i)).1)
    by (intros; now apply distinct_mapping).
  split; [|split].
  - intros i t Ht. subst images. rewrite Hw at 1. now apply Hmap.
  - intros k Hk. subst images. rewrite Hw in Hk.
    destruct (distinct_mapping_keys self tiles w progress_callback _ k Hk)
      as (i & t & Ht & Hkey).
    exists t. split; [|exact Hkey].
    apply list_elem_of_In, list_elem_of_lookup. eauto.
  - intros picks'.
    apply injective_projections.
    + apply map_eq. intros k.
      destruct (decide (k ∈ key <$> tiles)) as [Hin|Hnot].
      * apply list_elem_of_fmap in Hin. destruct Hin as (t & -> & Ht).
        apply list_elem_of_lookup in Ht. destruct Ht as [i Ht].
        pose proof (Hmap (picks w) i t Ht) as Hhere.
        rewrite <- Hw in Hhere.
        now rewrite (Hmap picks' i t Ht), Hhere.
      * assert (Hnone : ~ exists i t, tiles !! i = Some t /\ key t = k).
        { intros (i & t & Ht & <-). apply Hnot.
          apply list_elem_of_fmap. exists t. split; [reflexivity|].
          apply list_elem_of_lookup. eauto. }
        transitivity (@None PIL.Image).
        -- apply eq_None_not_Some. intros Hk. apply Hnone.
           exact (distinct_mapping_keys self tiles w progress_callback
                    _ k Hk).
        -- symmetry. apply eq_None_not_Some. intros Hk. apply Hnone.
           rewrite Hw in Hk.
           exact (distinct_mapping_keys self tiles w progress_callback
                    _ k Hk).
    + now apply distinct_final.
Qed.

Lemma download_tiles_order_independent_witness :
  NoDup (map key [Sample.tile_1_1; Sample.tile_0_1])
  /\ let tiles := [Sample.tile_1_1; Sample.tile_0_1] in
     let images :=
       (returned (download_tiles (Sample.downloader 1) tiles true
                    Sample.fine_world)).1 in
     (forall i t, tiles !! i = Some t ->
        images !! key t
        = image (_download_tile (Sample.downloader 1) t
                   (net Sample.fine_world i)).1)
     /\ (forall k, is_Some (images !! k) ->
           exists t, In t tiles /\ key t = k)
     /\ forall picks',
          returned (download_tiles (Sample.downloader 1) tiles true
                      {| net := net Sample.fine_world; picks := picks' |})
          = returned (download_tiles (Sample.downloader 1) tiles true
                        Sample.fine_world).
Proof.
  assert (H : NoDup (map key [Sample.tile_1_1; Sample.tile_0_1])).
  { cbn. apply NoDup_cons. split; [|apply NoDup_singleton].
    intros Hin. apply list_elem_of_singleton in Hin. discriminate. }
  split; [exact H|].
  exact (download_tiles_order_independent (Sample.downloader 1)
           [Sample.tile_1_1; Sample.tile_0_1] true Sample.fine_world H).
Defined.

Lemma fold_handle_size (cb : bool) (rs : list DownloadResult) :
  forall st : LoopState,
  let st' := fold_left (handle_result cb) rs st in
  (size (tile_images st')
   <= size (tile_images st) + length (List.filter delivered rs))%nat
  /\ (NoDup (map (fun r => key (tile r)) rs) ->
      (forall r, In r rs -> tile_images st !! key (tile r) = None) ->
      size (tile_images st')
      = (size (tile_images st) + length (List.filter delivered rs))%nat).
Proof.
  induction rs as [|r rs IH]; intros st; cbn [fold_left List.filter].
  - cbn. split; [lia|]. intros _ _. lia.
  - destruct (handle_result_step cb st r) as (_ & _ & _ & Hcase).
    destruct (IH (handle_result cb st r)) as [Hle Heq].
    set (st1 := handle_result cb st r) in *.
    destruct Hcase as [(Hd & _ & _ & img & _ & Hmap)|(Hd & _ & _ & Hmap)];
      rewrite Hd; cbn [length].
    + split.
      * rewrite Hmap in Hle.
        pose proof (map_size_insert (key (tile r)) img (tile_images st))
          as Hins.
        destruct (tile_images st !! key (tile r)); cbn in Hins; lia.
      * intros Hnodup Hfresh. cbn [map] in Hnodup.
        apply NoDup_cons in Hnodup. destruct Hnodup as [Hr Hnodup].
        rewrite Heq.
        -- rewrite Hmap, map_size_insert_None; [lia|].
           apply Hfresh. now left.
        -- exact Hnodup.
        -- intros r' Hr'. rewrite Hmap, lookup_insert_ne.
           ++ apply Hfresh. now right.
           ++ intros Hk. apply Hr. rewrite Hk.
              apply list_elem_of_In, in_map_iff. eauto.
    + split.
      * rewrite Hmap in Hle. exact Hle.
      * intros Hnodup Hfresh. cbn [map] in Hnodup.
        apply NoDup_cons in Hnodup. destruct Hnodup as [_ Hnodup].
        rewrite Heq; [now rewrite Hmap | exact Hnodup |].
        intros r' Hr'. rewrite Hmap. apply Hfresh. now right.
Qed.

Lemma task_results_keys (self : TileDownloader)
    (tiles : list Tile.TileCoord) (w : World) :
  map (fun r => key (tile r)) (task_results self tiles w) = map key tiles.
Proof.
  unfold task_results. generalize (net w).
  induction tiles as [|t ts IH]; intros f; [reflexivity|].
  cbn. rewrite download_tile_tile. f_equal. apply (IH (fun i => f (S i))).
Qed.

(** X17. The mapping returned by [download_tiles] never has more entries
    than the final [completed] count, because two tiles with the same
    [(x, y)] share one entry; when no two tiles of the batch share their
    [(x, y)], the number of entries is exactly [completed]. *)
Theorem download_tiles_entries (self : TileDownloader)
    (tiles : list Tile.TileCoord) (progress_callback : bool) (w : World) :
  let batch := download_tiles self tiles progress_callback w in
  let images := (returned batch).1 in
  let final := (returned batch).2 in
  (Z.of_nat (size images) <= completed final)%Z
  /\ (NoDup (map key tiles) -> Z.of_nat (size images) = completed final).
Proof.
  intros batch images final. subst images final.
  destruct (download_tiles_finished self tiles progress_callback w)
    as [Hperm _].
  destruct (download_tiles_unfold self tiles progress_callback w)
    as (Himg & _ & Hc & _).
  fold batch in Hperm, Himg, Hc.
  set (st0 := {| tile_images := ∅;
                 progress := {| total := Z.of_nat (length tiles);
                                completed := 0; failed := 0;
                                status := "downloading" |};
                 observed := []; printed := [] |}) in *.
  destruct (fold_handle_images progress_callback (results batch) st0)
    as (_ & _ & _ & _ & Hcount & _).
  destruct (fold_handle_size progress_callback (results batch) st0)
    as [Hle Heq].
  cbn [st0 tile_images progress completed] in Hcount, Hle, Heq.
  rewrite map_size_empty in Hle, Heq.
  rewrite Himg, Hc, Hcount. split; [lia|].
  intros Hnodup. rewrite Heq; [lia| |intros; apply lookup_empty].
  rewrite <- (task_results_keys self tiles w) in Hnodup.
  assert (Hp : map (fun r => key (tile r)) (results batch)
               ≡ₚ map (fun r => key (tile r)) (task_results self tiles w))
    by now apply Permutation_map.
  rewrite Hp. exact Hnodup.
Qed.

(** * Further properties of the mosaic *)

(** ** Loops *)

Lemma for_each_app {A S : Type} (xs ys : list A) (body : S -> A -> Py.exn + S)
    (s : S) :
  Py.for_each (xs ++ ys) s body
  = match Py.for_each xs s body with
    | inl e => inl e
    | inr s' => Py.for_each ys s' body
    end.
Proof.
  revert s. induction xs as [|x xs IH]; intros s; cbn; [reflexivity|].
  destruct (body s x); [reflexivity | apply IH].
Qed.

(** Two nested loops are one loop over the pairs, in the same order. *)
Lemma for_each_nested {A B S : Type} (xs : list A) (inner : A -> list B)
    (body : A -> S -> B -> Py.exn + S) (s : S) :
  Py.for_each xs s (fun s x => Py.for_each (inner x) s (body x))
  = Py.for_each (flat_map (fun x => map (pair x) (inner x)) xs) s
      (fun s p => body p.1 s p.2).
Proof.
  revert s. induction xs as [|x xs IH]; intros s; cbn [Py.for_each flat_map];
    [reflexivity|].
  rewrite for_each_app.
  assert (Hinner : forall (l : list B) (s : S),
            Py.for_each l s (body x)
            = Py.for_each (map (pair x) l) s (fun s p => body p.1 s p.2)).
  { induction l as [|b l IHl]; intros s0; cbn; [reflexivity|].
    destruct (body x s0 b); [reflexivity | apply IHl]. }
  rewrite <- Hinner. destruct (Py.for_each (inner x) s (body x));
    [reflexivity | apply IH].
Qed.

Lemma for_each_map {A B S : Type} (h : A -> B) (xs : list A)
    (body : S -> A -> Py.exn + S) (body' : S -> B -> Py.exn + S) :
  (forall s a, body s a = body' s (h a)) ->
  forall s, Py.for_each xs s body = Py.for_each (map h xs) s body'.
Proof.
  intros Hbody. induction xs as [|x xs IH]; intros s; cbn; [reflexivity|].
  rewrite <- Hbody. destruct (body s x); [reflexivity | apply IH].
Qed.

(** [range(a, b, step)] with a positive step. *)
Lemma range_step_positive (a b step : Z) :
  (0 < step)%Z ->
  exists l,
    Py.range_step a b step = inr l
    /\ forall v, In v l <->
         exists i, (0 <= i)%Z /\ v = (a + i * step)%Z /\ (v < b)%Z.
Proof.
  intros Hstep. unfold Py.range_step.
  destruct (Z.eqb_spec step 0) as [?|_]; [lia|].
  destruct (Z.ltb_spec 0 step) as [_|?]; [|lia].
  eexists. split; [reflexivity|].
  intros v. rewrite in_map_iff. split.
  - intros (i & <- & Hi). apply in_seq in Hi.
    exists (Z.of_nat i). split; [lia|]. split; [reflexivity|].
    assert (Z.of_nat i < (b - a + step - 1) / step)%Z by lia.
    assert (Z.of_nat i + 1 <= (b - a + step - 1) / step)%Z by lia.
    pose proof (Z.mul_div_le (b - a + step - 1) step Hstep). nia.
  - intros (i & Hi & -> & Hlt). exists (Z.to_nat i).
    split; [lia|]. apply in_seq. split; [lia|].
    assert (i + 1 <= (b - a + step - 1) / step)%Z; [|lia].
    apply Z.div_le_lower_bound; [exact Hstep|]. nia.
Qed.

(** [range(a, b, step)] with a negative step and [a < b] is empty. *)
Lemma range_step_negative (a b step : Z) :
  (step < 0)%Z -> (a < b)%Z -> Py.range_step a b step = inr [].
Proof.
  intros Hstep Hab. unfold Py.range_step.
  destruct (Z.eqb_spec step 0) as [?|_]; [lia|].
  destruct (Z.ltb_spec 0 step) as [?|_]; [lia|].
  assert (H : ((a - b - step - 1) / - step <= 0)%Z).
  { assert ((a - b - step - 1) / - step < 1)%Z; [|lia].
    apply Z.div_lt_upper_bound; lia. }
  replace (Z.to_nat _) with O by lia. reflexivity.
Qed.

(** The row offsets visited chunk by chunk are those of [range(rows)]. *)
Lemma chunk_rows (rows chunk_size : Z) (starts : list Z) (row_offset : Z) :
  (0 < chunk_size)%Z ->
  (forall v, In v starts <->
     exists i, (0 <= i)%Z /\ v = (0 + i * chunk_size)%Z /\ (v < rows)%Z) ->
  In row_offset
     (flat_map (fun chunk_start =>
                  Py.range chunk_start
                    (Z.min (chunk_start + chunk_size) rows)) starts)
  <-> (0 <= row_offset < rows)%Z.
Proof.
  intros Hc Hstarts. rewrite in_flat_map. split.
  - intros (cs & Hcs & Hin). apply Hstarts in Hcs.
    destruct Hcs as (i & Hi & -> & Hlt). apply range_In in Hin. nia.
  - intros Hr. exists (row_offset / chunk_size * chunk_size)%Z.
    pose proof (Z.div_mod row_offset chunk_size ltac:(lia)) as Hdm.
    pose proof (Z.mod_pos_bound row_offset chunk_size Hc) as Hmod.
    assert (H0 : (0 <= row_offset / chunk_size)%Z)
      by (apply Z.div_pos; lia).
    split.
    + apply Hstarts. exists (row_offset / chunk_size)%Z.
      split; [exact H0|]. split; [lia | nia].
    + apply range_In. nia.
Qed.

(** ** merge_tiles_chunked *)

Section Chunked.

Context {LANCZOS : PIL.Resampling}.

Variable tile_images : gmap (Z * Z) PIL.Image.
Variables x_min y_min : Z.

(** Pasting the tiles of a list of cells, in any order. *)
Lemma merge_cells (cells : list (Z * Z)) :
  forall merged : PIL.Image,
  exists merged',
    Py.for_each cells merged (fun merged c =>
      Merger.paste_tile tile_images x_min y_min merged c.1 c.2) = inr merged'
    /\ PIL.mode merged' = PIL.mode merged
    /\ PIL.size merged' = PIL.size merged
    /\ forall X Y,
         (forall x y, In (x, y) cells -> Spec.in_cell x_min y_min x y X Y ->
            PIL.getpixel merged' X Y
            = PIL.getpixel (Spec.placed tile_images x y)
                (X - (x - x_min) * 256)%Z (Y - (y - y_min) * 256)%Z)
         /\ ((forall x y, In (x, y) cells ->
                ~ Spec.in_cell x_min y_min x y X Y) ->
             PIL.getpixel merged' X Y = PIL.getpixel merged X Y).
Proof.
  induction cells as [|[x0 y0] cells IH]; intros merged.
  - exists merged. cbn. repeat split; try reflexivity. intros x y [].
  - cbn [Py.for_each fst snd]. rewrite paste_tile_placed.
    set (merged1 := PIL.paste merged _ _).
    destruct (IH merged1) as (merged' & Hrun & Hmode & Hsize & Hpix).
    exists merged'. split; [exact Hrun|].
    split; [rewrite Hmode; subst merged1; unfold PIL.paste;
            now rewrite placed_size|].
    split; [rewrite Hsize; subst merged1; unfold PIL.paste;
            now rewrite placed_size|].
    intros X Y. destruct (Hpix X Y) as [Hin Hout]. split.
    + intros x y Hxy Hcell.
      destruct (decide ((x, y) ∈ cells)) as [Hc|Hc].
      { apply Hin; [now apply list_elem_of_In | exact Hcell]. }
      destruct Hxy as [[= <- <-]|Hxy];
        [|apply list_elem_of_In in Hxy; contradiction].
      rewrite Hout.
      * subst merged1. rewrite paste_placed_pixel.
        destruct (decide _); [reflexivity | contradiction].
      * intros x' y' Hin' Hcell'.
        destruct (in_cell_unique x_min y_min _ _ _ _ _ _ Hcell Hcell')
          as [-> ->].
        apply Hc. now apply list_elem_of_In.
    + intros Hnone. rewrite Hout.
      * subst merged1. rewrite paste_placed_pixel.
        destruct (decide _) as [Hcell|]; [|reflexivity].
        exfalso. apply (Hnone x0 y0); [now left | exact Hcell].
      * intros x y Hxy. apply Hnone. now right.
Qed.

Lemma paste_tile_chunked_cell (merged : PIL.Image)
    (row_offset col_offset : Z) :
  Merger.paste_tile_chunked tile_images x_min y_min merged row_offset
    col_offset
  = Merger.paste_tile tile_images x_min y_min merged
      (x_min + col_offset) (y_min + row_offset).
Proof.
  unfold Merger.paste_tile_chunked, Merger.paste_tile. cbv zeta.
  replace (x_min + col_offset - x_min)%Z with col_offset by lia.
  replace (y_min + row_offset - y_min)%Z with row_offset by lia.
  reflexivity.
Qed.

(** The cell that holds a pixel. *)
Lemma in_cell_div (x y X Y : Z) :
  Spec.in_cell x_min y_min x y X Y
  <-> x = (x_min + X / 256)%Z /\ y = (y_min + Y / 256)%Z.
Proof.
  unfold Spec.in_cell.
  pose proof (Z.div_mod X 256 ltac:(lia)).
  pose proof (Z.mod_pos_bound X 256 ltac:(lia)).
  pose proof (Z.div_mod Y 256 ltac:(lia)).
  pose proof (Z.mod_pos_bound Y 256 ltac:(lia)).
  lia.
Qed.

(** Two canvases painted from the same background over the same set of
    cells show the same pixels. *)
Lemma same_cells_same_pixels (cells cells' : list (Z * Z))
    (merged a b : PIL.Image) :
  (forall c, In c cells <-> In c cells') ->
  Py.for_each cells merged (fun merged c =>
    Merger.paste_tile tile_images x_min y_min merged c.1 c.2) = inr a ->
  Py.for_each cells' merged (fun merged c =>
    Merger.paste_tile tile_images x_min y_min merged c.1 c.2) = inr b ->
  PIL.mode a = PIL.mode b /\ PIL.size a = PIL.size b
  /\ forall X Y, PIL.getpixel a X Y = PIL.getpixel b X Y.
Proof.
  intros Hsame Ha Hb.
  destruct (merge_cells cells merged) as (a' & Ha' & Hma & Hsa & Hpa).
  destruct (merge_cells cells' merged) as (b' & Hb' & Hmb & Hsb & Hpb).
  rewrite Ha in Ha'. rewrite Hb in Hb'.
  injection Ha' as <-. injection Hb' as <-.
  split; [congruence|]. split; [congruence|].
  intros X Y. destruct (Hpa X Y) as [Hin Hout].
  destruct (Hpb X Y) as [Hin' Hout'].
  set (x := (x_min + X / 256)%Z). set (y := (y_min + Y / 256)%Z).
  assert (Hcell : Spec.in_cell x_min y_min x y X Y)
    by (apply in_cell_div; split; reflexivity).
  destruct (decide ((x, y) ∈ cells)) as [Hc|Hc].
  - apply list_elem_of_In in Hc.
    rewrite (Hin x y Hc Hcell).
    rewrite (Hin' x y (proj1 (Hsame _) Hc) Hcell). reflexivity.
  - rewrite Hout, Hout'; [reflexivity| |].
    + intros x' y' Hin0 Hcell'. apply in_cell_div in Hcell'.
      destruct Hcell' as [-> ->]. apply Hc, list_elem_of_In.
      now apply Hsame.
    + intros x' y' Hin0 Hcell'. apply in_cell_div in Hcell'.
      destruct Hcell' as [-> ->]. apply Hc, list_elem_of_In. exact Hin0.
Qed.

End Chunked.

(** The loops of [merge_tiles] as one loop over the cells of the grid. *)
Lemma merge_tiles_cells {LANCZOS : PIL.Resampling}
    (tile_images : gmap (Z * Z) PIL.Image) (x_min y_min x_max y_max : Z)
    (merged : PIL.Image) :
  Py.for_each (Py.range x_min (x_max + 1)) merged (fun merged x =>
    Py.for_each (Py.range y_min (y_max + 1)) merged (fun merged y =>
      Merger.paste_tile tile_images x_min y_min merged x y))
  = Py.for_each
      (flat_map (fun x => map (pair x) (Py.range y_min (y_max + 1)))
         (Py.range x_min (x_max + 1)))
      merged
      (fun merged c =>
         Merger.paste_tile tile_images x_min y_min merged c.1 c.2).
Proof.
  apply (for_each_nested (Py.range x_min (x_max + 1))
           (fun _ => Py.range y_min (y_max + 1))
           (fun x merged y =>
              Merger.paste_tile tile_images x_min y_min merged x y)).
Qed.

(** The loops of [merge_tiles_chunked] as one loop over cells. *)
Lemma merge_tiles_chunked_cells {LANCZOS : PIL.Resampling}
    (tile_images : gmap (Z * Z) PIL.Image) (x_min y_min : Z)
    (cols rows chunk_size : Z) (starts : list Z) (merged : PIL.Image) :
  Py.for_each starts merged (fun merged chunk_start =>
    let chunk_end := Z.min (chunk_start + chunk_size) rows in
    Py.for_each (Py.range chunk_start chunk_end) merged
      (fun merged row_offset =>
         Py.for_each (Py.range 0 cols) merged (fun merged col_offset =>
           Merger.paste_tile_chunked tile_images x_min y_min merged
             row_offset col_offset)))
  = Py.for_each
      (map (fun p => ((x_min + p.2)%Z, (y_min + p.1)%Z))
         (flat_map (fun row_offset => map (pair row_offset) (Py.range 0 cols))
            (map snd
               (flat_map (fun chunk_start =>
                            map (pair chunk_start)
                              (Py.range chunk_start
                                 (Z.min (chunk_start + chunk_size) rows)))
                  starts))))
      merged
      (fun merged c =>
         Merger.paste_tile tile_images x_min y_min merged c.1 c.2).
Proof.
  cbv zeta.
  rewrite (for_each_nested starts
             (fun chunk_start =>
                Py.range chunk_start (Z.min (chunk_start + chunk_size) rows))
             (fun _ merged row_offset =>
                Py.for_each (Py.range 0 cols) merged (fun merged col_offset =>
                  Merger.paste_tile_chunked tile_images x_min y_min merged
                    row_offset col_offset))).
  rewrite (for_each_map snd _ _
             (fun merged row_offset =>
                Py.for_each (Py.range 0 cols) merged (fun merged col_offset =>
                  Merger.paste_tile_chunked tile_images x_min y_min merged
                    row_offset col_offset)))
    by reflexivity.
  rewrite (for_each_nested _ (fun _ => Py.range 0 cols)
             (fun row_offset merged col_offset =>
                Merger.paste_tile_chunked tile_images x_min y_min merged
                  row_offset col_offset)).
  apply for_each_map. intros s [row_offset col_offset]. cbn [fst snd].
  apply paste_tile_chunked_cell.
Qed.

(** X18. With a chunk size of at least 1, [merge_tiles_chunked] and
    [merge_tiles] agree on every mapping and every grid: either both raise
    the same exception, or both return a canvas, and the two canvases have
    the same mode, the same size and the same colour at every pixel. *)
Theorem merge_tiles_chunked_agrees {LANCZOS : PIL.Resampling}
    (tile_images : gmap (Z * Z) PIL.Image)
    (x_min y_min x_max y_max chunk_size : Z) :
  (1 <= chunk_size)%Z ->
  match Merger.merge_tiles_chunked tile_images x_min y_min x_max y_max
          chunk_size,
        Merger.merge_tiles tile_images x_min y_min x_max y_max with
  | inl e, inl e' => e = e'
  | inr a, inr b =>
      PIL.mode a = PIL.mode b /\ PIL.size a = PIL.size b
      /\ forall X Y, PIL.getpixel a X Y = PIL.getpixel b X Y
  | _, _ => False
  end.
Proof.
  intros Hchunk. unfold Merger.merge_tiles_chunked.
  destruct (Z.leb_spec (y_max - y_min + 1) (chunk_size * 2)) as [_|Hrows].
  { destruct (Merger.merge_tiles _ _ _ _ _); [reflexivity|].
    repeat split. }
  unfold Merger.merge_tiles.
  destruct (PIL.new PIL.RGB _ _) as [e|merged]; cbn [Py.bind];
    [reflexivity|].
  destruct (range_step_positive 0 (y_max - y_min + 1) chunk_size
              ltac:(lia)) as (starts & -> & Hstarts).
  cbn [Py.bind].
  rewrite merge_tiles_chunked_cells, merge_tiles_cells.
  set (cells := map _ _). set (cells' := flat_map _ _).
  destruct (merge_cells tile_images x_min y_min cells merged)
    as (a & Ha & _).
  destruct (merge_cells tile_images x_min y_min cells' merged)
    as (b & Hb & _).
  rewrite Ha, Hb.
  apply (same_cells_same_pixels tile_images x_min y_min cells cells' merged);
    [|exact Ha|exact Hb].
  intros [x y]. subst cells cells'.
  rewrite in_map_iff, in_flat_map. split.
  - intros ([ro co] & [= <- <-] & Hin). cbn [fst snd].
    apply in_flat_map in Hin. destruct Hin as (ro' & Hro & Hco).
    apply in_map_iff in Hco. destruct Hco as (co' & [= <- <-] & Hco).
    apply range_In in Hco.
    apply in_map_iff in Hro. destruct Hro as ([cs ro''] & Heq & Hro).
    cbn [snd] in Heq. subst ro''.
    assert (Hrow : In ro'
              (flat_map (fun chunk_start =>
                           Py.range chunk_start
                             (Z.min (chunk_start + chunk_size)
                                (y_max - y_min + 1))) starts)).
    { apply in_flat_map in Hro. destruct Hro as (cs' & Hcs' & Hin).
      apply in_map_iff in Hin. destruct Hin as (r & [= <- <-] & Hr).
      apply in_flat_map. eauto. }
    apply (chunk_rows _ chunk_size starts ro' ltac:(lia) Hstarts) in Hrow.
    exists (x_min + co')%Z. split; [apply range_In; lia|].
    apply in_map_iff. exists (y_min + ro')%Z. split; [reflexivity|].
    apply range_In. lia.
  - intros (x' & Hx & Hy). apply in_map_iff in Hy.
    destruct Hy as (y' & [= <- <-] & Hy). apply range_In in Hx, Hy.
    exists ((y' - y_min)%Z, (x' - x_min)%Z). cbn [fst snd].
    split; [f_equal; lia|].
    apply in_flat_map. exists (y' - y_min)%Z. split.
    + assert (Hrow : In (y' - y_min)%Z
                (flat_map (fun chunk_start =>
                             Py.range chunk_start
                               (Z.min (chunk_start + chunk_size)
                                  (y_max - y_min + 1))) starts)).
      { apply (chunk_rows _ chunk_size starts _ ltac:(lia) Hstarts). lia. }
      apply in_flat_map in Hrow. destruct Hrow as (cs & Hcs & Hin).
      apply in_map_iff. exists (cs, (y' - y_min)%Z). split; [reflexivity|].
      apply in_flat_map. exists cs. split; [exact Hcs|].
      apply in_map_iff. eauto.
    + apply in_map_iff. exists (x' - x_min)%Z. split; [reflexivity|].
      apply range_In. lia.
Qed.

Lemma merge_tiles_chunked_agrees_witness :
  (1 <= 1)%Z
  /\ match @Merger.merge_tiles_chunked Sample.nearest_resampling
             {[ (0, 1)%Z := Sample.black ]} 0 0 1 2 1,
           @Merger.merge_tiles Sample.nearest_resampling
             {[ (0, 1)%Z := Sample.black ]} 0 0 1 2 with
     | inl e, inl e' => e = e'
     | inr a, inr b =>
         PIL.mode a = PIL.mode b /\ PIL.size a = PIL.size b
         /\ forall X Y, PIL.getpixel a X Y = PIL.getpixel b X Y
     | _, _ => False
     end.
Proof.
  split; [lia|].
  apply (@merge_tiles_chunked_agrees Sample.nearest_resampling
           {[ (0, 1)%Z := Sample.black ]} 0 0 1 2 1).
  lia.
Defined.

(** X19. With a chunk size that is not positive, on a grid of at least
    one row (and not of negative width), [merge_tiles_chunked] does not
    build the mosaic: a chunk size of 0 makes it raise [ValueError] (the
    step of [range] must not be zero), and a negative chunk size makes it
    return the blank white canvas of the full size without pasting any
    tile of the mapping. *)
Theorem merge_tiles_chunked_bad_chunk_size {LANCZOS : PIL.Resampling}
    (tile_images : gmap (Z * Z) PIL.Image)
    (x_min y_min x_max y_max chunk_size : Z) :
  (chunk_size <= 0)%Z -> (x_min <= x_max + 1)%Z -> (y_min <= y_max)%Z ->
  let run :=
    Merger.merge_tiles_chunked tile_images x_min y_min x_max y_max
      chunk_size in
  (chunk_size = 0%Z ->
   run = inl (Py.ValueError "range() arg 3 must not be zero"))
  /\ ((chunk_size < 0)%Z ->
      exists merged,
        run = inr merged
        /\ PIL.size merged
           = ((x_max - x_min + 1) * 256, (y_max - y_min + 1) * 256)%Z
        /\ forall X Y, PIL.getpixel merged X Y = (255, 255, 255)%Z).
Proof.
  intros Hchunk Hx Hy run. subst run. unfold Merger.merge_tiles_chunked.
  destruct (Z.leb_spec (y_max - y_min + 1) (chunk_size * 2)) as [?|_];
    [lia|].
  unfold PIL.new, Config.TILE_SIZE.
  destruct (Z.ltb_spec ((x_max - x_min + 1) * 256) 0) as [?|_]; [lia|].
  destruct (Z.ltb_spec ((y_max - y_min + 1) * 256) 0) as [?|_]; [lia|].
  cbn [orb Py.bind]. split.
  - intros ->. reflexivity.
  - intros Hneg. rewrite range_step_negative by lia.
    cbn [Py.bind Py.for_each]. eexists. split; [reflexivity|].
    split; reflexivity.
Qed.

Lemma merge_tiles_chunked_bad_chunk_size_witness :
  ((-1 <= 0)%Z /\ (0 <= 0 + 1)%Z /\ (0 <= 0)%Z)
  /\ let run :=
       @Merger.merge_tiles_chunked Sample.nearest_resampling
         {[ (0, 0)%Z := Sample.black ]} 0 0 0 0 (-1) in
     ((-1)%Z = 0%Z ->
      run = inl (Py.ValueError "range() arg 3 must not be zero"))
     /\ ((-1 < 0)%Z ->
         exists merged,
           run = inr merged
           /\ PIL.size merged = ((0 - 0 + 1) * 256, (0 - 0 + 1) * 256)%Z
           /\ forall X Y, PIL.getpixel merged X Y = (255, 255, 255)%Z).
Proof.
  split; [lia|].
  apply (@merge_tiles_chunked_bad_chunk_size Sample.nearest_resampling
           {[ (0, 0)%Z := Sample.black ]} 0 0 0 0 (-1)); lia.
Defined.

(** ** crop_to_bounds *)

Section CropToBounds.

Local Open Scope R_scope.

Lemma fdiv_nonzero (a b : R) : b <> 0 -> Py.fdiv a b = inr (a / b).
Proof.
  intros Hb. unfold Py.fdiv. destruct (Req_EM_T b 0); [contradiction|].
  reflexivity.
Qed.

Lemma fdiv_zero (a : R) : Py.fdiv a 0 = inl Py.ZeroDivisionError.
Proof.
  unfold Py.fdiv. destruct (Req_EM_T 0 0); [reflexivity | contradiction].
Qed.

Lemma div_nonzero (a b : R) : a <> 0 -> b <> 0 -> a / b <> 0.
Proof.
  intros Ha Hb Hq. apply Ha.
  replace a with (a / b * b) by (field; exact Hb). rewrite Hq. ring.
Qed.

Lemma div_le_compat (a b c : R) : 0 < c -> a <= b -> a / c <= b / c.
Proof.
  intros Hc Hab. unfold Rdiv. apply Rmult_le_compat_r; [|exact Hab].
  left. now apply Rinv_0_lt_compat.
Qed.

(** X21. For an image of positive width and height whose bounds have
    [west < east] and [south < north], and a target with
    [west <= east] and [south <= north], [crop_to_bounds] does not raise:
    it crops the image to a rectangle with
    [0 <= left <= right <= width] and [0 <= top <= bottom <= height], so
    the result is never larger than the image. *)
Theorem crop_to_bounds_within (image : PIL.Image)
    (img_north img_south img_east img_west : R)
    (tgt_north tgt_south tgt_east tgt_west : R) :
  (0 < (PIL.size image).1)%Z -> (0 < (PIL.size image).2)%Z ->
  img_west < img_east -> img_south < img_north ->
  tgt_west <= tgt_east -> tgt_south <= tgt_north ->
  exists l t r b : Z,
    Merger.crop_to_bounds_box (PIL.size image)
      (img_north, img_south, img_east, img_west)
      (tgt_north, tgt_south, tgt_east, tgt_west) = inr (l, t, r, b)
    /\ Merger.crop_to_bounds image
         (img_north, img_south, img_east, img_west)
         (tgt_north, tgt_south, tgt_east, tgt_west)
       = inr (PIL.crop image (l, t, r, b))
    /\ (0 <= l <= r)%Z /\ (r <= (PIL.size image).1)%Z
    /\ (0 <= t <= b)%Z /\ (b <= (PIL.size image).2)%Z.
Proof.
  intros Hw Hh Hlng Hlat Htlng Htlat.
  unfold Merger.crop_to_bounds, Merger.crop_to_bounds_box.
  destruct (PIL.size image) as [width height]. cbn [fst snd] in Hw, Hh.
  apply IZR_lt in Hw, Hh.
  assert (Hlpp : 0 < (img_east - img_west) / IZR width)
    by (apply Rdiv_lt_0_compat; lra).
  assert (Hlpp' : 0 < (img_north - img_south) / IZR height)
    by (apply Rdiv_lt_0_compat; lra).
  rewrite (fdiv_nonzero _ (IZR width)) by lra. cbn [Py.bind].
  rewrite (fdiv_nonzero _ (IZR height)) by lra. cbn [Py.bind].
  rewrite !(fdiv_nonzero _ ((img_east - img_west) / IZR width)) by lra.
  cbn [Py.bind].
  rewrite !(fdiv_nonzero _ ((img_north - img_south) / IZR height)) by lra.
  cbn [Py.bind].
  do 4 eexists. split; [reflexivity|]. split; [reflexivity|].
  pose proof (int_le _ _
                (div_le_compat (tgt_west - img_west) (tgt_east - img_west)
                   _ Hlpp ltac:(lra))) as Hx.
  pose proof (int_le _ _
                (div_le_compat (img_north - tgt_north) (img_north - tgt_south)
                   _ Hlpp' ltac:(lra))) as Hy.
  apply lt_IZR in Hw, Hh. cbn [fst snd]. lia.
Qed.

Lemma crop_to_bounds_within_witness :
  ((0 < (PIL.size Sample.white).1)%Z /\ (0 < (PIL.size Sample.white).2)%Z
   /\ 0 < 4 /\ 0 < 4 /\ 1 <= 2 /\ 1 <= 3)
  /\ exists l t r b : Z,
       Merger.crop_to_bounds_box (PIL.size Sample.white) (4, 0, 4, 0)
         (3, 1, 2, 1) = inr (l, t, r, b)
       /\ Merger.crop_to_bounds Sample.white (4, 0, 4, 0) (3, 1, 2, 1)
          = inr (PIL.crop Sample.white (l, t, r, b))
       /\ (0 <= l <= r)%Z /\ (r <= (PIL.size Sample.white).1)%Z
       /\ (0 <= t <= b)%Z /\ (b <= (PIL.size Sample.white).2)%Z.
Proof.
  split.
  - cbn. repeat split; try lia; lra.
  - apply (crop_to_bounds_within Sample.white 4 0 4 0 3 1 2 1);
      cbn; try lia; lra.
Defined.

(** X22. The computation of the crop rectangle in [crop_to_bounds]
    (everything before the call of [image.crop]) raises only
    [ZeroDivisionError], and raises it exactly when the image has width 0
    or height 0, or when the bounds of the image are degenerate
    ([east = west] or [north = south]); the target bounds play no part in
    it. *)
Theorem crop_to_bounds_zero_division (image : PIL.Image)
    (img_north img_south img_east img_west : R)
    (target_bounds : R * R * R * R) :
  let run :=
    Merger.crop_to_bounds_box (PIL.size image)
      (img_north, img_south, img_east, img_west) target_bounds in
  (run = inl Py.ZeroDivisionError
   <-> (PIL.size image).1 = 0%Z \/ (PIL.size image).2 = 0%Z
       \/ img_east = img_west \/ img_north = img_south)
  /\ (forall e, run = inl e -> e = Py.ZeroDivisionError)
  /\ (run = inl Py.ZeroDivisionError ->
      Merger.crop_to_bounds image (img_north, img_south, img_east, img_west)
        target_bounds = inl Py.ZeroDivisionError).
Proof.
  intros run.
  assert (Hbox :
    (run = inl Py.ZeroDivisionError
     <-> (PIL.size image).1 = 0%Z \/ (PIL.size image).2 = 0%Z
         \/ img_east = img_west \/ img_north = img_south)
    /\ forall e, run = inl e -> e = Py.ZeroDivisionError).
  { subst run. unfold Merger.crop_to_bounds_box.
    destruct target_bounds as [[[tgt_north tgt_south] tgt_east] tgt_west].
    destruct (PIL.size image) as [width height]. cbn [fst snd].
    destruct (Z.eq_dec width 0%Z) as [->|Hw].
    { rewrite fdiv_zero. cbn [Py.bind].
      split; [split; [auto | reflexivity] | now intros e [= <-]]. }
    assert (Hw' : IZR width <> 0) by (intros H; apply eq_IZR in H; lia).
    rewrite (fdiv_nonzero _ (IZR width)) by exact Hw'. cbn [Py.bind].
    destruct (Z.eq_dec height 0%Z) as [->|Hh].
    { rewrite fdiv_zero. cbn [Py.bind].
      split; [split; [auto | reflexivity] | now intros e [= <-]]. }
    assert (Hh' : IZR height <> 0) by (intros H; apply eq_IZR in H; lia).
    rewrite (fdiv_nonzero _ (IZR height)) by exact Hh'. cbn [Py.bind].
    destruct (Req_EM_T img_east img_west) as [->|Hlng].
    { replace ((img_west - img_west) / IZR width) with 0
        by (unfold Rdiv; ring).
      rewrite fdiv_zero. cbn [Py.bind].
      split; [split; [auto | reflexivity] | now intros e [= <-]]. }
    assert (Hlpp : (img_east - img_west) / IZR width <> 0)
      by (apply div_nonzero; [lra | exact Hw']).
    rewrite !(fdiv_nonzero _ ((img_east - img_west) / IZR width))
      by exact Hlpp.
    cbn [Py.bind].
    destruct (Req_EM_T img_north img_south) as [->|Hlat].
    { replace ((img_south - img_south) / IZR height) with 0
        by (unfold Rdiv; ring).
      rewrite fdiv_zero. cbn [Py.bind].
      split; [split; [auto | reflexivity] | now intros e [= <-]]. }
    assert (Hlpp' : (img_north - img_south) / IZR height <> 0)
      by (apply div_nonzero; [lra | exact Hh']).
    rewrite !(fdiv_nonzero _ ((img_north - img_south) / IZR height))
      by exact Hlpp'.
    cbn [Py.bind].
    split; [|discriminate].
    split; [discriminate|]. intros [?|[?|[?|?]]]; congruence || lia. }
  destruct Hbox as [Hiff Honly]. split; [exact Hiff|]. split; [exact Honly|].
  intros Hrun. unfold Merger.crop_to_bounds. fold run. now rewrite Hrun.
Qed.

End CropToBounds.

(** ** mask_image_by_polygon *)

Section Mask.

Local Open Scope R_scope.

Lemma polygon_pixels_ok (size : Z * Z) (polygon : list Models.PolygonCoord)
    (img_north img_south img_east img_west : R) :
  img_east <> img_west -> img_north <> img_south ->
  Merger.polygon_pixels size polygon
    (img_north, img_south, img_east, img_west)
  = inr (map (Spec.vertex_pixel size (img_north, img_south, img_east, img_west))
           polygon).
Proof.
  intros Hlng Hlat. unfold Merger.polygon_pixels.
  destruct size as [width height].
  assert (Hloop : forall pixels : list (Z * Z),
    Py.for_each polygon pixels (fun pixels point =>
      let! fx := Py.fdiv (Models.lng point - img_west)
                   (img_east - img_west) in
      let x := Py.int (fx * IZR width) in
      let! fy := Py.fdiv (img_north - Models.lat point)
                   (img_north - img_south) in
      let y := Py.int (fy * IZR height) in
      inr (pixels ++ [(x, y)]))
    = inr (pixels
             ++ map (Spec.vertex_pixel (width, height)
                       (img_north, img_south, img_east, img_west))
                  polygon)).
  { induction polygon as [|point polygon IH]; intros pixels;
      cbn [Py.for_each map].
    - now rewrite app_nil_r.
    - rewrite !fdiv_nonzero by lra. cbn [Py.bind].
      rewrite IH, <- app_assoc. reflexivity. }
  apply (Hloop []).
Qed.

Lemma polygon_pixels_degenerate (size : Z * Z) (point : Models.PolygonCoord)
    (polygon : list Models.PolygonCoord)
    (img_north img_south img_east img_west : R) :
  img_east = img_west \/ img_north = img_south ->
  Merger.polygon_pixels size (point :: polygon)
    (img_north, img_south, img_east, img_west)
  = inl Py.ZeroDivisionError.
Proof.
  intros Hdeg. unfold Merger.polygon_pixels. destruct size as [width height].
  cbn [Py.for_each].
  destruct (Req_EM_T img_east img_west) as [->|Hlng].
  - replace (img_west - img_west) with 0 by ring. now rewrite fdiv_zero.
  - destruct Hdeg as [? | ->]; [contradiction|].
    rewrite fdiv_nonzero by lra. cbn [Py.bind].
    replace (img_south - img_south) with 0 by ring. now rewrite fdiv_zero.
Qed.

End Mask.

(** X23. [mask_image_by_polygon] raises [ZeroDivisionError] exactly when
    the polygon has at least one vertex and the bounds of the image are
    degenerate ([east = west] or [north = south]). Whenever it returns,
    the result is an RGBA image of the size of the input; and for a
    polygon of fewer than three vertices (and bounds that are not
    degenerate) the result is the input image itself, converted to RGBA
    when it was not RGBA already, with no mask applied. *)
Theorem mask_image_by_polygon_result {DRAW : PIL.Masking}
    (image : PIL.Image) (polygon : list Models.PolygonCoord)
    (img_north img_south img_east img_west : R) :
  let run :=
    Merger.mask_image_by_polygon image polygon
      (img_north, img_south, img_east, img_west) in
  (run = inl Py.ZeroDivisionError
   <-> polygon <> [] /\ (img_east = img_west \/ img_north = img_south))
  /\ (forall masked, run = inr masked ->
        PIL.mode masked = PIL.RGBA /\ PIL.size masked = PIL.size image)
  /\ ((length polygon < 3)%nat ->
      img_east <> img_west -> img_north <> img_south ->
      run = inr (if PIL.Mode_eqb (PIL.mode image) PIL.RGBA then image
                 else PIL.convert image PIL.RGBA)).
Proof.
  intros run. subst run. unfold Merger.mask_image_by_polygon.
  set (rgba := if PIL.Mode_eqb (PIL.mode image) PIL.RGBA then image
               else PIL.convert image PIL.RGBA).
  assert (Hrgba : PIL.mode rgba = PIL.RGBA /\ PIL.size rgba = PIL.size image).
  { subst rgba. destruct (PIL.Mode_eqb (PIL.mode image) PIL.RGBA) eqn:E;
      [|split; reflexivity].
    split; [|reflexivity]. now destruct (PIL.mode image). }
  destruct Hrgba as [Hmode Hsize].
  assert (Hreturns : forall pixels masked,
    (if (Z.of_nat (length pixels) <? 3)%Z then inr rgba
     else
       let! mask := PIL.new PIL.L (PIL.size rgba) (0, 0, 0)%Z in
       let mask := PIL.polygon mask pixels 255 in
       let! result := PIL.new PIL.RGBA (PIL.size rgba) (0, 0, 0)%Z in
       inr (PIL.paste_mask result rgba (0, 0)%Z mask)) = inr masked ->
    PIL.mode masked = PIL.RGBA /\ PIL.size masked = PIL.size image).
  { intros pixels masked.
    destruct (Z.of_nat (length pixels) <? 3)%Z.
    - intros [= <-]. now split.
    - unfold PIL.new. destruct (PIL.size rgba) as [width height] eqn:Hs.
      destruct ((width <? 0) || (height <? 0))%Z; cbn [Py.bind];
        [discriminate|].
      intros [= <-].
      rewrite PIL.paste_mask_mode, PIL.paste_mask_size. cbn.
      split; [reflexivity | congruence]. }
  assert (Hnever : forall pixels,
    (if (Z.of_nat (length pixels) <? 3)%Z then inr rgba
     else
       let! mask := PIL.new PIL.L (PIL.size rgba) (0, 0, 0)%Z in
       let mask := PIL.polygon mask pixels 255 in
       let! result := PIL.new PIL.RGBA (PIL.size rgba) (0, 0, 0)%Z in
       inr (PIL.paste_mask result rgba (0, 0)%Z mask))
    <> inl Py.ZeroDivisionError).
  { intros pixels.
    destruct (Z.of_nat (length pixels) <? 3)%Z; [discriminate|].
    unfold PIL.new. destruct (PIL.size rgba) as [width height].
    destruct ((width <? 0) || (height <? 0))%Z; cbn [Py.bind];
      discriminate. }
  destruct polygon as [|point polygon].
  { assert (Hnil : Merger.polygon_pixels (PIL.size rgba) []
                     (img_north, img_south, img_east, img_west) = inr []).
    { unfold Merger.polygon_pixels. now destruct (PIL.size rgba). }
    rewrite Hnil. cbn [Py.bind length Z.of_nat Z.ltb Z.compare].
    split; [split; [discriminate | intros [H _]; contradiction]|].
    split; [intros masked [= <-]; split; assumption | reflexivity]. }
  destruct (Req_EM_T img_east img_west) as [Hlng|Hlng];
    [|destruct (Req_EM_T img_north img_south) as [Hlat|Hlat]].
  - rewrite polygon_pixels_degenerate by auto. cbn [Py.bind].
    split; [split; [intros _; split; [discriminate | auto] | reflexivity]|].
    split; [discriminate | intros _ ? ?; contradiction].
  - rewrite polygon_pixels_degenerate by auto. cbn [Py.bind].
    split; [split; [intros _; split; [discriminate | auto] | reflexivity]|].
    split; [discriminate | intros _ ? ?; contradiction].
  - rewrite polygon_pixels_ok by assumption. cbn [Py.bind].
    split; [|split].
    + split; [intros H; now apply Hnever in H|].
      intros [_ [?|?]]; contradiction.
    + apply Hreturns.
    + intros Hlen _ _. rewrite length_map.
      destruct (Z.ltb_spec (Z.of_nat (length (point :: polygon))) 3);
        [reflexivity | lia].
Qed.

Section MaskPixels.

Local Open Scope R_scope.

(** X24. For an image of non-negative width and height with bounds
    [west < east] and [south < north], [mask_image_by_polygon] gives every
    vertex of the polygon one pixel, and the pixel of a vertex that lies
    inside the bounds of the image lies inside the image rectangle:
    [0 <= x <= width] and [0 <= y <= height]. *)
Theorem polygon_pixels_inside (width height : Z)
    (polygon : list Models.PolygonCoord)
    (img_north img_south img_east img_west : R) :
  (0 <= width)%Z -> (0 <= height)%Z ->
  img_west < img_east -> img_south < img_north ->
  Forall (fun point =>
            img_south <= Models.lat point <= img_north
            /\ img_west <= Models.lng point <= img_east) polygon ->
  exists pixels,
    Merger.polygon_pixels (width, height) polygon
      (img_north, img_south, img_east, img_west) = inr pixels
    /\ length pixels = length polygon
    /\ Forall (fun pixel =>
                 (0 <= pixel.1 <= width)%Z /\ (0 <= pixel.2 <= height)%Z)
         pixels.
Proof.
  intros Hw Hh Hlng Hlat Hinside.
  rewrite polygon_pixels_ok by lra.
  eexists. split; [reflexivity|]. split; [apply length_map|].
  apply Forall_fmap. eapply Forall_impl; [exact Hinside|].
  intros point [Hplat Hplng]. cbn [Spec.vertex_pixel fst snd].
  apply IZR_le in Hw, Hh.
  assert (Hunit : forall a b : R, 0 < b -> 0 <= a <= b -> 0 <= a / b <= 1).
  { intros a b Hb Ha. split.
    - apply Rmult_le_pos; [lra|]. left. now apply Rinv_0_lt_compat.
    - apply (Rmult_le_reg_r b); [exact Hb|].
      replace (a / b * b) with a by (field; lra). lra. }
  assert (Hscale : forall (q : R) (n : Z),
            0 <= IZR n -> 0 <= q <= 1 -> (0 <= Py.int (q * IZR n) <= n)%Z).
  { intros q n Hn Hq.
    destruct (int_nonneg (q * IZR n) ltac:(nra)) as [H0 [Hlo _]].
    split; [exact H0|]. apply le_IZR. nra. }
  split; apply Hscale; try assumption; apply Hunit; lra.
Qed.

Lemma polygon_pixels_inside_witness :
  ((0 <= 256)%Z /\ (0 <= 256)%Z /\ 0 < 1 /\ 0 < 1
   /\ Forall (fun point =>
                0 <= Models.lat point <= 1 /\ 0 <= Models.lng point <= 1)
        Sample.triangle)
  /\ exists pixels,
       Merger.polygon_pixels (256, 256)%Z Sample.triangle (1, 0, 1, 0)
       = inr pixels
       /\ length pixels = length Sample.triangle
       /\ Forall (fun pixel =>
                    (0 <= pixel.1 <= 256)%Z /\ (0 <= pixel.2 <= 256)%Z)
            pixels.
Proof.
  assert (Hin : Forall (fun point =>
                  0 <= Models.lat point <= 1 /\ 0 <= Models.lng point <= 1)
                  Sample.triangle).
  { unfold Sample.triangle, Sample.vertex.
    repeat (constructor; [cbn; lra|]). constructor. }
  split.
  - split; [lia|]. split; [lia|]. split; [lra|]. split; [lra | exact Hin].
  - apply (polygon_pixels_inside 256 256 Sample.triangle 1 0 1 0);
      [lia | lia | lra | lra | exact Hin].
Defined.

End MaskPixels.

(** * Further properties of the export *)

Lemma read_back_written (content_type path : string)
    (data : Exporter.bytes) (fs : Exporter.FS) :
  let written :=
    match Exporter.write_file path data fs with
    | (inl e, fs') => (inl e, fs')
    | (inr _, fs') => (inr path, fs')
    end in
  (Exporter.writable fs path = true ->
   Exporter.read_back content_type written
   = (inr (data, content_type),
      {| Exporter.files := <[path := data]> (Exporter.files fs);
         Exporter.writable := Exporter.writable fs |}))
  /\ (Exporter.writable fs path = false ->
      Exporter.read_back content_type written = (inl (Py.OSError path), fs)).
Proof.
  cbv zeta. unfold Exporter.write_file, Exporter.read_back.
  destruct (Exporter.writable fs path); split; try discriminate; intros _.
  - unfold Exporter.read_file. cbn [Exporter.files].
    now rewrite lookup_insert_eq.
  - reflexivity.
Qed.

(** X25. Called without an output path, as the download endpoint calls
    it, [export_image] accepts exactly the formats that the endpoint's
    validation accepts: it returns bytes and a content type when the
    lower-cased format is one of geotiff, png, jpeg and jpg, and raises
    [ValueError] for every other format. It never touches the files, and
    an empty output path is treated as no path. *)
Theorem export_image_accepts_validated_formats (B : Exporter.Backend)
    (image : PIL.Image) (bounds : Tile.TileBounds) (format : string)
    (fs : Exporter.FS) :
  let out := Exporter.export_image B image bounds format None fs in
  let accepted :=
    Api.in_list (Py.lower format) ["geotiff"; "png"; "jpeg"; "jpg"] in
  (accepted = true <-> exists data content_type,
                         Exporter.result out = inr (data, content_type))
  /\ (accepted = false
      <-> Exporter.result out
          = inl (Py.ValueError
                   ("Unsupported format: " +:+ Py.lower format
                      +:+ ". Supported: geotiff, png, jpeg")))
  /\ Exporter.disk out = fs
  /\ Exporter.export_image B image bounds format (Some "") fs = out.
Proof.
  cbv zeta. unfold Exporter.export_image, Api.in_list.
  cbn [existsb Exporter.given].
  destruct (String.eqb (Py.lower format) "geotiff");
    [|destruct (String.eqb (Py.lower format) "png");
      [|destruct (String.eqb (Py.lower format) "jpeg");
        [|destruct (String.eqb (Py.lower format) "jpg")]]];
    cbn [orb].
  - destruct (Exporter.export_geotiff_bytes B image bounds "EPSG:4326");
      cbn [Py.bind Exporter.result Exporter.disk].
    all: split; [split; [eauto | reflexivity]|].
    all: split; [split; discriminate|]. all: split; reflexivity.
  - cbn [Exporter.result Exporter.disk].
    split; [split; [eauto | reflexivity]|].
    split; [split; discriminate|]. split; reflexivity.
  - cbn [Exporter.result Exporter.disk].
    split; [split; [eauto | reflexivity]|].
    split; [split; discriminate|]. split; reflexivity.
  - cbn [Exporter.result Exporter.disk].
    split; [split; [eauto | reflexivity]|].
    split; [split; discriminate|]. split; reflexivity.
  - cbn [Exporter.result Exporter.disk].
    split; [split; [discriminate | intros (? & ? & ?); discriminate]|].
    split; [split; reflexivity|]. split; reflexivity.
Qed.

(** X26. Called with a non-empty output path, [export_image] returns
    what it wrote: whenever it returns bytes without having fallen back
    to PNG (nothing printed), the file at the output path holds exactly
    the returned bytes afterwards. For png and jpeg/jpg nothing is caught:
    when the path cannot be written, the error is raised to the caller. *)
Theorem export_image_returns_file_content (B : Exporter.Backend)
    (image : PIL.Image) (bounds : Tile.TileBounds) (format path : string)
    (fs : Exporter.FS) :
  path <> "" ->
  let out := Exporter.export_image B image bounds format (Some path) fs in
  (forall data content_type,
     Exporter.result out = inr (data, content_type) ->
     Exporter.printed out = [] ->
     Exporter.files (Exporter.disk out) !! path = Some data)
  /\ (Py.lower format <> "geotiff" ->
      Exporter.writable fs path = false ->
      exists e, Exporter.result out = inl e).
Proof.
  intros Hpath out. subst out. unfold Exporter.export_image.
  assert (Hgiven : Exporter.given (Some path) = Some path)
    by (destruct path; [contradiction | reflexivity]).
  rewrite Hgiven.
  destruct (String.eqb_spec (Py.lower format) "geotiff") as [Hg|Hg].
  { split; [|contradiction].
    unfold Exporter.export_geotiff.
    destruct (negb (Exporter.RASTERIO_AVAILABLE B)).
    { cbn. intros data ct _ Hp. discriminate. }
    destruct (Exporter.gtiff_encode B image bounds "EPSG:4326")
      as [e|encoded].
    { cbn. intros data ct _ Hp. discriminate. }
    destruct (read_back_written "image/tiff" path encoded fs) as [Hok Hno].
    cbv zeta in Hok, Hno.
    destruct (Exporter.writable fs path).
    - rewrite (Hok eq_refl). cbn [Exporter.result Exporter.disk
                                   Exporter.printed Exporter.files].
      intros data ct [= <- <-] _. apply lookup_insert_eq.
    - rewrite (Hno eq_refl). cbn. intros data ct _ Hp. discriminate. }
  destruct (String.eqb (Py.lower format) "png").
  { unfold Exporter.export_png.
    destruct (read_back_written "image/png" path
                (Exporter.png_encode B image) fs) as [Hok Hno].
    cbv zeta in Hok, Hno.
    destruct (Exporter.writable fs path).
    - rewrite (Hok eq_refl). cbn [Exporter.result Exporter.disk
                                   Exporter.printed Exporter.files].
      split; [|discriminate].
      intros data ct [= <- <-] _. apply lookup_insert_eq.
    - rewrite (Hno eq_refl). cbn. split; [discriminate | eauto]. }
  destruct (String.eqb (Py.lower format) "jpeg"
            || String.eqb (Py.lower format) "jpg").
  { unfold Exporter.export_jpeg.
    destruct (read_back_written "image/jpeg" path
                (Exporter.jpeg_encode B (Exporter.to_rgb image) 90) fs)
      as [Hok Hno].
    cbv zeta in Hok, Hno.
    destruct (Exporter.writable fs path).
    - rewrite (Hok eq_refl). cbn [Exporter.result Exporter.disk
                                   Exporter.printed Exporter.files].
      split; [|discriminate].
      intros data ct [= <- <-] _. apply lookup_insert_eq.
    - rewrite (Hno eq_refl). cbn. split; [discriminate | eauto]. }
  cbn. split; [discriminate | eauto].
Qed.

Lemma export_image_returns_file_content_witness :
  "out.png" <> ""
  /\ let out :=
       Exporter.export_image Sample.no_rasterio Sample.white
         Sample.unit_bounds "PNG" (Some "out.png") Sample.empty_disk in
     (forall data content_type,
        Exporter.result out = inr (data, content_type) ->
        Exporter.printed out = [] ->
        Exporter.files (Exporter.disk out) !! "out.png" = Some data)
     /\ (Py.lower "PNG" <> "geotiff" ->
         Exporter.writable Sample.empty_disk "out.png" = false ->
         exists e, Exporter.result out = inl e).
Proof.
  split; [discriminate|].
  apply (export_image_returns_file_content Sample.no_rasterio Sample.white
           Sample.unit_bounds "PNG" "out.png" Sample.empty_disk).
  discriminate.
Defined.

(** * Further properties of the endpoints *)

Section Endpoints.

Local Open Scope R_scope.

Lemma max_list_spec (first : R) (others : list R) :
  In (Api.max_list first others) (first :: others)
  /\ forall v, In v (first :: others) -> v <= Api.max_list first others.
Proof.
  unfold Api.max_list. revert first.
  induction others as [|o others IH]; intros first; cbn [fold_left].
  - split; [now left|]. intros v [<-|[]]. lra.
  - destruct (IH (Rmax first o)) as [Hin Hle]. split.
    + destruct Hin as [Heq|Hin]; [|right; now right].
      rewrite <- Heq. unfold Rmax. destruct (Rle_dec first o);
        [right; now left | now left].
    + intros v Hv.
      assert (Hm : first <= Rmax first o /\ o <= Rmax first o)
        by (split; [apply Rmax_l | apply Rmax_r]).
      destruct Hv as [->|[->|Hv]].
      * apply Rle_trans with (Rmax v o); [tauto|]. apply Hle. now left.
      * apply Rle_trans with (Rmax first v); [tauto|]. apply Hle. now left.
      * apply Hle. now right.
Qed.

Lemma min_list_spec (first : R) (others : list R) :
  In (Api.min_list first others) (first :: others)
  /\ forall v, In v (first :: others) -> Api.min_list first others <= v.
Proof.
  unfold Api.min_list. revert first.
  induction others as [|o others IH]; intros first; cbn [fold_left].
  - split; [now left|]. intros v [<-|[]]. lra.
  - destruct (IH (Rmin first o)) as [Hin Hle]. split.
    + destruct Hin as [Heq|Hin]; [|right; now right].
      rewrite <- Heq. unfold Rmin. destruct (Rle_dec first o);
        [now left | right; now left].
    + intros v Hv.
      assert (Hm : Rmin first o <= first /\ Rmin first o <= o)
        by (split; [apply Rmin_l | apply Rmin_r]).
      destruct Hv as [->|[->|Hv]].
      * apply Rle_trans with (Rmin v o); [|tauto]. apply Hle. now left.
      * apply Rle_trans with (Rmin first v); [|tauto]. apply Hle. now left.
      * apply Hle. now right.
Qed.

(** The bounds that [validate] works with, when it accepts. *)
Lemma validate_bounds (request : Models.DownloadRequest)
    (bounds : Models.Bounds) :
  Api.validate request = inr bounds ->
  match default [] (Models.polygon request) with
  | [] => Models.bounds request = Some bounds
  | p :: ps =>
      bounds
      = {| Models.north := Api.max_list (Models.lat p) (map Models.lat ps);
           Models.south := Api.min_list (Models.lat p) (map Models.lat ps);
           Models.east := Api.max_list (Models.lng p) (map Models.lng ps);
           Models.west := Api.min_list (Models.lng p) (map Models.lng ps) |}
  end.
Proof.
  unfold Api.validate.
  destruct (Models.bounds request) as [b|],
           (default [] (Models.polygon request)) as [|p ps];
    cbn [Py.bind]; try discriminate.
  all: destruct (decide (Models.source request ∈ dom Config.TILE_SOURCES));
    cbn [Py.bind]; [|discriminate].
  all: destruct (Api.in_list _ _); cbn [Py.bind]; [|discriminate].
  all: destruct (_ <? _)%Z; [discriminate|].
  all: now intros [= <-].
Qed.

(** X27. For a request with a non-empty polygon that the download
    endpoint accepts, the bounds it works with are the bounding box of the
    polygon, whatever [bounds] the request also carries: every vertex lies
    inside them, each of the four edges passes through a vertex, and so
    [south <= north] and [west <= east]. *)
Theorem validate_polygon_bounding_box (request : Models.DownloadRequest)
    (vertices : list Models.PolygonCoord) (bounds : Models.Bounds) :
  Models.polygon request = Some vertices -> vertices <> [] ->
  Api.validate request = inr bounds ->
  Forall (fun p =>
            Models.south bounds <= Models.lat p <= Models.north bounds
            /\ Models.west bounds <= Models.lng p <= Models.east bounds)
    vertices
  /\ (exists p, In p vertices /\ Models.lat p = Models.north bounds)
  /\ (exists p, In p vertices /\ Models.lat p = Models.south bounds)
  /\ (exists p, In p vertices /\ Models.lng p = Models.east bounds)
  /\ (exists p, In p vertices /\ Models.lng p = Models.west bounds)
  /\ Models.south bounds <= Models.north bounds
  /\ Models.west bounds <= Models.east bounds.
Proof.
  intros Hpoly Hne Hval. apply validate_bounds in Hval.
  rewrite Hpoly in Hval. destruct vertices as [|p ps]; [contradiction|].
  change (default [] (Some (p :: ps))) with (p :: ps) in Hval.
  cbv beta iota in Hval. subst bounds.
  cbn [Models.north Models.south Models.east Models.west].
  destruct (max_list_spec (Models.lat p) (map Models.lat ps)) as [Hn1 Hn2].
  destruct (min_list_spec (Models.lat p) (map Models.lat ps)) as [Hs1 Hs2].
  destruct (max_list_spec (Models.lng p) (map Models.lng ps)) as [He1 He2].
  destruct (min_list_spec (Models.lng p) (map Models.lng ps)) as [Hw1 Hw2].
  change (Models.lat p :: map Models.lat ps)
    with (map Models.lat (p :: ps)) in *.
  change (Models.lng p :: map Models.lng ps)
    with (map Models.lng (p :: ps)) in *.
  assert (Hlat : forall q, In q (p :: ps) -> In (Models.lat q)
                                               (map Models.lat (p :: ps)))
    by (intros q; apply in_map).
  assert (Hlng : forall q, In q (p :: ps) -> In (Models.lng q)
                                               (map Models.lng (p :: ps)))
    by (intros q; apply in_map).
  split; [|split; [|split; [|split; [|split; [|split]]]]].
  - apply List.Forall_forall. intros q Hq.
    pose proof (Hn2 _ (Hlat q Hq)). pose proof (Hs2 _ (Hlat q Hq)).
    pose proof (He2 _ (Hlng q Hq)). pose proof (Hw2 _ (Hlng q Hq)). lra.
  - apply in_map_iff in Hn1. destruct Hn1 as (q & Hq & Hin). eauto.
  - apply in_map_iff in Hs1. destruct Hs1 as (q & Hq & Hin). eauto.
  - apply in_map_iff in He1. destruct He1 as (q & Hq & Hin). eauto.
  - apply in_map_iff in Hw1. destruct Hw1 as (q & Hq & Hin). eauto.
  - pose proof (Hn2 _ (Hlat p (or_introl eq_refl))).
    pose proof (Hs2 _ (Hlat p (or_introl eq_refl))). lra.
  - pose proof (He2 _ (Hlng p (or_introl eq_refl))).
    pose proof (Hw2 _ (Hlng p (or_introl eq_refl))). lra.
Qed.

End Endpoints.

Section EndpointExamples.

Local Open Scope R_scope.

(** At a zoom of 9 or less, a request with a polygon, a known source and
    a supported format passes the checks of the endpoint. *)
Lemma validate_polygon_small_zoom (request : Models.DownloadRequest)
    (p : Models.PolygonCoord) (ps : list Models.PolygonCoord) :
  Models.polygon request = Some (p :: ps) ->
  Models.source request ∈ dom Config.TILE_SOURCES ->
  Api.in_list (Py.lower (Models.format request))
    ["geotiff"; "png"; "jpeg"; "jpg"] = true ->
  (0 <= Models.zoom request <= 9)%Z ->
  Api.validate request
  = inr {| Models.north := Api.max_list (Models.lat p) (map Models.lat ps);
           Models.south := Api.min_list (Models.lat p) (map Models.lat ps);
           Models.east := Api.max_list (Models.lng p) (map Models.lng ps);
           Models.west := Api.min_list (Models.lng p) (map Models.lng ps) |}.
Proof.
  intros Hp Hs Hf Hz. unfold Api.validate. rewrite Hp.
  change (default [] (Some (p :: ps))) with (p :: ps).
  destruct (Models.bounds request); cbn [Py.bind].
  all: destruct (decide _) as [_|Hn]; [|contradiction].
  all: cbn [Py.bind]; rewrite Hf; cbn [Py.bind].
  all: cbn [Models.north Models.south Models.east Models.west].
  all: match goal with
       | |- context [Tile.estimate_tile_count ?n ?s ?e ?w ?z] =>
           pose proof (estimate_tile_count_small_zoom n s e w z Hz) as Hle;
           destruct (Z.ltb_spec Api.max_tiles
                       (Tile.estimate_tile_count n s e w z));
           [lia | reflexivity]
       end.
Qed.

End EndpointExamples.

Lemma validate_polygon_bounding_box_witness :
  let request :=
    {| Models.bounds := None; Models.polygon := Some Sample.triangle;
       Models.zoom := 5; Models.source := "osm"; Models.format := "png";
       Models.crop_to_shape := true; Models.proxy := None |} in
  let bounds :=
    {| Models.north := Api.max_list 0 [1; 0]%R;
       Models.south := Api.min_list 0 [1; 0]%R;
       Models.east := Api.max_list 0 [0; 1]%R;
       Models.west := Api.min_list 0 [0; 1]%R |} in
  (Models.polygon request = Some Sample.triangle /\ Sample.triangle <> []
   /\ Api.validate request = inr bounds)
  /\ Forall (fun p =>
               (Models.south bounds <= Models.lat p <= Models.north bounds
                /\ Models.west bounds <= Models.lng p
                   <= Models.east bounds)%R)
       Sample.triangle
  /\ (exists p, In p Sample.triangle
                /\ Models.lat p = Models.north bounds)
  /\ (exists p, In p Sample.triangle
                /\ Models.lat p = Models.south bounds)
  /\ (exists p, In p Sample.triangle
                /\ Models.lng p = Models.east bounds)
  /\ (exists p, In p Sample.triangle
                /\ Models.lng p = Models.west bounds)
  /\ (Models.south bounds <= Models.north bounds)%R
  /\ (Models.west bounds <= Models.east bounds)%R.
Proof.
  intros request bounds.
  assert (Hval : Api.validate request = inr bounds).
  { apply (validate_polygon_small_zoom request (Sample.vertex 0 0)
             [Sample.vertex 1 0; Sample.vertex 0 1]).
    - reflexivity.
    - apply elem_of_dom. eexists. reflexivity.
    - reflexivity.
    - cbn. lia. }
  split.
  - split; [reflexivity|]. split; [discriminate | exact Hval].
  - apply (validate_polygon_bounding_box request Sample.triangle bounds);
      [reflexivity | discriminate | exact Hval].
Defined.

(** ** [/estimate] and [/download_with_progress] against [/download] *)

Lemma round2_nearest (q : Q) :
  (exists k : Z, Api.round2 q = (inject_Z k / 100)%Q)
  /\ (q - (1 # 200) <= Api.round2 q <= q + (1 # 200))%Q.
Proof.
  split; [unfold Api.round2; eexists; reflexivity|].
  unfold Api.round2.
  assert (Hq : (q == (q * 100) * (1 # 100))%Q) by field.
  revert Hq. generalize (q * 100)%Q. intros t Hq.
  pose proof (Qfloor_le t) as Hlo. pose proof (Qlt_floor t) as Hhi.
  rewrite inject_Z_plus in Hhi. change (inject_Z 1) with 1%Q in Hhi.
  cbv zeta. generalize dependent (Qfloor t). intros f Hlo Hhi.
  unfold Qdiv. change (/ 100)%Q with (1 # 100)%Q.
  destruct (Qcompare_spec (t - inject_Z f) (1 # 2)) as [He|Hl|Hg].
  - destruct (Z.even f).
    + Lqa.lra.
    + rewrite inject_Z_plus. change (inject_Z 1) with 1%Q. Lqa.lra.
  - Lqa.lra.
  - rewrite inject_Z_plus. change (inject_Z 1) with 1%Q. Lqa.lra.
Qed.

(** What [validate] answers for a request with bounds and no polygon, a
    known source and a supported format. *)
Lemma validate_by_count (request : Models.DownloadRequest)
    (b : Models.Bounds) :
  Models.bounds request = Some b ->
  default [] (Models.polygon request) = [] ->
  Models.source request ∈ dom Config.TILE_SOURCES ->
  Api.in_list (Py.lower (Models.format request))
    ["geotiff"; "png"; "jpeg"; "jpg"] = true ->
  let count :=
    Tile.estimate_tile_count (Models.north b) (Models.south b)
      (Models.east b) (Models.west b) (Models.zoom request) in
  ((count <= 1000000)%Z -> Api.validate request = inr b)
  /\ ((1000000 < count)%Z ->
      exists detail,
        Api.validate request = inl (Py.HTTPException 400 detail)).
Proof.
  intros Hb Hp Hs Hf count. subst count. unfold Api.validate.
  rewrite Hb, Hp. cbn [Py.bind].
  destruct (decide _) as [_|Hn]; [|contradiction].
  cbn [Py.bind]. rewrite Hf. cbn [Py.bind]. unfold Api.max_tiles.
  destruct (Z.ltb_spec 1000000
              (Tile.estimate_tile_count (Models.north b) (Models.south b)
                 (Models.east b) (Models.west b) (Models.zoom request))).
  - split; [lia | eauto].
  - split; [reflexivity | lia].
Qed.

(** X28. For a request with bounds, [estimate_download] answers with the
    count of [estimate_tile_count] for these bounds, with a size estimate
    that is a multiple of 0.01 within 0.005 of [count * 20 / 1024], and
    with [allowed] true exactly when the count is at most one million (a
    warning is attached exactly when it is not). When the request has no
    polygon, a known source and a supported format, the estimate and the
    download endpoint agree: the download's checks accept the request
    exactly when the estimate said [allowed]. *)
Theorem estimate_download_agrees (request : Models.DownloadRequest)
    (b : Models.Bounds) :
  Models.bounds request = Some b ->
  let count :=
    Tile.estimate_tile_count (Models.north b) (Models.south b)
      (Models.east b) (Models.west b) (Models.zoom request) in
  exists est,
    Api.estimate_download request = inr est
    /\ Api.tile_count est = count
    /\ (Api.allowed est = true <-> (count <= 1000000)%Z)
    /\ (Api.warning est = None <-> Api.allowed est = true)
    /\ (exists k : Z, Api.estimated_size_mb est = (inject_Z k / 100)%Q)
    /\ (inject_Z (count * 20) / 1024 - (1 # 200)
        <= Api.estimated_size_mb est
        <= inject_Z (count * 20) / 1024 + (1 # 200))%Q
    /\ (default [] (Models.polygon request) = [] ->
        Models.source request ∈ dom Config.TILE_SOURCES ->
        Api.in_list (Py.lower (Models.format request))
          ["geotiff"; "png"; "jpeg"; "jpg"] = true ->
        (Api.allowed est = true -> Api.validate request = inr b)
        /\ (Api.allowed est = false ->
            exists detail,
              Api.validate request = inl (Py.HTTPException 400 detail))).
Proof.
  intros Hb count. unfold Api.estimate_download. rewrite Hb. fold count.
  destruct (round2_nearest (inject_Z (count * 20) / 1024)) as [Hk Hnear].
  destruct (Z.ltb_spec 1000000 count) as [Hbig|Hfit];
    eexists; (split; [reflexivity|]);
    cbn [Api.tile_count Api.allowed Api.warning Api.estimated_size_mb].
  - split; [reflexivity|]. split; [split; [discriminate | lia]|].
    split; [split; discriminate|]. split; [exact Hk|].
    split; [exact Hnear|]. intros Hp Hs Hf.
    destruct (validate_by_count request b Hb Hp Hs Hf) as [_ Hno].
    split; [discriminate|]. intros _. now apply Hno.
  - split; [reflexivity|]. split; [split; [lia | reflexivity]|].
    split; [split; reflexivity|]. split; [exact Hk|].
    split; [exact Hnear|]. intros Hp Hs Hf.
    destruct (validate_by_count request b Hb Hp Hs Hf) as [Hyes _].
    split; [intros _; now apply Hyes | discriminate].
Qed.

Lemma estimate_download_agrees_witness :
  let b := {| Models.north := 0; Models.south := 0;
              Models.east := 0; Models.west := 10 |} in
  Models.bounds Sample.west_of_east = Some b
  /\ let count :=
       Tile.estimate_tile_count (Models.north b) (Models.south b)
         (Models.east b) (Models.west b) (Models.zoom Sample.west_of_east) in
     exists est,
       Api.estimate_download Sample.west_of_east = inr est
       /\ Api.tile_count est = count
       /\ (Api.allowed est = true <-> (count <= 1000000)%Z)
       /\ (Api.warning est = None <-> Api.allowed est = true)
       /\ (exists k : Z, Api.estimated_size_mb est = (inject_Z k / 100)%Q)
       /\ (inject_Z (count * 20) / 1024 - (1 # 200)
           <= Api.estimated_size_mb est
           <= inject_Z (count * 20) / 1024 + (1 # 200))%Q
       /\ (default [] (Models.polygon Sample.west_of_east) = [] ->
           Models.source Sample.west_of_east ∈ dom Config.TILE_SOURCES ->
           Api.in_list (Py.lower (Models.format Sample.west_of_east))
             ["geotiff"; "png"; "jpeg"; "jpg"] = true ->
           (Api.allowed est = true ->
            Api.validate Sample.west_of_east = inr b)
           /\ (Api.allowed est = false ->
               exists detail,
                 Api.validate Sample.west_of_east
                 = inl (Py.HTTPException 400 detail))).
Proof.
  intros b. split; [reflexivity|].
  apply (estimate_download_agrees Sample.west_of_east b). reflexivity.
Defined.

(** X29. [download_tiles_with_progress] accepts every request that the
    checks of [download_tiles] accept, with the same bounds: it answers
    with the given task identifier and a total equal to the estimated tile
    count, files a pending task with that total under the identifier
    (leaving the other tasks alone), and hands the request and the bounds
    to the background task. It never checks the format: a request that it
    accepts is accepted by [download_tiles] when its format is supported
    and refused with status 400 when it is not. Whatever it refuses, it
    refuses with status 400. *)
Theorem download_with_progress_validation (request : Models.DownloadRequest)
    (uuid4 : string) (store : gmap string Api.Task) :
  let run := Api.download_tiles_with_progress request uuid4 store in
  let supported :=
    Api.in_list (Py.lower (Models.format request))
      ["geotiff"; "png"; "jpeg"; "jpg"] in
  (forall bounds,
     Api.validate request = inr bounds ->
     exists started,
       run = inr started
       /\ Api.task_id started = uuid4
       /\ Api.background started = (uuid4, request, bounds)
       /\ Api.started_total started
          = Tile.estimate_tile_count (Models.north bounds)
              (Models.south bounds) (Models.east bounds)
              (Models.west bounds) (Models.zoom request)
       /\ Api.tasks started !! uuid4
          = Some {| Api.status := "pending"; Api.progress := 0;
                    Api.total := Api.started_total started;
                    Api.completed := 0; Api.failed := None;
                    Api.error := None; Api.filename := None;
                    Api.data := None |}
       /\ forall other, other <> uuid4 ->
            Api.tasks started !! other = store !! other)
  /\ (forall started,
        run = inr started ->
        (supported = true ->
         Api.validate request = inr (Api.background started).2)
        /\ (supported = false ->
            exists detail,
              Api.validate request = inl (Py.HTTPException 400 detail)))
  /\ (forall e, run = inl e ->
        exists detail, e = Py.HTTPException 400 detail).
Proof.
  cbv zeta. unfold Api.download_tiles_with_progress, Api.validate.
  destruct (Models.bounds request) as [b|],
           (default [] (Models.polygon request)) as [|p ps];
    cbn [Py.bind].
  3: { split; [discriminate|]. split; [discriminate|].
       intros e [= <-]. eauto. }
  all: destruct (decide (Models.source request ∈ dom Config.TILE_SOURCES));
    cbn [Py.bind];
    [|split; [discriminate|]; split; [discriminate|];
      intros e [= <-]; eauto].
  all: unfold Api.max_tiles;
    match goal with
    | |- context [(1000000 <? ?c)%Z] => destruct (1000000 <? c)%Z
    end.
  all: destruct (Api.in_list _ _); cbn [Py.bind].
  all: split; [|split].
  all: first
    [ discriminate
    | intros ? [= <-]; eauto; fail
    | intros started [= <-]; cbn [Api.background snd];
      split; [intros _; reflexivity | discriminate]
    | intros started [= <-]; cbn [Api.background snd];
      split; [discriminate | intros _; eauto]
    | intros bounds [= <-]; eexists; split; [reflexivity|];
      cbn [Api.task_id Api.background Api.started_total Api.tasks];
      split; [reflexivity|]; split; [reflexivity|]; split; [reflexivity|];
      split; [apply lookup_insert_eq|];
      intros other Hother; now apply lookup_insert_ne ].
Qed.

(** ** [/download_result] *)

Lemma substring_whole (b : string) : substring 0 (String.length b) b = b.
Proof. induction b as [|c b IH]; cbn; [reflexivity | now rewrite IH]. Qed.

Lemma substring_append_right (a b : string) :
  substring (String.length a) (String.length b) (a +:+ b) = b.
Proof.
  induction a as [|c a IH]; [apply substring_whole|].
  change (String c a +:+ b) with (String c (a +:+ b)). exact IH.
Qed.

Lemma append_length (a b : string) :
  String.length (a +:+ b) = (String.length a + String.length b)%nat.
Proof.
  induction a as [|c a IH]; [reflexivity|].
  change (String c a +:+ b) with (String c (a +:+ b)).
  cbn [String.length Nat.add]. now rewrite IH.
Qed.

Lemma append_assoc (a b c : string) : (a +:+ b) +:+ c = a +:+ (b +:+ c).
Proof.
  induction a as [|x a IH]; [reflexivity|].
  change (String x a +:+ b) with (String x (a +:+ b)).
  change (String x (a +:+ b) +:+ c) with (String x ((a +:+ b) +:+ c)).
  change (String x a +:+ (b +:+ c)) with (String x (a +:+ (b +:+ c))).
  now rewrite IH.
Qed.

(** A name that ends in [ext] ends in another suffix of the same length
    exactly when that suffix is [ext]. *)
Lemma endswith_append (a ext suffix : string) :
  String.length ext = String.length suffix ->
  Py.endswith (a +:+ ext) suffix = String.eqb ext suffix.
Proof.
  intros Hlen. unfold Py.endswith. rewrite append_length, <- Hlen.
  replace (String.length a + String.length ext - String.length ext)%nat
    with (String.length a) by lia.
  rewrite substring_append_right.
  destruct (Nat.leb_spec (String.length ext)
              (String.length a + String.length ext)); [reflexivity | lia].
Qed.

Lemma get_file_extension_cases (format : string) :
  let ext := Exporter.get_file_extension format in
  (ext = ".tif" /\ Py.lower format <> "png" /\ Py.lower format <> "jpeg"
   /\ Py.lower format <> "jpg")
  \/ (ext = ".png" /\ Py.lower format = "png")
  \/ (ext = ".jpg" /\ (Py.lower format = "jpeg" \/ Py.lower format = "jpg")).
Proof.
  cbv zeta. unfold Exporter.get_file_extension.
  destruct (String.eqb_spec (Py.lower format) "geotiff") as [->|H1].
  { left. repeat split; discriminate. }
  destruct (String.eqb_spec (Py.lower format) "tiff") as [->|H2].
  { left. repeat split; discriminate. }
  destruct (String.eqb_spec (Py.lower format) "tif") as [->|H3].
  { left. repeat split; discriminate. }
  cbn [orb].
  destruct (String.eqb_spec (Py.lower format) "png") as [H4|H4].
  { right. left. now split. }
  destruct (String.eqb_spec (Py.lower format) "jpeg") as [H5|H5].
  { right. right. split; [reflexivity | now left]. }
  destruct (String.eqb_spec (Py.lower format) "jpg") as [H6|H6].
  { right. right. split; [reflexivity | now right]. }
  left. cbn [orb]. repeat split; assumption.
Qed.

(** X30. For a completed task whose data is not empty and whose file
    name was formed as the download tasks form it, "map_<time>_z<zoom>"
    followed by [get_file_extension] of the requested format,
    [get_download_result] returns the stored bytes with their length, and
    the content type it derives from the name is "image/png" for the
    format png, "image/jpeg" for jpeg and jpg, and "image/tiff" for every
    other format. This is the content type that [export_image] reports for
    the format whenever it exports without falling back to PNG. *)
Theorem get_download_result_content_type (store : gmap string Api.Task)
    (task_id : string) (task : Api.Task) (timestamp : string) (zoom : Z)
    (format : string) (first_byte : ascii) (rest : string) :
  store !! task_id = Some task ->
  Api.status task = "completed" ->
  Api.filename task = Some (Api.task_filename timestamp zoom format) ->
  Api.data task = Some (String first_byte rest) ->
  exists response,
    Api.get_download_result store task_id = inr response
    /\ Api.body response = String first_byte rest
    /\ Api.content_length response
       = Py.str (Z.of_nat (String.length (String first_byte rest)))
    /\ Api.media_type response
       = (if String.eqb (Py.lower format) "png" then "image/png"
          else if String.eqb (Py.lower format) "jpeg"
                  || String.eqb (Py.lower format) "jpg" then "image/jpeg"
          else "image/tiff")
    /\ forall B image bounds fs data content_type,
         let out := Exporter.export_image B image bounds format None fs in
         Exporter.result out = inr (data, content_type) ->
         Exporter.printed out = [] ->
         Api.media_type response = content_type.
Proof.
  intros Hstore Hstatus Hname Hdata.
  assert (Htype :
    (if Py.endswith (Api.task_filename timestamp zoom format) ".tif"
     then "image/tiff"
     else if Py.endswith (Api.task_filename timestamp zoom format) ".png"
          then "image/png" else "image/jpeg")
    = (if String.eqb (Py.lower format) "png" then "image/png"
       else if String.eqb (Py.lower format) "jpeg"
               || String.eqb (Py.lower format) "jpg" then "image/jpeg"
       else "image/tiff")).
  { unfold Api.task_filename. cbv zeta. rewrite <- !append_assoc.
    destruct (get_file_extension_cases format)
      as [(-> & Hp & Hj & Hj')|[(-> & Hp)|(-> & Hj)]]; cbv zeta.
    - rewrite endswith_append by reflexivity. cbn [String.eqb].
      destruct (String.eqb_spec (Py.lower format) "png"); [contradiction|].
      destruct (String.eqb_spec (Py.lower format) "jpeg"); [contradiction|].
      destruct (String.eqb_spec (Py.lower format) "jpg"); [contradiction|].
      reflexivity.
    - rewrite !endswith_append by reflexivity. rewrite Hp. reflexivity.
    - rewrite !endswith_append by reflexivity.
      destruct Hj as [-> | ->]; reflexivity. }
  assert (Hrun :
    Api.get_download_result store task_id
    = inr {| Api.body := String first_byte rest;
             Api.media_type :=
               (if Py.endswith (Api.task_filename timestamp zoom format)
                     ".tif"
                then "image/tiff"
                else if Py.endswith
                          (Api.task_filename timestamp zoom format) ".png"
                     then "image/png" else "image/jpeg");
             Api.content_disposition :=
               "attachment; filename="
                 +:+ Api.task_filename timestamp zoom format;
             Api.content_length :=
               Py.str (Z.of_nat (String.length (String first_byte rest)))
          |}).
  { unfold Api.get_download_result.
    rewrite Hstore, Hstatus, Hname, Hdata. reflexivity. }
  rewrite Htype in Hrun.
  eexists. split; [exact Hrun|].
  cbn [Api.body Api.content_length Api.media_type].
  split; [reflexivity|]. split; [reflexivity|]. split; [reflexivity|].
  intros B image bounds fs data content_type. cbv zeta.
  unfold Exporter.export_image. cbn [Exporter.given].
  destruct (String.eqb_spec (Py.lower format) "geotiff") as [Hg|Hg].
  { rewrite Hg. cbn [String.eqb Ascii.eqb Bool.eqb orb].
    destruct (Exporter.export_geotiff_bytes B image bounds "EPSG:4326");
      cbn [Py.bind Exporter.result Exporter.printed].
    - discriminate.
    - now intros [= _ <-] _. }
  destruct (String.eqb (Py.lower format) "png").
  { cbn [Exporter.result]. now intros [= _ <-] _. }
  destruct (String.eqb (Py.lower format) "jpeg"
            || String.eqb (Py.lower format) "jpg").
  { cbn [Exporter.result]. now intros [= _ <-] _. }
  cbn [Exporter.result]. discriminate.
Qed.

Lemma get_download_result_content_type_witness :
  let store : gmap string Api.Task := {[ "task" := Sample.finished_task ]} in
  (store !! "task" = Some Sample.finished_task
   /\ Api.status Sample.finished_task = "completed"
   /\ Api.filename Sample.finished_task
      = Some (Api.task_filename "20240101_120000" 5 "png")
   /\ Api.data Sample.finished_task = Some "PNG")
  /\ exists response,
       Api.get_download_result store "task" = inr response
       /\ Api.body response = "PNG"
       /\ Api.content_length response
          = Py.str (Z.of_nat (String.length "PNG"))
       /\ Api.media_type response
          = (if String.eqb (Py.lower "png") "png" then "image/png"
             else if String.eqb (Py.lower "png") "jpeg"
                     || String.eqb (Py.lower "png") "jpg" then "image/jpeg"
             else "image/tiff")
       /\ forall B image bounds fs data content_type,
            let out := Exporter.export_image B image bounds "png" None fs in
            Exporter.result out = inr (data, content_type) ->
            Exporter.printed out = [] ->
            Api.media_type response = content_type.
Proof.
  intros store.
  assert (Hstore : store !! "task" = Some Sample.finished_task)
    by apply lookup_singleton_eq.
  split.
  - split; [exact Hstore|]. repeat split.
  - exact (get_download_result_content_type store "task"
             Sample.finished_task "20240101_120000" 5 "png" "P" "NG"
             Hstore eq_refl eq_refl eq_refl).
Defined.
